(** * ChazeFashion: the catalog application

    A shallow embedding of [catalog/models.py] and [catalog/views.py], and
    the properties of the shop proved on it.

    - The relational store is a record of tables; a table is the list of
      its rows in storage order, which is also the order in which a
      queryset without [order_by] yields them; a row is a record with the
      columns of the Django model.
    - A view is a computation in a monad that threads the world (store,
      message queue, standard output, session, pending storage faults) and
      may raise a Python exception; [try_except] is Python's try/except.
    - The ORM calls of the views ([get], [get_or_create], [filter], [save],
      [delete], [add], [remove]) are modelled by their documented meaning on
      that store, with Django's default autocommit: every write is durable
      as soon as the call returns, and nothing rolls it back.
    - Strings are ASCII strings.  Prices are [DecimalField]s with two
      decimal places and are kept as an integer number of cents; a price
      bound of the catalog query is the exact number its literal denotes.

    The file has three parts: the embedding of the code, the vocabulary in
    which the properties are stated, and the lemmas and theorems. *)

From Stdlib Require Import List ZArith QArith Bool Ascii String Lia.
From Stdlib Require Import DecimalString DecimalPos.
Import ListNotations.

Local Open Scope string_scope.
Local Open Scope list_scope.
Local Open Scope Z_scope.

(* ===================================================================== *)
(** * Python built-ins used by the views *)
(* ===================================================================== *)

Module Py.

(** [str(n)] for an integer, as used by the f-string [f'quantity_{item.id}']. *)
Definition str (n : Z) : string := NilZero.string_of_int (Z.to_int n).

(** [c.isspace()] on ASCII. *)
Definition isspace (c : ascii) : bool :=
  let n := Z.of_N (N_of_ascii c) in
  ((9 <=? n) && (n <=? 13)) || ((28 <=? n) && (n <=? 32)).

Fixpoint lstrip (l : list ascii) : list ascii :=
  match l with
  | c :: r => if isspace c then lstrip r else l
  | [] => []
  end.

(** [s.strip()] *)
Definition strip (l : list ascii) : list ascii :=
  rev (lstrip (rev (lstrip l))).

Definition digit_of (c : ascii) : option Z :=
  let n := Z.of_N (N_of_ascii c) in
  if (48 <=? n) && (n <=? 57) then Some (n - 48) else None.

Definition isdigit (c : ascii) : bool :=
  match digit_of c with Some _ => true | None => false end.

(** The longest prefix of the form [digit (["_"] digit)*] (the
    [digitpart] of Python's numeric literals: an underscore may only stand
    between two digits); returns its digits and the unread rest. *)
Fixpoint digitpart (l : list ascii) : list Z * list ascii :=
  match l with
  | c :: r =>
      match digit_of c with
      | Some d =>
          let continue (l' : list Z * list ascii) := (d :: fst l', snd l') in
          match r with
          | u :: r' =>
              if Ascii.eqb u "_"
              then match r' with
                   | c' :: _ => if isdigit c' then continue (digitpart r') else ([d], r)
                   | [] => ([d], r)
                   end
              else continue (digitpart r)
          | [] => ([d], [])
          end
      | None => ([], l)
      end
  | [] => ([], [])
  end.

(** The value of a digit string, most significant digit first. *)
Definition of_digits (ds : list Z) : Z :=
  fold_left (fun acc d => 10 * acc + d) ds 0.

(** An optional sign; [true] is a minus sign. *)
Definition sign (l : list ascii) : bool * list ascii :=
  match l with
  | c :: r =>
      if Ascii.eqb c "-" then (true, r)
      else if Ascii.eqb c "+" then (false, r)
      else (false, l)
  | [] => (false, [])
  end.

Definition signed (neg : bool) (n : Z) : Z := if neg then - n else n.

(** [int(s)] for a string [s] in base 10: surrounding whitespace is
    stripped, then an optional sign and a non-empty [digitpart] must make
    up the whole string.  [None] is [ValueError]. *)
Definition int_of_string (s : string) : option Z :=
  let (neg, body) := sign (strip (list_ascii_of_string s)) in
  match digitpart body with
  | (d :: ds, []) => Some (signed neg (of_digits (d :: ds)))
  | _ => None
  end.

(** The value of [float(s)].  A decimal literal is kept as the exact
    rational it denotes (its rounding to the nearest binary64 is not
    modelled), except above the largest binary64, where Python returns an
    infinity. *)
Inductive float : Type :=
  | Finite (q : Q)
  | Infinity (neg : bool)
  | NaN.

Definition lower (c : ascii) : ascii :=
  let n := N_of_ascii c in
  if ((65 <=? n) && (n <=? 90))%N then ascii_of_N (n + 32) else c.

Definition upper (c : ascii) : ascii :=
  let n := N_of_ascii c in
  if ((97 <=? n) && (n <=? 122))%N then ascii_of_N (n - 32) else c.

Definition isalpha (c : ascii) : bool :=
  let n := N_of_ascii (lower c) in ((97 <=? n) && (n <=? 122))%N.

(** [s.lower()] *)
Definition lower_string (s : string) : string :=
  string_of_list_ascii (map lower (list_ascii_of_string s)).

(** [s.title()]: a letter that follows a non-letter is upper-cased, every
    other letter is lower-cased. *)
Fixpoint title_from (after_letter : bool) (l : list ascii) : list ascii :=
  match l with
  | [] => []
  | c :: r =>
      (if after_letter then lower c else upper c) :: title_from (isalpha c) r
  end.

Definition title (s : string) : string :=
  string_of_list_ascii (title_from false (list_ascii_of_string s)).

(** [needle in haystack] *)
Fixpoint contains (needle haystack : string) : bool :=
  prefix needle haystack ||
  match haystack with
  | EmptyString => false
  | String _ rest => contains needle rest
  end.

(** Half an ulp above the largest finite binary64: a literal of at least
    this magnitude rounds to an infinity. *)
Definition overflow_threshold : Z := 2 ^ 1024 - 2 ^ 970.

Definition scale (m e : Z) : Q :=
  if 0 <=? e then inject_Z (m * 10 ^ e) else m # Z.to_pos (10 ^ (- e)).

Definition decimal_value (neg : bool) (ip fp : list Z) (e : Z) : float :=
  let m := of_digits (ip ++ fp) in
  let q := scale m (e - Z.of_nat (List.length fp)) in
  if Qle_bool (inject_Z overflow_threshold) q
  then Infinity neg
  else Finite (scale (signed neg m) (e - Z.of_nat (List.length fp))).

(** The exponent part [("e" | "E") ["+" | "-"] digitpart], which must end
    the string; no exponent part is exponent 0. *)
Definition exponent (l : list ascii) : option Z :=
  match l with
  | [] => Some 0
  | c :: r =>
      if Ascii.eqb (lower c) "e"
      then let (neg, body) := sign r in
           match digitpart body with
           | (d :: ds, []) => Some (signed neg (of_digits (d :: ds)))
           | _ => None
           end
      else None
  end.

(** [float(s)]: surrounding whitespace is stripped; an optional sign is
    followed by [inf], [infinity] or [nan] in any letter case, or by a
    decimal literal [digitpart] [. digitpart] [exponent] with at least one
    digit before the exponent.  [None] is [ValueError]. *)
Definition float_of_string (s : string) : option float :=
  let (neg, body) := sign (strip (list_ascii_of_string s)) in
  let word := string_of_list_ascii (map lower body) in
  if (word =? "inf")%string || (word =? "infinity")%string then Some (Infinity neg)
  else if (word =? "nan")%string then Some NaN
  else
    let (ip, rest) := digitpart body in
    let (fp, rest') :=
      match rest with
      | c :: r => if Ascii.eqb c "." then digitpart r else ([], rest)
      | [] => ([], [])
      end in
    match ip ++ fp with
    | [] => None
    | _ :: _ =>
        match exponent rest' with
        | Some e => Some (decimal_value neg ip fp e)
        | None => None
        end
    end.

End Py.

(* ===================================================================== *)
(** * The data model ([catalog/models.py]) *)
(* ===================================================================== *)

(** [django.contrib.auth.models.User], reduced to the columns read here. *)
Record User : Type := {
  user_id : Z;
  username : string
}.

(** Columns that no view reads and that have no exact representation
    ([pr_reviews], a float; [pr_images]) or are plain text
    ([pr_dimensions], [pr_weights], [pr_offers]) are left out. *)
Record Product : Type := {
  pr_id : Z;
  pr_cate : string;
  pr_name : string;
  pr_price : Z;          (* DecimalField(decimal_places=2), in cents *)
  pr_buy_quant : Z;
  pr_stk_quant : Z;
  pr_season : string;
  pr_fabric : string;
  pr_texture : string;
  pr_brand : string
}.

Record Cart : Type := {
  cart_id : Z;
  cart_user : Z
}.

Record UserProfile : Type := {
  profile_id : Z;
  profile_user : Z;
  phone : string;
  address : string;
  wallet_balance : Z     (* DecimalField(decimal_places=2), in cents *)
}.

Record Wishlist : Type := {
  wishlist_id : Z;
  wishlist_user : Z
}.

(** A row of the table behind [Wishlist.products], the ManyToManyField. *)
Record WishlistProduct : Type := {
  wp_id : Z;
  wp_wishlist : Z;
  wp_product : Z
}.

Record CartItem : Type := {
  ci_id : Z;
  ci_cart : Z;
  ci_product : Z;
  ci_quantity : Z
}.

Record OrderedItem : Type := {
  oi_id : Z;
  oi_product : Z;
  oi_quantity : Z;
  oi_price : Z           (* DecimalField(decimal_places=2), in cents *)
}.

(** The relational store.  [Seller], [Order], [Review] and [Payment] are
    declared by the models but no view below reads or writes them. *)
Record DB : Type := {
  users : list User;
  products : list Product;
  carts : list Cart;
  profiles : list UserProfile;
  wishlists : list Wishlist;
  wishlist_products : list WishlistProduct;
  cart_items : list CartItem;
  ordered_items : list OrderedItem
}.

Definition empty_db : DB :=
  {| users := []; products := []; carts := []; profiles := [];
     wishlists := []; wishlist_products := []; cart_items := [];
     ordered_items := [] |}.

(** What [django.db.models.Model] gives every model class: its table in
    the store and its primary key. *)
Class Model (R : Type) : Type := {
  table : DB -> list R;
  with_table : list R -> DB -> DB;
  pk : R -> Z;
  with_pk : Z -> R -> R
}.

#[export] Instance User_Model : Model User := {|
  table := users;
  with_table rows d :=
    {| users := rows; products := products d; carts := carts d;
       profiles := profiles d; wishlists := wishlists d;
       wishlist_products := wishlist_products d; cart_items := cart_items d;
       ordered_items := ordered_items d |};
  pk := user_id;
  with_pk k r := {| user_id := k; username := username r |}
|}.

#[export] Instance Product_Model : Model Product := {|
  table := products;
  with_table rows d :=
    {| users := users d; products := rows; carts := carts d;
       profiles := profiles d; wishlists := wishlists d;
       wishlist_products := wishlist_products d; cart_items := cart_items d;
       ordered_items := ordered_items d |};
  pk := pr_id;
  with_pk k r :=
    {| pr_id := k; pr_cate := pr_cate r; pr_name := pr_name r;
       pr_price := pr_price r; pr_buy_quant := pr_buy_quant r;
       pr_stk_quant := pr_stk_quant r; pr_season := pr_season r;
       pr_fabric := pr_fabric r; pr_texture := pr_texture r;
       pr_brand := pr_brand r |}
|}.

#[export] Instance Cart_Model : Model Cart := {|
  table := carts;
  with_table rows d :=
    {| users := users d; products := products d; carts := rows;
       profiles := profiles d; wishlists := wishlists d;
       wishlist_products := wishlist_products d; cart_items := cart_items d;
       ordered_items := ordered_items d |};
  pk := cart_id;
  with_pk k r := {| cart_id := k; cart_user := cart_user r |}
|}.

#[export] Instance UserProfile_Model : Model UserProfile := {|
  table := profiles;
  with_table rows d :=
    {| users := users d; products := products d; carts := carts d;
       profiles := rows; wishlists := wishlists d;
       wishlist_products := wishlist_products d; cart_items := cart_items d;
       ordered_items := ordered_items d |};
  pk := profile_id;
  with_pk k r :=
    {| profile_id := k; profile_user := profile_user r; phone := phone r;
       address := address r; wallet_balance := wallet_balance r |}
|}.

#[export] Instance Wishlist_Model : Model Wishlist := {|
  table := wishlists;
  with_table rows d :=
    {| users := users d; products := products d; carts := carts d;
       profiles := profiles d; wishlists := rows;
       wishlist_products := wishlist_products d; cart_items := cart_items d;
       ordered_items := ordered_items d |};
  pk := wishlist_id;
  with_pk k r := {| wishlist_id := k; wishlist_user := wishlist_user r |}
|}.

#[export] Instance WishlistProduct_Model : Model WishlistProduct := {|
  table := wishlist_products;
  with_table rows d :=
    {| users := users d; products := products d; carts := carts d;
       profiles := profiles d; wishlists := wishlists d;
       wishlist_products := rows; cart_items := cart_items d;
       ordered_items := ordered_items d |};
  pk := wp_id;
  with_pk k r :=
    {| wp_id := k; wp_wishlist := wp_wishlist r; wp_product := wp_product r |}
|}.

#[export] Instance CartItem_Model : Model CartItem := {|
  table := cart_items;
  with_table rows d :=
    {| users := users d; products := products d; carts := carts d;
       profiles := profiles d; wishlists := wishlists d;
       wishlist_products := wishlist_products d; cart_items := rows;
       ordered_items := ordered_items d |};
  pk := ci_id;
  with_pk k r :=
    {| ci_id := k; ci_cart := ci_cart r; ci_product := ci_product r;
       ci_quantity := ci_quantity r |}
|}.

#[export] Instance OrderedItem_Model : Model OrderedItem := {|
  table := ordered_items;
  with_table rows d :=
    {| users := users d; products := products d; carts := carts d;
       profiles := profiles d; wishlists := wishlists d;
       wishlist_products := wishlist_products d; cart_items := cart_items d;
       ordered_items := rows |};
  pk := oi_id;
  with_pk k r :=
    {| oi_id := k; oi_product := oi_product r; oi_quantity := oi_quantity r;
       oi_price := oi_price r |}
|}.

(** [item.quantity = qty] *)
Definition set_quantity (qty : Z) (item : CartItem) : CartItem :=
  {| ci_id := ci_id item; ci_cart := ci_cart item;
     ci_product := ci_product item; ci_quantity := qty |}.

(* ===================================================================== *)
(** * Requests, responses and the world a view runs in *)
(* ===================================================================== *)

(** The Python exceptions that the handlers can meet.  [OperationalError]
    is the storage error of the database driver; [ValidationError] is what
    a [DecimalField] raises for a value that is not a finite number. *)
Inductive Exception : Type :=
  | ValueError
  | TypeError
  | Http404
  | DoesNotExist
  | MultipleObjectsReturned
  | OperationalError
  | ValidationError.

Scheme Equality for Exception.

(** [str(e)], here the name of the class. *)
Definition exception_text (e : Exception) : string :=
  match e with
  | ValueError => "ValueError"
  | TypeError => "TypeError"
  | Http404 => "Http404"
  | DoesNotExist => "DoesNotExist"
  | MultipleObjectsReturned => "MultipleObjectsReturned"
  | OperationalError => "OperationalError"
  | ValidationError => "ValidationError"
  end.

Inductive Level : Type := Info | Success | Error.

Definition Message : Type := (Level * string)%type.

(** A [QueryDict]: the submitted (key, value) pairs in order. *)
Definition QueryDict : Type := list (string * string).

Inductive Method : Type := GET | POST.

Record Request : Type := {
  method : Method;
  req_user : option User;       (* [None] is the anonymous user *)
  req_GET : QueryDict;
  req_POST : QueryDict
}.

(** A cart line as [select_related('product')] loads it: the row and the
    product row it joins. *)
Definition LoadedItem : Type := (CartItem * Product)%type.

(** The part of a template context that comes from the store. *)
Inductive Context : Type :=
  | ProductListContext (products : list Product)
  | CartContext (cart_items : list LoadedItem) (total : Z)
  | WishlistContext (wishlist : Wishlist)
  | ProfileContext (user_profile : UserProfile)
  | SignupContext.

Inductive Response : Type :=
  | Render (template : string) (context : Context)
  | Redirect (to : string) (arg : option Z)
  | PageNotFound                      (* an uncaught [Http404] *)
  | ServerError (e : Exception).      (* any other uncaught exception *)

(** The world: the store, the queue of the messages framework, what was
    printed, the logged-in user of the session, and the storage faults
    still to come ([true]: the next storage call fails). [result_cache]
    is the result cache of the one queryset a request iterates twice
    ([cart_items] in the cart view): Python objects shared by every later
    iteration, empty until the queryset is first evaluated. *)
Record World : Type := {
  db : DB;
  messages : list Message;
  stdout : list string;
  session : option Z;
  faults : list bool;
  result_cache : option (list LoadedItem)
}.

Definition set_db (d : DB) (w : World) : World :=
  {| db := d; messages := messages w; stdout := stdout w;
     session := session w; faults := faults w;
     result_cache := result_cache w |}.

Definition set_messages (m : list Message) (w : World) : World :=
  {| db := db w; messages := m; stdout := stdout w;
     session := session w; faults := faults w;
     result_cache := result_cache w |}.

Definition set_stdout (o : list string) (w : World) : World :=
  {| db := db w; messages := messages w; stdout := o;
     session := session w; faults := faults w;
     result_cache := result_cache w |}.

Definition set_session (u : option Z) (w : World) : World :=
  {| db := db w; messages := messages w; stdout := stdout w;
     session := u; faults := faults w;
     result_cache := result_cache w |}.

Definition set_faults (f : list bool) (w : World) : World :=
  {| db := db w; messages := messages w; stdout := stdout w;
     session := session w; faults := f;
     result_cache := result_cache w |}.

Definition set_result_cache (c : option (list LoadedItem)) (w : World) : World :=
  {| db := db w; messages := messages w; stdout := stdout w;
     session := session w; faults := faults w;
     result_cache := c |}.

(** The world at the start of a request on store [d]. *)
Definition start (d : DB) : World :=
  {| db := d; messages := []; stdout := []; session := None;
     faults := []; result_cache := None |}.

(* ===================================================================== *)
(** * The monad of views: state and Python exceptions *)
(* ===================================================================== *)

Inductive Result (A : Type) : Type :=
  | Return (a : A)
  | Raise (e : Exception).

Arguments Return {A} a.
Arguments Raise {A} e.

Definition M (A : Type) : Type := World -> Result A * World.

Definition ret {A} (a : A) : M A := fun w => (Return a, w).

Definition bind {A B} (m : M A) (k : A -> M B) : M B :=
  fun w =>
    match m w with
    | (Return a, w') => k a w'
    | (Raise e, w') => (Raise e, w')
    end.

Definition raise {A} (e : Exception) : M A := fun w => (Raise e, w).

Notation "x <- m ;; k" := (bind m (fun x => k))
  (at level 61, m at next level, right associativity).
Notation "' pat <- m ;; k" := (bind m (fun x => match x with pat => k end))
  (at level 61, pat pattern, m at next level, right associativity).
Notation "m ;; k" := (bind m (fun _ => k))
  (at level 61, right associativity).

(** [isinstance(e, classes)]; [Exception] itself is [any_exception]. *)
Definition one_of (classes : list Exception) (e : Exception) : bool :=
  existsb (Exception_beq e) classes.

Definition any_exception (e : Exception) : bool := true.

(** [try: body  except classes as e: handler e].  What [body] changed
    before it raised stays changed. *)
Definition try_except {A} (body : M A) (classes : Exception -> bool)
    (handler : Exception -> M A) : M A :=
  fun w =>
    match body w with
    | (Return a, w') => (Return a, w')
    | (Raise e, w') => if classes e then handler e w' else (Raise e, w')
    end.

Definition get_db : M DB := fun w => (Return (db w), w).
Definition put_db (d : DB) : M unit := fun w => (Return tt, set_db d w).

(** [print(line)] *)
Definition print (line : string) : M unit :=
  fun w => (Return tt, set_stdout (stdout w ++ [line]) w).

(** [messages.info / success / error (request, text)] *)
Definition add_message (l : Level) (text : string) : M unit :=
  fun w => (Return tt, set_messages (messages w ++ [(l, text)]) w).

(** [login(request, user)] *)
Definition login (user : User) : M unit :=
  fun w => (Return tt, set_session (Some (user_id user)) w).

(** [logout(request)]: the session is flushed. *)
Definition logout : M unit :=
  fun w => (Return tt, set_session None w).

(** One round trip to the database: it fails when the next pending fault
    says so, and then changes nothing. *)
Definition storage : M unit :=
  fun w =>
    match faults w with
    | [] => (Return tt, w)
    | false :: fs => (Return tt, set_faults fs w)
    | true :: fs => (Raise OperationalError, set_faults fs w)
    end.

(** What Django does with the outcome of a view. *)
Definition respond (view : M Response) (w : World) : Response * World :=
  match view w with
  | (Return r, w') => (r, w')
  | (Raise Http404, w') => (PageNotFound, w')
  | (Raise e, w') => (ServerError e, w')
  end.

(* ===================================================================== *)
(** * The ORM calls of the views *)
(* ===================================================================== *)

Module ORM.
Section Manager.

Context {R : Type} `{Model R}.

(** An [AutoField] primary key: one more than the largest in use. *)
Definition next_pk (rows : list R) : Z :=
  1 + fold_right Z.max 0 (map pk rows).

(** Evaluating [Model.objects.filter(p)]: the rows in storage order. *)
Definition select (p : R -> bool) : M (list R) :=
  storage ;;
  d <- get_db ;;
  ret (filter p (table d)).

(** [Model.objects.filter(p).exists()] *)
Definition exists_ (p : R -> bool) : M bool :=
  rows <- select p ;;
  ret (match rows with [] => false | _ :: _ => true end).

(** [Model.objects.get(p)] *)
Definition get (p : R -> bool) : M R :=
  rows <- select p ;;
  match rows with
  | [] => raise DoesNotExist
  | [r] => ret r
  | _ :: _ :: _ => raise MultipleObjectsReturned
  end.

(** [Model.objects.create] with the given fields: an INSERT under a fresh key. *)
Definition create (fields : R) : M R :=
  storage ;;
  d <- get_db ;;
  let r := with_pk (next_pk (table d)) fields in
  put_db (with_table (table d ++ [r]) d) ;;
  ret r.

(** [Model.objects.get_or_create(p, defaults)]: the row that matches, or
    a new row made of the lookup and the defaults. *)
Definition get_or_create (p : R -> bool) (fields : R) : M (R * bool) :=
  try_except (r <- get p ;; ret (r, false))
    (one_of [DoesNotExist])
    (fun _ => r <- create fields ;; ret (r, true)).

(** [django.shortcuts.get_object_or_404(Model, p)] *)
Definition get_object_or_404 (p : R -> bool) : M R :=
  try_except (get p) (one_of [DoesNotExist]) (fun _ => raise Http404).

(** The table after [instance.save()] of an instance that has a key: an
    UPDATE of the row with that key, or an INSERT when no row has it. *)
Definition saved (r : R) (rows : list R) : list R :=
  if existsb (fun x => pk x =? pk r) rows
  then map (fun x => if pk x =? pk r then r else x) rows
  else rows ++ [r].

(** The table after [instance.delete()]: a DELETE of the row with that
    key. *)
Definition deleted (r : R) (rows : list R) : list R :=
  filter (fun x => negb (pk x =? pk r)) rows.

(** [instance.save()] *)
Definition save (r : R) : M unit :=
  storage ;;
  d <- get_db ;;
  put_db (with_table (saved r (table d)) d).

(** [instance.delete()] *)
Definition delete (r : R) : M unit :=
  storage ;;
  d <- get_db ;;
  put_db (with_table (deleted r (table d)) d).

End Manager.
End ORM.

(* ===================================================================== *)
(** * The signal handlers of [catalog/models.py] *)
(* ===================================================================== *)

Module Models.

Definition Cart_of_user (instance : User) (c : Cart) : bool :=
  cart_user c =? user_id instance.

Definition UserProfile_of_user (instance : User) (p : UserProfile) : bool :=
  profile_user p =? user_id instance.

Definition Wishlist_of_user (instance : User) (l : Wishlist) : bool :=
  wishlist_user l =? user_id instance.

(** The rows [get_or_create(user=instance, defaults=...)] inserts: the
    lookup, the defaults given, and the column defaults of the model. *)
Definition new_Cart (instance : User) : Cart :=
  {| cart_id := 0; cart_user := user_id instance |}.

Definition new_UserProfile (instance : User) : UserProfile :=
  {| profile_id := 0; profile_user := user_id instance;
     phone := ""; address := ""; wallet_balance := 0 |}.

Definition new_Wishlist (instance : User) : Wishlist :=
  {| wishlist_id := 0; wishlist_user := user_id instance |}.

Definition status (was_created : bool) : string :=
  if was_created then "created" else "already existed".

Definition create_user_profile_and_related_objects
    (instance : User) (created : bool) : M unit :=
  if created then
    try_except
      ('(cart, cart_created) <-
         ORM.get_or_create (Cart_of_user instance) (new_Cart instance) ;;
       '(user_profile, profile_created) <-
         ORM.get_or_create (UserProfile_of_user instance)
           (new_UserProfile instance) ;;
       '(wishlist, wishlist_created) <-
         ORM.get_or_create (Wishlist_of_user instance)
           (new_Wishlist instance) ;;
       print ("User " ++ username instance ++ " created:")%string ;;
       print ("  - Cart: " ++ status cart_created)%string ;;
       print ("  - Profile: " ++ status profile_created)%string ;;
       print ("  - Wishlist: " ++ status wishlist_created)%string)
      any_exception
      (fun e =>
         print ("Error creating user-related objects for "
                ++ username instance ++ ": " ++ exception_text e)%string)
  else ret tt.

Definition create_user_cart (instance : User) (created : bool) : M unit :=
  if created then
    ORM.get_or_create (Cart_of_user instance) (new_Cart instance) ;; ret tt
  else ret tt.

Definition create_user_profile (instance : User) (created : bool) : M unit :=
  if created then
    ORM.get_or_create (UserProfile_of_user instance)
      (new_UserProfile instance) ;; ret tt
  else ret tt.

Definition create_user_wishlist (instance : User) (created : bool) : M unit :=
  if created then
    ORM.get_or_create (Wishlist_of_user instance) (new_Wishlist instance) ;;
    ret tt
  else ret tt.

(** [post_save.send(sender=User, instance, created)]: the receivers run
    in the order the [@receiver] decorators connected them, and an
    exception of one of them is not caught by the dispatcher. *)
Definition post_save (instance : User) (created : bool) : M unit :=
  create_user_profile_and_related_objects instance created ;;
  create_user_cart instance created ;;
  create_user_profile instance created ;;
  create_user_wishlist instance created.

(** Saving a new [User]: the INSERT, then the [post_save] signal. *)
Definition User_create (fields : User) : M User :=
  user <- ORM.create fields ;;
  post_save user true ;;
  ret user.

End Models.

(* ===================================================================== *)
(** * The views of [catalog/views.py] *)
(* ===================================================================== *)

(** [user_login] rests on [authenticate] of [django.contrib.auth], and
    [product_detail] reads the reviews, which the store here does not
    hold; these two views are left out. *)

Module Views.

(** A value handed to [int()]: a submitted string, or a Python int. *)
Inductive PyValue : Type :=
  | PyStr (s : string)
  | PyInt (n : Z).

(** [QueryDict.get(key)]: the last value submitted under the key. *)
Fixpoint QueryDict_get (q : QueryDict) (key : string) : option string :=
  match q with
  | [] => None
  | (k, v) :: rest =>
      match QueryDict_get rest key with
      | Some v' => Some v'
      | None => if (k =? key)%string then Some v else None
      end
  end.

(** [QueryDict.get(key, default)] *)
Definition QueryDict_get_default (q : QueryDict) (key : string)
    (default : Z) : PyValue :=
  match QueryDict_get q key with
  | Some v => PyStr v
  | None => PyInt default
  end.

(** [int(x)] *)
Definition int (x : PyValue) : M Z :=
  match x with
  | PyInt n => ret n
  | PyStr s =>
      match Py.int_of_string s with
      | Some n => ret n
      | None => raise ValueError
      end
  end.

(** [float(s)] *)
Definition float (s : string) : M Py.float :=
  match Py.float_of_string s with
  | Some x => ret x
  | None => raise ValueError
  end.

(** [@login_required]: an anonymous request is sent to the login page. *)
Definition login_required (view : User -> Request -> M Response)
    (request : Request) : M Response :=
  match req_user request with
  | Some user => view user request
  | None => ret (Redirect "login" None)
  end.

(* ------------------------------------------------------------------- *)
(** ** signup and profile *)

Section Forms.

(** [UserCreationForm(request.POST)] of [django.contrib.auth]: the
    user to save when the form is valid, else [form.errors], a list
    of fields with their errors. *)
Variable UserCreationForm :
  DB -> QueryDict -> User + list (string * list string).

(** [UserProfileForm(request.POST, request.FILES, instance)] of
    [catalog/forms.py]: the edited instance when the form is valid. *)
Variable UserProfileForm : QueryDict -> UserProfile -> option UserProfile.

Fixpoint report_errors (field : string) (errors : list string) : M unit :=
  match errors with
  | [] => ret tt
  | error :: rest =>
      add_message Error (Py.title field ++ ": " ++ error)%string ;;
      report_errors field rest
  end.

Fixpoint report_form_errors (items : list (string * list string)) : M unit :=
  match items with
  | [] => ret tt
  | (field, errors) :: rest =>
      report_errors field errors ;;
      report_form_errors rest
  end.

Definition signup (request : Request) : M Response :=
  match method request with
  | POST =>
      d <- get_db ;;
      match UserCreationForm d (req_POST request) with
      | inl fields =>
          try_except
            (user <- Models.User_create fields ;;
             login user ;;
             add_message Success
               ("Welcome to ChazeFashion, " ++ username user
                ++ "! Your account has been created successfully.")%string ;;
             ret (Redirect "home" None))
            any_exception
            (fun e =>
               add_message Error
                 ("Error creating account: " ++ exception_text e
                  ++ ". Please try again.")%string ;;
               ret (Render "catalog/signup.html" SignupContext))
      | inr errors =>
          report_form_errors errors ;;
          ret (Render "catalog/signup.html" SignupContext)
      end
  | GET => ret (Render "catalog/signup.html" SignupContext)
  end.

Definition profile_view (user : User) (request : Request) : M Response :=
  '(user_profile, created) <-
    ORM.get_or_create (Models.UserProfile_of_user user)
      (Models.new_UserProfile user) ;;
  match method request with
  | POST =>
      match UserProfileForm (req_POST request) user_profile with
      | Some edited =>
          ORM.save edited ;;
          add_message Success "Profile updated successfully!" ;;
          ret (Redirect "profile" None)
      | None =>
          add_message Error "Please correct the errors below." ;;
          ret (Render "catalog/profile.html" (ProfileContext user_profile))
      end
  | GET => ret (Render "catalog/profile.html" (ProfileContext user_profile))
  end.

Definition profile : Request -> M Response := login_required profile_view.

End Forms.

(* ------------------------------------------------------------------- *)
(** ** product_list *)

(** A queryset on products that is not evaluated yet: its WHERE clause. *)
Definition QuerySet : Type := Product -> bool.

Definition all : QuerySet := fun _ => true.

(** [qs.filter(cond)] *)
Definition qs_filter (qs : QuerySet) (cond : Product -> bool) : QuerySet :=
  fun p => qs p && cond p.

(** [field__icontains=needle] *)
Definition icontains (needle field : string) : bool :=
  Py.contains (Py.lower_string needle) (Py.lower_string field).

(** The price of a product as a number: cents over 100. *)
Definition price_value (p : Product) : Q := pr_price p # 100.

(** The value a [DecimalField] lookup is given: a float that is not a
    finite number is refused with a [ValidationError]. *)
Definition DecimalField_lookup (x : Py.float) : M Q :=
  match x with
  | Py.Finite q => ret q
  | Py.Infinity _ | Py.NaN => raise ValidationError
  end.

(** [if value: ...]: a parameter that is missing or empty is falsy. *)
Definition if_given {A} (value : option string) (then_ : string -> A)
    (else_ : A) : A :=
  match value with
  | Some s => if (s =? "")%string then else_ else then_ s
  | None => else_
  end.

Definition product_list (request : Request) : M Response :=
  let products := all in
  let category := QueryDict_get (req_GET request) "category" in
  let season := QueryDict_get (req_GET request) "season" in
  let fabric := QueryDict_get (req_GET request) "fabric" in
  let price_min := QueryDict_get (req_GET request) "price_min" in
  let price_max := QueryDict_get (req_GET request) "price_max" in
  let brand := QueryDict_get (req_GET request) "brand" in
  let products :=
    if_given category
      (fun category => qs_filter products (fun p => (pr_cate p =? category)%string))
      products in
  let products :=
    if_given season
      (fun season => qs_filter products (fun p => (pr_season p =? season)%string))
      products in
  let products :=
    if_given fabric
      (fun fabric => qs_filter products (fun p => icontains fabric (pr_fabric p)))
      products in
  products <-
    if_given price_min
      (fun price_min =>
         try_except
           (x <- float price_min ;;
            bound <- DecimalField_lookup x ;;
            ret (qs_filter products (fun p => Qle_bool bound (price_value p))))
           (one_of [ValueError])
           (fun _ => ret products))
      (ret products) ;;
  products <-
    if_given price_max
      (fun price_max =>
         try_except
           (x <- float price_max ;;
            bound <- DecimalField_lookup x ;;
            ret (qs_filter products (fun p => Qle_bool (price_value p) bound)))
           (one_of [ValueError])
           (fun _ => ret products))
      (ret products) ;;
  let products :=
    if_given brand
      (fun brand => qs_filter products (fun p => icontains brand (pr_brand p)))
      products in
  rows <- ORM.select products ;;
  ret (Render "catalog/product_list.html" (ProductListContext rows)).

(* ------------------------------------------------------------------- *)
(** ** home and user_logout *)

(** The landing page: [Product.objects.all()[:8]], the first eight rows,
    fetched when the template iterates the queryset. *)
Definition home (request : Request) : M Response :=
  rows <- ORM.select all ;;
  ret (Render "catalog/home.html" (ProductListContext (firstn 8 rows))).

Definition user_logout_view (user : User) (request : Request) : M Response :=
  logout ;;
  add_message Success "You have been logged out successfully." ;;
  ret (Redirect "home" None).

Definition user_logout : Request -> M Response := login_required user_logout_view.

(* ------------------------------------------------------------------- *)
(** ** The cart *)

Definition CartItem_of (cart : Cart) (product : Product) (i : CartItem) : bool :=
  (ci_cart i =? cart_id cart) && (ci_product i =? pr_id product).

Definition add_to_cart_view (product_id : Z) (user : User)
    (request : Request) : M Response :=
  product <- ORM.get_object_or_404 (fun p => pr_id p =? product_id) ;;
  '(cart, created) <-
    ORM.get_or_create (Models.Cart_of_user user) (Models.new_Cart user) ;;
  quantity <-
    try_except
      (quantity <- int (QueryDict_get_default (req_POST request) "quantity" 1) ;;
       if quantity <=? 0 then ret 1 else ret quantity)
      (one_of [ValueError; TypeError])
      (fun _ => ret 1) ;;
  '(cart_item, created) <-
    ORM.get_or_create (CartItem_of cart product)
      {| ci_id := 0; ci_cart := cart_id cart; ci_product := pr_id product;
         ci_quantity := quantity |} ;;
  if negb created then
    ORM.save (set_quantity (ci_quantity cart_item + quantity) cart_item) ;;
    add_message Success ("Updated " ++ pr_name product ++ " quantity in cart!")%string ;;
    ret (Redirect "cart" None)
  else
    add_message Success (pr_name product ++ " added to cart!")%string ;;
    ret (Redirect "cart" None).

Definition add_to_cart (request : Request) (product_id : Z) : M Response :=
  login_required (add_to_cart_view product_id) request.

(** The rows of [cart.items.select_related('product').all()]: the items
    of the cart in storage order, each joined with its product. *)
Definition items_of (d : DB) (cart : Cart) : list LoadedItem :=
  flat_map
    (fun i => map (pair i) (filter (fun p => pr_id p =? ci_product i) (products d)))
    (filter (fun i => ci_cart i =? cart_id cart) (cart_items d)).

(** Iterating [cart_items]: the first iteration runs the query and fills
    the result cache, every later one walks the cached objects. *)
Definition iterate (cart : Cart) : M (list LoadedItem) :=
  fun w =>
    match result_cache w with
    | Some items => (Return items, w)
    | None =>
        (storage ;;
         d <- get_db ;;
         let items := items_of d cart in
         (fun w' => (Return items, set_result_cache (Some items) w'))) w
    end.

Fixpoint replace_nth {A} (n : nat) (x : A) (l : list A) : list A :=
  match l, n with
  | [], _ => []
  | _ :: r, O => x :: r
  | y :: r, S n' => y :: replace_nth n' x r
  end.

(** An assignment to an attribute of the [n]-th cached object. *)
Definition assign (n : nat) (item : LoadedItem) : M unit :=
  fun w =>
    (Return tt,
     set_result_cache (option_map (replace_nth n item) (result_cache w)) w).

(** The body of [for item in cart_items], from the [n]-th object on. *)
Fixpoint update_quantities (post : QueryDict) (n : nat)
    (items : list LoadedItem) : M unit :=
  match items with
  | [] => ret tt
  | (item, product) :: rest =>
      let qty_key := ("quantity_" ++ Py.str (ci_id item))%string in
      qty <- int (QueryDict_get_default post qty_key (ci_quantity item)) ;;
      (if 0 <? qty then
         assign n (set_quantity qty item, product) ;;
         ORM.save (set_quantity qty item)
       else
         ORM.delete item) ;;
      update_quantities post (S n) rest
  end.

(** [sum(item.product.pr_price * item.quantity for item in cart_items)] *)
Definition total_of (items : list LoadedItem) : Z :=
  fold_left (fun acc i => acc + pr_price (snd i) * ci_quantity (fst i)) items 0.

Definition cart_view (user : User) (request : Request) : M Response :=
  '(cart, created) <-
    ORM.get_or_create (Models.Cart_of_user user) (Models.new_Cart user) ;;
  returned <-
    match method request with
    | POST =>
        try_except
          (items <- iterate cart ;;
           update_quantities (req_POST request) 0 items ;;
           add_message Success "Cart updated successfully!" ;;
           ret (Some (Redirect "cart" None)))
          (one_of [ValueError; TypeError])
          (fun e =>
             add_message Error
               "Invalid quantity values. Please enter valid numbers." ;;
             ret None)
    | GET => ret None
    end ;;
  match returned with
  | Some response => ret response
  | None =>
      items <- iterate cart ;;
      let total := total_of items in
      ret (Render "catalog/cart.html" (CartContext items total))
  end.

Definition cart : Request -> M Response := login_required cart_view.

(** The lookup [id=item_id, cart__user=request.user]: the item with that
    key whose cart belongs to the user. *)
Definition owned_item (d : DB) (user : User) (item_id : Z) (i : CartItem) : bool :=
  (ci_id i =? item_id) &&
  existsb (fun c => (cart_id c =? ci_cart i) && (cart_user c =? user_id user))
    (carts d).

Definition remove_from_cart_view (item_id : Z) (user : User)
    (request : Request) : M Response :=
  try_except
    (d <- get_db ;;
     cart_item <- ORM.get_object_or_404 (owned_item d user item_id) ;;
     product <- ORM.get (fun p => pr_id p =? ci_product cart_item) ;;
     let product_name := pr_name product in
     ORM.delete cart_item ;;
     add_message Success (product_name ++ " removed from cart.")%string)
    any_exception
    (fun e => add_message Error "Error removing item from cart.") ;;
  ret (Redirect "cart" None).

Definition remove_from_cart (request : Request) (item_id : Z) : M Response :=
  login_required (remove_from_cart_view item_id) request.

(* ------------------------------------------------------------------- *)
(** ** The wishlist *)

(** A row of the table behind [wishlist.products] for this product. *)
Definition in_wishlist (wishlist : Wishlist) (product_id : Z)
    (r : WishlistProduct) : bool :=
  (wp_wishlist r =? wishlist_id wishlist) && (wp_product r =? product_id).

(** [wishlist.products.add(product)]: a row is inserted unless the
    product is in the relation already. *)
Definition products_add (wishlist : Wishlist) (product : Product) : M unit :=
  present <- ORM.exists_ (in_wishlist wishlist (pr_id product)) ;;
  if present then ret tt
  else
    ORM.create {| wp_id := 0; wp_wishlist := wishlist_id wishlist;
                  wp_product := pr_id product |} ;;
    ret tt.

(** [wishlist.products.remove(product)]: the rows of the relation for
    this product are deleted. *)
Definition products_remove (wishlist : Wishlist) (product : Product) : M unit :=
  storage ;;
  d <- get_db ;;
  put_db (with_table
            (filter (fun r => negb (in_wishlist wishlist (pr_id product) r))
               (wishlist_products d)) d).

Definition wishlist_view (user : User) (request : Request) : M Response :=
  '(user_wishlist, created) <-
    ORM.get_or_create (Models.Wishlist_of_user user) (Models.new_Wishlist user) ;;
  ret (Render "catalog/wishlist.html" (WishlistContext user_wishlist)).

Definition wishlist : Request -> M Response := login_required wishlist_view.

Definition add_to_wishlist_view (product_id : Z) (user : User)
    (request : Request) : M Response :=
  product <- ORM.get_object_or_404 (fun p => pr_id p =? product_id) ;;
  '(user_wishlist, created) <-
    ORM.get_or_create (Models.Wishlist_of_user user) (Models.new_Wishlist user) ;;
  present <- ORM.exists_ (in_wishlist user_wishlist product_id) ;;
  (if present then
     add_message Info (pr_name product ++ " is already in your wishlist!")%string
   else
     products_add user_wishlist product ;;
     add_message Success (pr_name product ++ " added to wishlist!")%string) ;;
  ret (Redirect "product_detail" (Some product_id)).

Definition add_to_wishlist (request : Request) (product_id : Z) : M Response :=
  login_required (add_to_wishlist_view product_id) request.

Definition remove_from_wishlist_view (product_id : Z) (user : User)
    (request : Request) : M Response :=
  try_except
    (product <- ORM.get_object_or_404 (fun p => pr_id p =? product_id) ;;
     '(user_wishlist, created) <-
       ORM.get_or_create (Models.Wishlist_of_user user)
         (Models.new_Wishlist user) ;;
     present <- ORM.exists_ (in_wishlist user_wishlist product_id) ;;
     if present then
       products_remove user_wishlist product ;;
       add_message Success (pr_name product ++ " removed from wishlist.")%string
     else
       add_message Info "Product was not in your wishlist.")
    any_exception
    (fun e => add_message Error "Error removing product from wishlist.") ;;
  ret (Redirect "wishlist" None).

Definition remove_from_wishlist (request : Request) (product_id : Z) : M Response :=
  login_required (remove_from_wishlist_view product_id) request.

End Views.

(* ===================================================================== *)
(** * The vocabulary of the properties *)
(* ===================================================================== *)

(* --------------------------------------------------------------------- *)
(** ** The storage *)

(** A world in which the storage does not fail. *)
Definition healthy (w : World) : Prop := faults w = [].

(** The row an INSERT of [fields] adds to the store [d]. *)
Definition inserted {R} `{Model R} (fields : R) (d : DB) : R :=
  with_pk (ORM.next_pk (table d)) fields.

(** No two rows share a primary key. *)
Definition keyed {R} `{Model R} (rows : list R) : Prop := NoDup (map pk rows).

(** The rows of a table that belong to a lookup. *)
Definition count {R} (p : R -> bool) (rows : list R) : nat :=
  List.length (filter p rows).

(* --------------------------------------------------------------------- *)
(** ** Provisioning *)

(** The user has exactly one cart, one profile and one wishlist. *)
Definition provisioned (instance : User) (d : DB) : Prop :=
  count (Models.Cart_of_user instance) (carts d) = 1%nat /\
  count (Models.UserProfile_of_user instance) (profiles d) = 1%nat /\
  count (Models.Wishlist_of_user instance) (wishlists d) = 1%nat.

(** What the one-to-one columns guarantee: no user has two carts, two
    profiles or two wishlists. *)
Definition one_to_one (instance : User) (d : DB) : Prop :=
  (count (Models.Cart_of_user instance) (carts d) <= 1)%nat /\
  (count (Models.UserProfile_of_user instance) (profiles d) <= 1)%nat /\
  (count (Models.Wishlist_of_user instance) (wishlists d) <= 1)%nat.

(** The four receivers connected to [post_save] of [User]. *)
Inductive Receiver : Type :=
  | ProfileAndRelatedObjects
  | CartOnly
  | ProfileOnly
  | WishlistOnly.

Definition receiver (r : Receiver) : User -> bool -> M unit :=
  match r with
  | ProfileAndRelatedObjects => Models.create_user_profile_and_related_objects
  | CartOnly => Models.create_user_cart
  | ProfileOnly => Models.create_user_profile
  | WishlistOnly => Models.create_user_wishlist
  end.

(** A sequence of invocations of receivers for the same user. *)
Fixpoint invoke (calls : list (Receiver * bool)) (instance : User) : M unit :=
  match calls with
  | [] => ret tt
  | (r, created) :: rest => receiver r instance created ;; invoke rest instance
  end.

(* --------------------------------------------------------------------- *)
(** ** The catalog query *)

(** A criterion is supplied when the parameter is present and not empty
    (the view tests [if category:], and so on). *)
Definition given (q : QueryDict) (key : string) : option string :=
  match Views.QueryDict_get q key with
  | Some s => if (s =? "")%string then None else Some s
  | None => None
  end.

(** The number a supplied price bound denotes, if [float()] accepts it. *)
Definition bound_of (q : QueryDict) (key : string) : option Py.float :=
  match given q key with
  | Some s => Py.float_of_string s
  | None => None
  end.

(** No supplied price bound is an infinity or a NaN. *)
Definition finite_bounds (q : QueryDict) : Prop :=
  forall key x,
    key = "price_min" \/ key = "price_max" ->
    bound_of q key = Some x -> exists r, x = Py.Finite r.

(** The product satisfies every supplied criterion. *)
Definition criteria_hold (q : QueryDict) (p : Product) : Prop :=
  (forall c, given q "category" = Some c -> pr_cate p = c) /\
  (forall s, given q "season" = Some s -> pr_season p = s) /\
  (forall f, given q "fabric" = Some f -> Views.icontains f (pr_fabric p) = true) /\
  (forall x, bound_of q "price_min" = Some (Py.Finite x) -> (x <= Views.price_value p)%Q) /\
  (forall x, bound_of q "price_max" = Some (Py.Finite x) -> (Views.price_value p <= x)%Q) /\
  (forall b, given q "brand" = Some b -> Views.icontains b (pr_brand p) = true).

Definition holds {A} (o : option A) (test : A -> bool) : bool :=
  match o with
  | Some a => test a
  | None => true
  end.

Definition holds_bound (o : option Py.float) (test : Q -> bool) : bool :=
  match o with
  | Some (Py.Finite x) => test x
  | _ => true
  end.

(** The conjunction of the supplied criteria, as the WHERE clause. *)
Definition selects (q : QueryDict) (p : Product) : bool :=
  holds (given q "category") (fun c => (pr_cate p =? c)%string) &&
  holds (given q "season") (fun s => (pr_season p =? s)%string) &&
  holds (given q "fabric") (fun f => Views.icontains f (pr_fabric p)) &&
  holds_bound (bound_of q "price_min") (fun x => Qle_bool x (Views.price_value p)) &&
  holds_bound (bound_of q "price_max") (fun x => Qle_bool (Views.price_value p) x) &&
  holds (given q "brand") (fun b => Views.icontains b (pr_brand p)).

Definition narrowed (o : option string) (qs : Views.QuerySet)
    (test : string -> Product -> bool) : Views.QuerySet :=
  match o with
  | Some s => Views.qs_filter qs (test s)
  | None => qs
  end.

(** The view in terms of the supplied criteria alone: the parameters
    enter only through [given] and [bound_of]. *)
Definition catalog_query (q : QueryDict) (w : World) : Result Response * World :=
  let qs := narrowed (given q "category") Views.all
              (fun c p => (pr_cate p =? c)%string) in
  let qs := narrowed (given q "season") qs
              (fun s p => (pr_season p =? s)%string) in
  let qs := narrowed (given q "fabric") qs
              (fun f p => Views.icontains f (pr_fabric p)) in
  match bound_of q "price_min" with
  | Some (Py.Infinity _) | Some Py.NaN => (Raise ValidationError, w)
  | low =>
      let qs :=
        match low with
        | Some (Py.Finite x) =>
            Views.qs_filter qs (fun p => Qle_bool x (Views.price_value p))
        | _ => qs
        end in
      match bound_of q "price_max" with
      | Some (Py.Infinity _) | Some Py.NaN => (Raise ValidationError, w)
      | high =>
          let qs :=
            match high with
            | Some (Py.Finite x) =>
                Views.qs_filter qs (fun p => Qle_bool (Views.price_value p) x)
            | _ => qs
            end in
          let qs := narrowed (given q "brand") qs
                      (fun b p => Views.icontains b (pr_brand p)) in
          (rows <- ORM.select qs ;;
           ret (Render "catalog/product_list.html" (ProductListContext rows))) w
      end
  end.

(** The query without the parameter [key]. *)
Definition without (key : string) (q : QueryDict) : QueryDict :=
  filter (fun kv => negb (fst kv =? key)%string) q.

Definition with_GET (q : QueryDict) (request : Request) : Request :=
  {| method := method request; req_user := req_user request;
     req_GET := q; req_POST := req_POST request |}.

(* --------------------------------------------------------------------- *)
(** ** The bulk update of the cart *)

(** The quantity the form asks for an item: the integer under the key of
    the item, or the quantity the item has when the form has no such key.
    [None]: the value under the key is not an integer. *)
Definition requested (post : QueryDict) (item : CartItem) : option Z :=
  match Views.QueryDict_get post ("quantity_" ++ Py.str (ci_id item))%string with
  | Some s => Py.int_of_string s
  | None => Some (ci_quantity item)
  end.

(** The loop of the view as a function of the table of cart items and of
    the cached objects: it returns whether the loop ran to its end, and
    what it left of the two. *)
Fixpoint sweep (post : QueryDict) (n : nat) (items : list LoadedItem)
    (rows : list CartItem) (cache : list LoadedItem)
    : bool * (list CartItem * list LoadedItem) :=
  match items with
  | [] => (true, (rows, cache))
  | (item, product) :: rest =>
      match requested post item with
      | None => (false, (rows, cache))
      | Some qty =>
          if 0 <? qty
          then sweep post (S n) rest
                 (ORM.saved (set_quantity qty item) rows)
                 (Views.replace_nth n (set_quantity qty item, product) cache)
          else sweep post (S n) rest (ORM.deleted item rows) cache
      end
  end.

(** The world with the given table of cart items and cached objects. *)
Definition cart_world (rows : list CartItem) (cache : list LoadedItem)
    (w : World) : World :=
  set_result_cache (Some cache) (set_db (with_table rows (db w)) w).

Definition updated_message : Message := (Success, "Cart updated successfully!").

Definition invalid_message : Message :=
  (Error, "Invalid quantity values. Please enter valid numbers.").

Definition loaded_id (i : LoadedItem) : Z := ci_id (fst i).

(** No item of the cart is asked a quantity below 1 (so the update
    deletes nothing). *)
Definition deletes_nothing (post : QueryDict) (items : list LoadedItem) : Prop :=
  forall i p qty, In (i, p) items -> requested post i = Some qty -> 0 < qty.

(* --------------------------------------------------------------------- *)
(** ** The total of the cart *)

Definition sumZ (l : list Z) : Z := fold_right Z.add 0 l.

(** The current catalog price of a product, by its key. *)
Definition price_of (d : DB) (product_id : Z) : Z :=
  match find (fun p => pr_id p =? product_id) (products d) with
  | Some p => pr_price p
  | None => 0
  end.

Definition in_cart (cart : Cart) (i : CartItem) : bool :=
  ci_cart i =? cart_id cart.

(** The sumZ, over the rows of the cart, of the current catalog price of
    the product times the quantity of the row. *)
Definition cart_total (d : DB) (cart : Cart) : Z :=
  sumZ (map (fun i => price_of d (ci_product i) * ci_quantity i)
         (filter (in_cart cart) (cart_items d))).

(** The number of units of a product in the cart. *)
Definition units (d : DB) (cart : Cart) (product_id : Z) : Z :=
  sumZ (map (fun i => if ci_product i =? product_id then ci_quantity i else 0)
         (filter (in_cart cart) (cart_items d))).

(** [product.pr_price = price] *)
Definition set_price (price : Z) (p : Product) : Product :=
  {| pr_id := pr_id p; pr_cate := pr_cate p; pr_name := pr_name p;
     pr_price := price; pr_buy_quant := pr_buy_quant p;
     pr_stk_quant := pr_stk_quant p; pr_season := pr_season p;
     pr_fabric := pr_fabric p; pr_texture := pr_texture p;
     pr_brand := pr_brand p |}.

(** The rows of a cart joined with their products. *)
Definition joined (ps : list Product) (cart : Cart) (rows : list CartItem)
    : list LoadedItem :=
  flat_map (fun i => map (pair i) (filter (fun p => pr_id p =? ci_product i) ps))
    (filter (in_cart cart) rows).

(** The store after the catalog price of a product has been changed. *)
Definition repriced (price : Z) (p : Product) (d : DB) : DB :=
  with_table (ORM.saved (set_price price p) (products d)) d.

(* --------------------------------------------------------------------- *)
(** ** Adding to the cart and removing from it *)

(** The quantity an add-to-cart form asks for: the integer under
    [quantity] when it is a positive integer, else 1. *)
Definition requested_quantity (post : QueryDict) : Z :=
  match Views.QueryDict_get post "quantity" with
  | Some s =>
      match Py.int_of_string s with
      | Some n => if n <=? 0 then 1 else n
      | None => 1
      end
  | None => 1
  end.

(** The row a first add-to-cart inserts. *)
Definition new_item (cart : Cart) (product : Product) (quantity : Z) (d : DB)
    : CartItem :=
  inserted {| ci_id := 0; ci_cart := cart_id cart; ci_product := pr_id product;
              ci_quantity := quantity |} d.

(** The row of an item with its quantity raised, in place of the item. *)
Definition merged (item : CartItem) (quantity : Z) (x : CartItem) : CartItem :=
  if ci_id x =? ci_id item
  then set_quantity (ci_quantity item + quantity) item
  else x.

(** The item has the given key and lies in a cart of the user. *)
Definition belongs (d : DB) (user : User) (item_id : Z) (item : CartItem) : Prop :=
  In item (cart_items d) /\ ci_id item = item_id /\
  exists cart, In cart (carts d) /\ cart_id cart = ci_cart item /\
               cart_user cart = user_id user.

Definition removal_error : Message := (Error, "Error removing item from cart.").

(* --------------------------------------------------------------------- *)
(** ** The invariants of the table of cart items *)

(** Every row has a quantity of at least 1. *)
Definition stocked (rows : list CartItem) : Prop :=
  forall i, In i rows -> 0 < ci_quantity i.

(** A cart has at most one row for a product. *)
Definition paired (rows : list CartItem) : Prop :=
  forall cart product, (count (Views.CartItem_of cart product) rows <= 1)%nat.

(** What the data model asks of the table of cart items. *)
Definition cart_rows_ok (rows : list CartItem) : Prop :=
  keyed rows /\ stocked rows /\ paired rows.

(* --------------------------------------------------------------------- *)
(** ** The wishlist *)

(** The pairs (wishlist, product) of the relation [Wishlist.products]. *)
Definition wished (d : DB) : list (Z * Z) :=
  map (fun r => (wp_wishlist r, wp_product r)) (wishlist_products d).

(** A sequence of add-to-wishlist requests, each answered in the world the
    one before left. *)
Fixpoint add_all (calls : list (Request * Z)) (w : World) : World :=
  match calls with
  | [] => w
  | (request, product_id) :: rest =>
      add_all rest (snd (respond (Views.add_to_wishlist request product_id) w))
  end.

Definition already_message (product : Product) : Message :=
  (Info, (pr_name product ++ " is already in your wishlist!")%string).

Definition not_present_message : Message :=
  (Info, "Product was not in your wishlist.").

Definition added_message (product : Product) : Message :=
  (Success, (pr_name product ++ " added to wishlist!")%string).

(** The row [wishlist.products.add(product)] inserts. *)
Definition wish (wishlist : Wishlist) (product : Product) (d : DB) : WishlistProduct :=
  inserted {| wp_id := 0; wp_wishlist := wishlist_id wishlist;
              wp_product := pr_id product |} d.

(* --------------------------------------------------------------------- *)
(** ** Sample data *)

Module Sample.

Definition alice : User := {| user_id := 1; username := "alice" |}.
Definition bob : User := {| user_id := 2; username := "bob" |}.

Definition shirt : Product :=
  {| pr_id := 1; pr_cate := "Men"; pr_name := "Shirt"; pr_price := 2500;
     pr_buy_quant := 0; pr_stk_quant := 5; pr_season := "Summer";
     pr_fabric := "Cotton"; pr_texture := "Plain"; pr_brand := "Acme" |}.

Definition coat : Product :=
  {| pr_id := 2; pr_cate := "Women"; pr_name := "Coat"; pr_price := 12000;
     pr_buy_quant := 0; pr_stk_quant := 5; pr_season := "Winter";
     pr_fabric := "Wool"; pr_texture := "Twill"; pr_brand := "Zed" |}.

Definition alice_cart : Cart := {| cart_id := 1; cart_user := 1 |}.
Definition bob_cart : Cart := {| cart_id := 2; cart_user := 2 |}.

Definition shirts : CartItem :=
  {| ci_id := 1; ci_cart := 1; ci_product := 1; ci_quantity := 2 |}.
Definition coats : CartItem :=
  {| ci_id := 2; ci_cart := 1; ci_product := 2; ci_quantity := 3 |}.
Definition bob_shirt : CartItem :=
  {| ci_id := 3; ci_cart := 2; ci_product := 1; ci_quantity := 1 |}.

Definition alice_wishlist : Wishlist := {| wishlist_id := 1; wishlist_user := 1 |}.

(** Alice has two shirts and three coats in her cart and the coat on her
    wishlist; Bob has one shirt in his cart. *)
Definition shop : DB :=
  {| users := [alice; bob];
     products := [shirt; coat];
     carts := [alice_cart; bob_cart];
     profiles := [];
     wishlists := [alice_wishlist];
     wishlist_products := [{| wp_id := 1; wp_wishlist := 1; wp_product := 2 |}];
     cart_items := [shirts; coats; bob_shirt];
     ordered_items :=
       [{| oi_id := 1; oi_product := 1; oi_quantity := 1; oi_price := 2500 |}] |}.

Definition request (m : Method) (user : User) (form : QueryDict) : Request :=
  {| method := m; req_user := Some user; req_GET := form; req_POST := form |}.

End Sample.

Module Signup.

Definition carol : User := {| user_id := 0; username := "carol" |}.

(** A registration form that is valid and asks for the user carol. *)
Definition form (d : DB) (post : QueryDict) : User + list (string * list string) :=
  inl carol.

Definition request : Request :=
  {| method := POST; req_user := None; req_GET := [];
     req_POST := [("username", "carol")] |}.

(** The storage works for the INSERT of the user and while the combined
    receiver runs (three lookups and three inserts), and fails at the next
    call: the lookup of [create_user_cart]. *)
Definition failing : World :=
  set_faults (repeat false 7 ++ [true]) (start Sample.shop).

End Signup.

(* --------------------------------------------------------------------- *)
(** ** What a request leaves alone *)

(** A relation between the world a computation starts in and the world it
    ends in, whether it returns or raises. *)
Definition respects {A} (R : World -> World -> Prop) (m : M A) : Prop :=
  forall w, R w (snd (m w)).

(** The two worlds agree on an observation. *)
Definition same {X} (f : World -> X) (w w' : World) : Prop := f w' = f w.

(** The computation leaves the observation as it finds it. *)
Definition keeps {X A} (f : World -> X) (m : M A) : Prop := respects (same f) m.

(** A storage that works keeps working. *)
Definition unharmed (w w' : World) : Prop := healthy w -> healthy w'.

(** Writing rows of the table of [T] maintains the relation. *)
Definition blind_to (T : Type) `{Model T} (R : World -> World -> Prop) : Prop :=
  forall rows w, R w (set_db (with_table rows (db w)) w).

(** Everything of the world but the pending faults of the storage. *)
Definition visible (w : World) :=
  (db w, messages w, stdout w, session w, result_cache w).

(** The tables no shopper may write: the accounts, the catalog and the
    ordered items. *)
Definition protected_tables (w : World) :=
  (users (db w), products (db w), ordered_items (db w)).

(** The tables of the shop proper: what a registration leaves alone. *)
Definition shop_tables (w : World) :=
  (products (db w), ordered_items (db w), cart_items (db w),
   wishlist_products (db w)).

(* --------------------------------------------------------------------- *)
(** ** Registration and the profile *)

(** Every cart, profile and wishlist belongs to a user of the store (the
    foreign keys of the three one-to-one columns). *)
Definition owned_by_users (d : DB) : Prop :=
  (forall c, In c (carts d) -> In (cart_user c) (map user_id (users d))) /\
  (forall p, In p (profiles d) -> In (profile_user p) (map user_id (users d))) /\
  (forall l, In l (wishlists d) -> In (wishlist_user l) (map user_id (users d))).

(** The messages the registration queues for the errors of a form. *)
Definition form_messages (errors : list (string * list string)) : list Message :=
  flat_map
    (fun item =>
       map (fun error => (Error, (Py.title (fst item) ++ ": " ++ error)%string))
         (snd item))
    errors.

Definition welcome_message (user : User) : Message :=
  (Success,
   ("Welcome to ChazeFashion, " ++ username user
    ++ "! Your account has been created successfully.")%string).

Definition account_error (e : Exception) : Message :=
  (Error,
   ("Error creating account: " ++ exception_text e ++ ". Please try again.")%string).

(** What the combined receiver prints when it has created all three rows. *)
Definition provisioning_report (user : User) : list string :=
  [("User " ++ username user ++ " created:")%string;
   "  - Cart: created"; "  - Profile: created"; "  - Wishlist: created"].

(** The queue of messages and the session. *)
Definition conversation (w : World) := (messages w, session w).

(** Every cart item lies in a cart of the store (the foreign key of
    [CartItem.cart]). *)
Definition items_in_carts (d : DB) : Prop :=
  forall i, In i (cart_items d) -> In (ci_cart i) (map cart_id (carts d)).

(* --------------------------------------------------------------------- *)
(** ** Products that are not there, and the wishlist *)

Definition wishlist_error : Message :=
  (Error, "Error removing product from wishlist.").

Definition removed_message (product : Product) : Message :=
  (Success, (pr_name product ++ " removed from wishlist.")%string).

(** The pair is not the one of this wishlist and product. *)
Definition other_wish (wishlist : Wishlist) (product_id : Z) (pair : Z * Z) : bool :=
  negb ((fst pair =? wishlist_id wishlist) && (snd pair =? product_id)).

(** What the combined receiver prints when it has caught an exception. *)
Definition provisioning_error (instance : User) (e : Exception) : string :=
  ("Error creating user-related objects for " ++ username instance ++ ": "
   ++ exception_text e)%string.

(* --------------------------------------------------------------------- *)
(** ** Sequences of requests to the cart *)

(** A request to one of the three views that write to the cart. *)
Inductive CartRequest : Type :=
  | AddToCart (request : Request) (product_id : Z)
  | UpdateCart (request : Request)
  | RemoveFromCart (request : Request) (item_id : Z).

Definition view_of (r : CartRequest) : M Response :=
  match r with
  | AddToCart request product_id => Views.add_to_cart request product_id
  | UpdateCart request => Views.cart request
  | RemoveFromCart request item_id => Views.remove_from_cart request item_id
  end.

(** The world the next request starts in: its querysets are new, so no
    result is cached. *)
Definition next_request (w : World) : World := set_result_cache None w.

(** The requests answered one after the other. *)
Fixpoint serve (requests : list CartRequest) (w : World) : World :=
  match requests with
  | [] => w
  | r :: rest => serve rest (next_request (snd (respond (view_of r) w)))
  end.

(** No user has two carts. *)
Definition one_cart_each (d : DB) : Prop :=
  forall user, (count (Models.Cart_of_user user) (carts d) <= 1)%nat.

Definition keeps_one_cart_each (w w' : World) : Prop :=
  one_cart_each (db w) -> one_cart_each (db w').

(** Whoever has exactly one cart has exactly that cart afterwards. *)
Definition keeps_found_carts (w w' : World) : Prop :=
  forall user cart,
    filter (Models.Cart_of_user user) (carts (db w)) = [cart] ->
    filter (Models.Cart_of_user user) (carts (db w')) = [cart].

(** What the cart views rely on and maintain: the invariants of the table
    of cart items, products with different keys, one cart per user. *)
Definition shop_ok (d : DB) : Prop :=
  cart_rows_ok (cart_items d) /\ keyed (products d) /\ one_cart_each d.

(* --------------------------------------------------------------------- *)
(** ** Decimal numerals *)

(** The digits of a decimal numeral, most significant first. *)
Fixpoint digits_of (d : Decimal.uint) : list Z :=
  match d with
  | Decimal.Nil => []
  | Decimal.D0 d => 0 :: digits_of d
  | Decimal.D1 d => 1 :: digits_of d
  | Decimal.D2 d => 2 :: digits_of d
  | Decimal.D3 d => 3 :: digits_of d
  | Decimal.D4 d => 4 :: digits_of d
  | Decimal.D5 d => 5 :: digits_of d
  | Decimal.D6 d => 6 :: digits_of d
  | Decimal.D7 d => 7 :: digits_of d
  | Decimal.D8 d => 8 :: digits_of d
  | Decimal.D9 d => 9 :: digits_of d
  end.

(** The key under which the cart form submits the quantity of an item. *)
Definition quantity_key (item : CartItem) : string :=
  ("quantity_" ++ Py.str (ci_id item))%string.

(* --------------------------------------------------------------------- *)
(** ** The parameters of the catalog query *)

(** The parameters the catalog query reads. *)
Definition catalog_parameters : list string :=
  ["category"; "season"; "fabric"; "price_min"; "price_max"; "brand"].

(** Two queries supply the same criteria: the same category and season,
    the same fabric and brand up to the case of the letters, price bounds
    that denote the same numbers. *)
Definition same_criteria (q q' : QueryDict) : Prop :=
  given q "category" = given q' "category" /\
  given q "season" = given q' "season" /\
  option_map Py.lower_string (given q "fabric") =
    option_map Py.lower_string (given q' "fabric") /\
  bound_of q "price_min" = bound_of q' "price_min" /\
  bound_of q "price_max" = bound_of q' "price_max" /\
  option_map Py.lower_string (given q "brand") =
    option_map Py.lower_string (given q' "brand").

(* ===================================================================== *)
(** * Running the monad *)
(* ===================================================================== *)

Lemma bind_return {A B} {m : M A} {k : A -> M B} {w a w'} :
  m w = (Return a, w') -> bind m k w = k a w'.
Proof. intros E. unfold bind. now rewrite E. Qed.

Lemma bind_raise {A B} {m : M A} {k : A -> M B} {w e w'} :
  m w = (Raise e, w') -> bind m k w = (Raise e, w').
Proof. intros E. unfold bind. now rewrite E. Qed.

Lemma try_return {A} {m : M A} {c h w a w'} :
  m w = (Return a, w') -> try_except m c h w = (Return a, w').
Proof. intros E. unfold try_except. now rewrite E. Qed.

Lemma try_caught {A} {m : M A} {c h w e w'} :
  m w = (Raise e, w') -> c e = true -> try_except m c h w = h e w'.
Proof. intros E C. unfold try_except. now rewrite E, C. Qed.

Lemma try_uncaught {A} {m : M A} {c h w e w'} :
  m w = (Raise e, w') -> c e = false -> try_except m c h w = (Raise e, w').
Proof. intros E C. unfold try_except. now rewrite E, C. Qed.

Lemma storage_healthy {w} : healthy w -> storage w = (Return tt, w).
Proof. unfold healthy, storage. now intros ->. Qed.

Section ManagerFacts.

Context {R : Type} `{Model R}.

Lemma select_healthy (p : R -> bool) {w} :
  healthy w -> ORM.select p w = (Return (filter p (table (db w))), w).
Proof.
  intros Hw. unfold ORM.select.
  rewrite (bind_return (storage_healthy Hw)). reflexivity.
Qed.

Lemma exists_healthy (p : R -> bool) {w} :
  healthy w -> ORM.exists_ p w = (Return (existsb p (table (db w))), w).
Proof.
  intros Hw. unfold ORM.exists_.
  rewrite (bind_return (select_healthy p Hw)). unfold ret. f_equal. f_equal.
  induction (table (db w)) as [|x l IH]; simpl; [reflexivity|].
  destruct (p x); simpl; [reflexivity | exact IH].
Qed.

Lemma get_none (p : R -> bool) {w} :
  healthy w -> filter p (table (db w)) = [] ->
  ORM.get p w = (Raise DoesNotExist, w).
Proof.
  intros Hw E. unfold ORM.get.
  rewrite (bind_return (select_healthy p Hw)), E. reflexivity.
Qed.

Lemma get_one (p : R -> bool) {w r} :
  healthy w -> filter p (table (db w)) = [r] ->
  ORM.get p w = (Return r, w).
Proof.
  intros Hw E. unfold ORM.get.
  rewrite (bind_return (select_healthy p Hw)), E. reflexivity.
Qed.

Lemma get_many (p : R -> bool) {w r r' rest} :
  healthy w -> filter p (table (db w)) = r :: r' :: rest ->
  ORM.get p w = (Raise MultipleObjectsReturned, w).
Proof.
  intros Hw E. unfold ORM.get.
  rewrite (bind_return (select_healthy p Hw)), E. reflexivity.
Qed.

Lemma create_healthy (fields : R) {w} :
  healthy w ->
  ORM.create fields w =
    (Return (inserted fields (db w)),
     set_db (with_table (table (db w) ++ [inserted fields (db w)]) (db w)) w).
Proof.
  intros Hw. unfold ORM.create.
  rewrite (bind_return (storage_healthy Hw)). reflexivity.
Qed.

Lemma get_or_create_found (p : R -> bool) fields {w r} :
  healthy w -> filter p (table (db w)) = [r] ->
  ORM.get_or_create p fields w = (Return (r, false), w).
Proof.
  intros Hw E. unfold ORM.get_or_create.
  apply try_return. now rewrite (bind_return (get_one p Hw E)).
Qed.

Lemma get_or_create_missing (p : R -> bool) fields {w} :
  healthy w -> filter p (table (db w)) = [] ->
  ORM.get_or_create p fields w =
    (Return (inserted fields (db w), true),
     set_db (with_table (table (db w) ++ [inserted fields (db w)]) (db w)) w).
Proof.
  intros Hw E. unfold ORM.get_or_create.
  rewrite (try_caught (bind_raise (get_none p Hw E)) eq_refl).
  now rewrite (bind_return (create_healthy fields Hw)).
Qed.

Lemma get_object_or_404_found (p : R -> bool) {w r} :
  healthy w -> filter p (table (db w)) = [r] ->
  ORM.get_object_or_404 p w = (Return r, w).
Proof.
  intros Hw E. unfold ORM.get_object_or_404.
  apply try_return, (get_one p Hw E).
Qed.

Lemma get_object_or_404_missing (p : R -> bool) {w} :
  healthy w -> filter p (table (db w)) = [] ->
  ORM.get_object_or_404 p w = (Raise Http404, w).
Proof.
  intros Hw E. unfold ORM.get_object_or_404.
  now rewrite (try_caught (get_none p Hw E) eq_refl).
Qed.

Lemma get_or_create_many (p : R -> bool) fields {w r r' rest} :
  healthy w -> filter p (table (db w)) = r :: r' :: rest ->
  ORM.get_or_create p fields w = (Raise MultipleObjectsReturned, w).
Proof.
  intros Hw E. unfold ORM.get_or_create.
  now rewrite (try_uncaught (bind_raise (get_many p Hw E)) eq_refl).
Qed.

Lemma get_object_or_404_many (p : R -> bool) {w r r' rest} :
  healthy w -> filter p (table (db w)) = r :: r' :: rest ->
  ORM.get_object_or_404 p w = (Raise MultipleObjectsReturned, w).
Proof.
  intros Hw E. unfold ORM.get_object_or_404.
  now rewrite (try_uncaught (get_many p Hw E) eq_refl).
Qed.

Lemma save_healthy (r : R) {w} :
  healthy w ->
  ORM.save r w =
    (Return tt, set_db (with_table (ORM.saved r (table (db w))) (db w)) w).
Proof.
  intros Hw. unfold ORM.save.
  rewrite (bind_return (storage_healthy Hw)). reflexivity.
Qed.

Lemma delete_healthy (r : R) {w} :
  healthy w ->
  ORM.delete r w =
    (Return tt, set_db (with_table (ORM.deleted r (table (db w))) (db w)) w).
Proof.
  intros Hw. unfold ORM.delete.
  rewrite (bind_return (storage_healthy Hw)). reflexivity.
Qed.

End ManagerFacts.

(* ===================================================================== *)
(** * Provisioning the rows of a new user *)
(* ===================================================================== *)

Lemma count_cases {R} (p : R -> bool) rows :
  (count p rows <= 1)%nat ->
  filter p rows = [] \/ exists r, filter p rows = [r].
Proof.
  unfold count. destruct (filter p rows) as [|r [|r' l]]; simpl; intros Hle.
  - now left.
  - right. now exists r.
  - lia.
Qed.

Lemma filter_app_one {R} (p : R -> bool) rows r :
  filter p rows = [] -> p r = true -> filter p (rows ++ [r]) = [r].
Proof. intros E Hp. rewrite filter_app, E. simpl. now rewrite Hp. Qed.

(** Fetch-or-create of the cart: afterwards the user has exactly one cart,
    and nothing else in the store has changed. *)
Lemma ensure_cart instance w :
  healthy w -> (count (Models.Cart_of_user instance) (carts (db w)) <= 1)%nat ->
  exists cart created w',
    ORM.get_or_create (Models.Cart_of_user instance) (Models.new_Cart instance) w
      = (Return (cart, created), w') /\
    healthy w' /\
    filter (Models.Cart_of_user instance) (carts (db w')) = [cart] /\
    (created = false -> w' = w) /\
    w' = set_db (with_table (carts (db w')) (db w)) w.
Proof.
  intros Hw Hc. destruct (count_cases _ _ Hc) as [E | [c E]].
  - eexists _, true, _. split; [exact (get_or_create_missing (Models.Cart_of_user instance) _ Hw E)|].
    split; [exact Hw|]. split; [|split; [discriminate | reflexivity]].
    cbn. apply filter_app_one; [exact E|]. apply Z.eqb_refl.
  - exists c, false, w. split; [exact (get_or_create_found (Models.Cart_of_user instance) _ Hw E)|].
    split; [exact Hw|]. split; [exact E|]. split; [reflexivity|].
    destruct w as [[] ? ? ? ? ?]; reflexivity.
Qed.

Lemma ensure_profile instance w :
  healthy w ->
  (count (Models.UserProfile_of_user instance) (profiles (db w)) <= 1)%nat ->
  exists profile created w',
    ORM.get_or_create (Models.UserProfile_of_user instance)
      (Models.new_UserProfile instance) w = (Return (profile, created), w') /\
    healthy w' /\
    filter (Models.UserProfile_of_user instance) (profiles (db w')) = [profile] /\
    (created = false -> w' = w) /\
    w' = set_db (with_table (profiles (db w')) (db w)) w.
Proof.
  intros Hw Hc. destruct (count_cases _ _ Hc) as [E | [c E]].
  - eexists _, true, _. split; [exact (get_or_create_missing (Models.UserProfile_of_user instance) _ Hw E)|].
    split; [exact Hw|]. split; [|split; [discriminate | reflexivity]].
    cbn. apply filter_app_one; [exact E|]. apply Z.eqb_refl.
  - exists c, false, w. split; [exact (get_or_create_found (Models.UserProfile_of_user instance) _ Hw E)|].
    split; [exact Hw|]. split; [exact E|]. split; [reflexivity|].
    destruct w as [[] ? ? ? ? ?]; reflexivity.
Qed.

Lemma ensure_wishlist instance w :
  healthy w ->
  (count (Models.Wishlist_of_user instance) (wishlists (db w)) <= 1)%nat ->
  exists wishlist created w',
    ORM.get_or_create (Models.Wishlist_of_user instance)
      (Models.new_Wishlist instance) w = (Return (wishlist, created), w') /\
    healthy w' /\
    filter (Models.Wishlist_of_user instance) (wishlists (db w')) = [wishlist] /\
    (created = false -> w' = w) /\
    w' = set_db (with_table (wishlists (db w')) (db w)) w.
Proof.
  intros Hw Hc. destruct (count_cases _ _ Hc) as [E | [c E]].
  - eexists _, true, _. split; [exact (get_or_create_missing (Models.Wishlist_of_user instance) _ Hw E)|].
    split; [exact Hw|]. split; [|split; [discriminate | reflexivity]].
    cbn. apply filter_app_one; [exact E|]. apply Z.eqb_refl.
  - exists c, false, w. split; [exact (get_or_create_found (Models.Wishlist_of_user instance) _ Hw E)|].
    split; [exact Hw|]. split; [exact E|]. split; [reflexivity|].
    destruct w as [[] ? ? ? ? ?]; reflexivity.
Qed.

Lemma count_one {R} (p : R -> bool) rows :
  count p rows = 1%nat -> exists r, filter p rows = [r].
Proof.
  unfold count. destruct (filter p rows) as [|r [|r' l]]; simpl; try discriminate.
  intros _. now exists r.
Qed.

Lemma one_count {R} (p : R -> bool) rows r :
  filter p rows = [r] -> count p rows = 1%nat.
Proof. unfold count. now intros ->. Qed.

(** On a store without faults the combined receiver returns normally and
    leaves the user provisioned; a store that was provisioned already is
    left as it was. *)
Lemma combined_receiver_run instance w :
  healthy w -> one_to_one instance (db w) ->
  exists w1,
    Models.create_user_profile_and_related_objects instance true w
      = (Return tt, w1) /\
    healthy w1 /\ provisioned instance (db w1) /\
    (provisioned instance (db w) -> db w1 = db w).
Proof.
  intros Hw (Hc & Hp & Hl).
  destruct (ensure_cart instance w Hw Hc) as (c & cc & wa & Ea & Hwa & Fa & Sa & Wa).
  assert (Hp' : (count (Models.UserProfile_of_user instance) (profiles (db wa)) <= 1)%nat)
    by (rewrite Wa; exact Hp).
  destruct (ensure_profile instance wa Hwa Hp') as (p & pc & wb & Eb & Hwb & Fb & Sb & Wb).
  assert (Hl' : (count (Models.Wishlist_of_user instance) (wishlists (db wb)) <= 1)%nat)
    by (rewrite Wb, Wa; exact Hl).
  destruct (ensure_wishlist instance wb Hwb Hl') as (l & lc & wc & Ec & Hwc & Fc & Sc & Wc).
  eexists. split.
  - unfold Models.create_user_profile_and_related_objects.
    apply try_return.
    rewrite (bind_return Ea), (bind_return Eb), (bind_return Ec).
    reflexivity.
  - split; [exact Hwc|]. split.
    + assert (Kc : carts (db wc) = carts (db wa))
        by (rewrite Wc, Wb; reflexivity).
      assert (Kp : profiles (db wc) = profiles (db wb))
        by (rewrite Wc; reflexivity).
      repeat split; eapply one_count; cbn.
      * rewrite Kc. exact Fa.
      * rewrite Kp. exact Fb.
      * exact Fc.
    + intros (C1 & C2 & C3). cbn.
      destruct (count_one _ _ C1) as (c0 & E1).
      destruct (count_one _ _ C2) as (p0 & E2).
      destruct (count_one _ _ C3) as (l0 & E3).
      pose proof (get_or_create_found (Models.Cart_of_user instance)
                    (Models.new_Cart instance) Hw E1) as Ea'.
      rewrite Ea in Ea'. injection Ea' as -> -> ->.
      pose proof (get_or_create_found (Models.UserProfile_of_user instance)
                    (Models.new_UserProfile instance) Hw E2) as Eb'.
      rewrite Eb in Eb'. injection Eb' as -> -> ->.
      pose proof (get_or_create_found (Models.Wishlist_of_user instance)
                    (Models.new_Wishlist instance) Hw E3) as Ec'.
      rewrite Ec in Ec'. injection Ec' as -> -> ->.
      reflexivity.
Qed.

(** On a provisioned store every receiver returns normally and writes
    nothing, whatever its [created] flag. *)
Lemma receiver_idle r created instance w :
  healthy w -> provisioned instance (db w) ->
  exists w', receiver r instance created w = (Return tt, w') /\
             healthy w' /\ db w' = db w.
Proof.
  intros Hw Hprov.
  destruct created; [| exists w; destruct r; repeat split; assumption].
  pose proof Hprov as (C1 & C2 & C3).
  destruct (count_one _ _ C1) as (c0 & E1).
  destruct (count_one _ _ C2) as (p0 & E2).
  destruct (count_one _ _ C3) as (l0 & E3).
  pose proof (get_or_create_found (Models.Cart_of_user instance)
                (Models.new_Cart instance) Hw E1) as G1.
  pose proof (get_or_create_found (Models.UserProfile_of_user instance)
                (Models.new_UserProfile instance) Hw E2) as G2.
  pose proof (get_or_create_found (Models.Wishlist_of_user instance)
                (Models.new_Wishlist instance) Hw E3) as G3.
  destruct r; cbn.
  - destruct (combined_receiver_run instance w Hw) as (w1 & E & Hw1 & _ & Same).
    { unfold one_to_one. rewrite C1, C2, C3. repeat split; constructor. }
    exists w1. repeat split; [exact E | exact Hw1 | exact (Same Hprov)].
  - exists w. unfold Models.create_user_cart.
    rewrite (bind_return G1). repeat split; assumption.
  - exists w. unfold Models.create_user_profile.
    rewrite (bind_return G2). repeat split; assumption.
  - exists w. unfold Models.create_user_wishlist.
    rewrite (bind_return G3). repeat split; assumption.
Qed.

Lemma invoke_idle calls instance : forall w,
  healthy w -> provisioned instance (db w) ->
  exists w', invoke calls instance w = (Return tt, w') /\
             healthy w' /\ db w' = db w.
Proof.
  induction calls as [|[r created] rest IH]; intros w Hw Hprov.
  - exists w. repeat split; assumption.
  - destruct (receiver_idle r created instance w Hw Hprov) as (w1 & E1 & Hw1 & D1).
    destruct (IH w1 Hw1) as (w2 & E2 & Hw2 & D2); [now rewrite D1|].
    exists w2. cbn. rewrite (bind_return E1).
    repeat split; [exact E2 | exact Hw2 | congruence].
Qed.

(** C2.  After the provisioning routine has run for a user (who, as the
    one-to-one columns guarantee, has no two carts, profiles or
    wishlists), the user has exactly one cart, one profile and one
    wishlist; and any further invocations of the receivers for the same
    user, in any number and order, return normally and leave the store as
    it is. *)
Theorem provisioning_exactly_once (instance : User) (w : World)
    (calls : list (Receiver * bool)) :
  healthy w -> one_to_one instance (db w) ->
  exists w1 w2,
    Models.create_user_profile_and_related_objects instance true w
      = (Return tt, w1) /\
    provisioned instance (db w1) /\
    invoke calls instance w1 = (Return tt, w2) /\
    db w2 = db w1.
Proof.
  intros Hw H1.
  destruct (combined_receiver_run instance w Hw H1) as (w1 & E1 & Hw1 & P1 & _).
  destruct (invoke_idle calls instance w1 Hw1 P1) as (w2 & E2 & _ & D2).
  exists w1, w2. repeat split; try assumption; apply P1.
Qed.

(* ===================================================================== *)
(** * The catalog query *)
(* ===================================================================== *)

Lemma selects_iff q p : selects q p = true <-> criteria_hold q p.
Proof.
  unfold selects, criteria_hold. rewrite !andb_true_iff.
  split.
  - intros (((((H1 & H2) & H3) & H4) & H5) & H6).
    repeat split; intros x E.
    + rewrite E in H1. now apply String.eqb_eq.
    + rewrite E in H2. now apply String.eqb_eq.
    + now rewrite E in H3.
    + rewrite E in H4. now apply Qle_bool_iff.
    + rewrite E in H5. now apply Qle_bool_iff.
    + now rewrite E in H6.
  - intros (H1 & H2 & H3 & H4 & H5 & H6).
    repeat split.
    + destruct (given q "category") as [c|]; cbn; [|reflexivity].
      apply String.eqb_eq. now apply H1.
    + destruct (given q "season") as [c|]; cbn; [|reflexivity].
      apply String.eqb_eq. now apply H2.
    + destruct (given q "fabric") as [c|]; cbn; [|reflexivity]. now apply H3.
    + destruct (bound_of q "price_min") as [[x| |]|]; cbn; try reflexivity.
      apply Qle_bool_iff. now apply H4.
    + destruct (bound_of q "price_max") as [[x| |]|]; cbn; try reflexivity.
      apply Qle_bool_iff. now apply H5.
    + destruct (given q "brand") as [c|]; cbn; [|reflexivity]. now apply H6.
Qed.

Lemma if_given_spec {A} q key (then_ : string -> A) (else_ : A) :
  Views.if_given (Views.QueryDict_get q key) then_ else_ =
  match given q key with
  | Some s => then_ s
  | None => else_
  end.
Proof.
  unfold Views.if_given, given.
  destruct (Views.QueryDict_get q key) as [s|]; [|reflexivity].
  now destruct (s =? "")%string.
Qed.

(** A price stage of the view: an unparseable bound leaves the queryset as
    it is, a finite bound adds its comparison, and a bound that is not
    finite raises the [ValidationError] of the field. *)
Lemma price_min_stage q (qs : Views.QuerySet) w :
  Views.if_given (Views.QueryDict_get q "price_min")
    (fun price_min =>
       try_except
         (x <- Views.float price_min ;;
          bound <- Views.DecimalField_lookup x ;;
          ret (Views.qs_filter qs (fun p => Qle_bool bound (Views.price_value p))))
         (one_of [ValueError])
         (fun _ => ret qs))
    (ret qs) w =
  match bound_of q "price_min" with
  | Some (Py.Finite x) =>
      (Return (Views.qs_filter qs (fun p => Qle_bool x (Views.price_value p))), w)
  | Some _ => (Raise ValidationError, w)
  | None => (Return qs, w)
  end.
Proof.
  rewrite if_given_spec. unfold bound_of.
  destruct (given q "price_min") as [s|]; [|reflexivity].
  unfold try_except, bind, Views.float.
  destruct (Py.float_of_string s) as [[x| |]|]; reflexivity.
Qed.

Lemma price_max_stage q (qs : Views.QuerySet) w :
  Views.if_given (Views.QueryDict_get q "price_max")
    (fun price_max =>
       try_except
         (x <- Views.float price_max ;;
          bound <- Views.DecimalField_lookup x ;;
          ret (Views.qs_filter qs (fun p => Qle_bool (Views.price_value p) bound)))
         (one_of [ValueError])
         (fun _ => ret qs))
    (ret qs) w =
  match bound_of q "price_max" with
  | Some (Py.Finite x) =>
      (Return (Views.qs_filter qs (fun p => Qle_bool (Views.price_value p) x)), w)
  | Some _ => (Raise ValidationError, w)
  | None => (Return qs, w)
  end.
Proof.
  rewrite if_given_spec. unfold bound_of.
  destruct (given q "price_max") as [s|]; [|reflexivity].
  unfold try_except, bind, Views.float.
  destruct (Py.float_of_string s) as [[x| |]|]; reflexivity.
Qed.

Lemma product_list_staged request w :
  Views.product_list request w = catalog_query (req_GET request) w.
Proof.
  unfold Views.product_list, catalog_query. cbv zeta.
  set (q := req_GET request).
  unfold bind at 1. rewrite price_min_stage.
  destruct (bound_of q "price_min") as [[xmin| |]|]; try reflexivity;
    (unfold bind at 1; rewrite price_max_stage;
     destruct (bound_of q "price_max") as [[xmax| |]|]; try reflexivity;
     rewrite !if_given_spec; unfold narrowed;
     destruct (given q "category"), (given q "season"), (given q "fabric"),
       (given q "brand"); reflexivity).
Qed.

Ltac run_select Hw :=
  match goal with
  | |- context [ORM.select ?qs ?w] => rewrite (select_healthy qs Hw)
  end.

(** The view as a function of the store: the rows that the conjunction of
    the supplied criteria selects, in catalog order. *)
Lemma product_list_run request w :
  healthy w -> finite_bounds (req_GET request) ->
  Views.product_list request w =
    (Return (Render "catalog/product_list.html"
               (ProductListContext
                  (filter (selects (req_GET request)) (products (db w))))), w).
Proof.
  intros Hw Hfin. rewrite product_list_staged. unfold catalog_query.
  set (q := req_GET request) in *.
  pose proof (Hfin "price_min") as Fmin. pose proof (Hfin "price_max") as Fmax.
  destruct (bound_of q "price_min") as [xmin|] eqn:Bmin;
    [destruct (Fmin xmin (or_introl eq_refl) eq_refl) as (rmin & ->)|];
    (destruct (bound_of q "price_max") as [xmax|] eqn:Bmax;
     [destruct (Fmax xmax (or_intror eq_refl) eq_refl) as (rmax & ->)|]);
    unfold bind, ret; run_select Hw;
    do 4 f_equal; apply filter_ext; intros p;
    unfold selects, narrowed, Views.qs_filter, Views.all; rewrite Bmin, Bmax;
    destruct (given q "category"), (given q "season"), (given q "fabric"),
      (given q "brand"); cbn [holds holds_bound andb];
    rewrite ?andb_true_r; reflexivity.
Qed.

Lemma selects_all q :
  (forall key, given q key = None) -> forall p, selects q p = true.
Proof.
  intros Hnone p. unfold selects, bound_of. now rewrite !Hnone.
Qed.

Lemma filter_true {A} (f : A -> bool) (l : list A) :
  (forall x, f x = true) -> filter f l = l.
Proof.
  intros Hf. induction l as [|x l IH]; simpl; [reflexivity|].
  now rewrite Hf, IH.
Qed.


Lemma QueryDict_get_without key q key' :
  Views.QueryDict_get (without key q) key' =
  if (key =? key')%string then None else Views.QueryDict_get q key'.
Proof.
  induction q as [|[k v] q IH]; simpl.
  - now destruct (key =? key')%string.
  - destruct (k =? key)%string eqn:Ek; simpl.
    + rewrite IH. apply String.eqb_eq in Ek. subst k.
      destruct (key =? key')%string; [reflexivity|].
      now destruct (Views.QueryDict_get q key').
    + rewrite IH. destruct (key =? key')%string eqn:Ekk; [|reflexivity].
      apply String.eqb_eq in Ekk. subst key'. rewrite Ek.
      now destruct (Views.QueryDict_get q key).
Qed.

Lemma given_without key q key' :
  given (without key q) key' = if (key =? key')%string then None else given q key'.
Proof.
  unfold given. rewrite QueryDict_get_without. now destruct (key =? key')%string.
Qed.

Lemma bound_of_without key q key' :
  bound_of (without key q) key' =
  if (key =? key')%string then None else bound_of q key'.
Proof.
  unfold bound_of. rewrite given_without. now destruct (key =? key')%string.
Qed.


(* ===================================================================== *)
(** * Tables with a primary key *)
(* ===================================================================== *)

Section Rows.

Context {R : Type} `{Model R}.

Lemma keyed_inj rows r r' :
  keyed rows -> In r rows -> In r' rows -> pk r = pk r' -> r = r'.
Proof.
  unfold keyed. induction rows as [|x rows IH]; simpl; [contradiction|].
  intros Hnd [-> | Hr] [-> | Hr'] E; inversion Hnd; subst.
  - reflexivity.
  - exfalso. apply H2. rewrite E. now apply in_map.
  - exfalso. apply H2. rewrite <- E. now apply in_map.
  - now apply IH.
Qed.

Lemma existsb_pk rows r : In r rows -> existsb (fun x => pk x =? pk r) rows = true.
Proof.
  intros Hr. apply existsb_exists. exists r. split; [exact Hr | apply Z.eqb_refl].
Qed.

Lemma saved_present rows r :
  existsb (fun x => pk x =? pk r) rows = true ->
  ORM.saved r rows = map (fun x => if pk x =? pk r then r else x) rows.
Proof. unfold ORM.saved. now intros ->. Qed.

Lemma in_saved_same rows r : In r rows -> In r (ORM.saved r rows).
Proof.
  intros Hr. rewrite saved_present by now apply existsb_pk.
  apply in_map_iff. exists r. now rewrite Z.eqb_refl.
Qed.

Lemma in_saved_other rows r r' :
  In r rows -> pk r <> pk r' -> In r (ORM.saved r' rows).
Proof.
  intros Hr Hne. unfold ORM.saved.
  destruct (existsb _ rows).
  - apply in_map_iff. exists r. split; [|exact Hr].
    destruct (Z.eqb_spec (pk r) (pk r')); [contradiction | reflexivity].
  - apply in_or_app. now left.
Qed.

Lemma in_deleted_other rows r r' :
  In r rows -> pk r <> pk r' -> In r (ORM.deleted r' rows).
Proof.
  intros Hr Hne. unfold ORM.deleted. apply filter_In. split; [exact Hr|].
  destruct (Z.eqb_spec (pk r) (pk r')); [contradiction | reflexivity].
Qed.

Lemma in_deleted rows r r' : In r (ORM.deleted r' rows) -> In r rows /\ pk r <> pk r'.
Proof.
  unfold ORM.deleted. rewrite filter_In. intros [Hr Hne]. split; [exact Hr|].
  destruct (Z.eqb_spec (pk r) (pk r')); [discriminate | assumption].
Qed.

Lemma map_pk_saved rows r :
  existsb (fun x => pk x =? pk r) rows = true ->
  map pk (ORM.saved r rows) = map pk rows.
Proof.
  intros Hex. rewrite saved_present by exact Hex. rewrite map_map.
  apply map_ext. intros x. destruct (Z.eqb_spec (pk x) (pk r)); congruence.
Qed.

Lemma keyed_saved rows r : keyed rows -> keyed (ORM.saved r rows).
Proof.
  unfold keyed. intros Hk.
  destruct (existsb (fun x => pk x =? pk r) rows) eqn:Hex.
  - now rewrite map_pk_saved.
  - unfold ORM.saved. rewrite Hex, map_app.
    apply NoDup_app; [exact Hk | repeat constructor; intros [] |].
    intros k Hin [<- | []].
    apply in_map_iff in Hin as (x & E & Hx).
    assert (existsb (fun x => pk x =? pk r) rows = true); [|congruence].
    apply existsb_exists. exists x. split; [exact Hx | now apply Z.eqb_eq].
Qed.

Lemma NoDup_map_filter {A B} (f : A -> B) (p : A -> bool) l :
  NoDup (map f l) -> NoDup (map f (filter p l)).
Proof.
  induction l as [|x l IH]; simpl; [trivial|].
  intros Hnd. inversion Hnd as [|? ? Hx Hl]; subst.
  destruct (p x); simpl; [|now apply IH].
  constructor; [|now apply IH].
  intros Hin. apply Hx. apply in_map_iff in Hin as (y & E & Hy).
  apply in_map_iff. exists y. split; [exact E|]. now apply filter_In in Hy.
Qed.

Lemma keyed_deleted rows r : keyed rows -> keyed (ORM.deleted r rows).
Proof. apply NoDup_map_filter. Qed.

End Rows.

(* ===================================================================== *)
(** * The bulk update of the cart *)
(* ===================================================================== *)

Lemma int_requested post item w :
  Views.int
    (Views.QueryDict_get_default post
       ("quantity_" ++ Py.str (ci_id item))%string (ci_quantity item)) w =
  match requested post item with
  | Some qty => (Return qty, w)
  | None => (Raise ValueError, w)
  end.
Proof.
  unfold requested, Views.QueryDict_get_default.
  destruct (Views.QueryDict_get post _) as [s|]; [|reflexivity].
  cbn. now destruct (Py.int_of_string s).
Qed.

Lemma cart_world_start w cache :
  set_result_cache (Some cache) w = cart_world (cart_items (db w)) cache w.
Proof. destruct w as [[] ? ? ? ? ?]. reflexivity. Qed.

Lemma update_quantities_sweep post : forall items n rows cache w,
  healthy w ->
  Views.update_quantities post n items (cart_world rows cache w) =
  let '(finished, (rows', cache')) := sweep post n items rows cache in
  (if finished then Return tt else Raise ValueError,
   cart_world rows' cache' w).
Proof.
  induction items as [|[item product] rest IH]; intros n rows cache w Hw.
  - reflexivity.
  - cbn [Views.update_quantities sweep].
    unfold bind at 1. rewrite int_requested.
    destruct (requested post item) as [qty|]; [|reflexivity].
    destruct (0 <? qty).
    + unfold bind at 1. unfold bind at 1. unfold Views.assign at 1.
      cbn [result_cache cart_world set_result_cache option_map].
      match goal with |- context [ORM.save ?r ?w0] =>
        change w0 with
          (cart_world rows
             (Views.replace_nth n (set_quantity qty item, product) cache) w);
        rewrite (save_healthy r (w := cart_world rows _ w)) by exact Hw
      end.
      exact (IH (S n) _ _ w Hw).
    + unfold bind at 1.
      rewrite (delete_healthy item (w := cart_world rows cache w)) by exact Hw.
      exact (IH (S n) _ _ w Hw).
Qed.

Lemma iterate_first cart {w} :
  healthy w -> result_cache w = None ->
  Views.iterate cart w =
    (Return (Views.items_of (db w) cart),
     set_result_cache (Some (Views.items_of (db w) cart)) w).
Proof.
  intros Hw Hc. unfold Views.iterate. rewrite Hc.
  now rewrite (bind_return (storage_healthy Hw)).
Qed.

Lemma iterate_again cart {w cache} :
  result_cache w = Some cache -> Views.iterate cart w = (Return cache, w).
Proof. intros Hc. unfold Views.iterate. now rewrite Hc. Qed.

(** The cart view on a submitted form, for a user who has a cart. *)
Lemma cart_view_post user request w cart :
  healthy w -> result_cache w = None -> method request = POST ->
  filter (Models.Cart_of_user user) (carts (db w)) = [cart] ->
  Views.cart_view user request w =
  let items := Views.items_of (db w) cart in
  let '(finished, (rows, cache)) :=
    sweep (req_POST request) 0 items (cart_items (db w)) items in
  if finished
  then (Return (Redirect "cart" None),
        set_messages (messages w ++ [updated_message]) (cart_world rows cache w))
  else (Return (Render "catalog/cart.html"
                  (CartContext cache (Views.total_of cache))),
        set_messages (messages w ++ [invalid_message]) (cart_world rows cache w)).
Proof.
  intros Hw Hc Hm Hcart. unfold Views.cart_view.
  pose proof (get_or_create_found (Models.Cart_of_user user)
                (Models.new_Cart user) Hw Hcart) as G.
  rewrite (bind_return G), Hm. cbv zeta.
  pose proof (update_quantities_sweep (req_POST request)
                (Views.items_of (db w) cart) 0 (cart_items (db w))
                (Views.items_of (db w) cart) w Hw) as L.
  rewrite <- cart_world_start in L.
  destruct (sweep _ _ _ _ _) as [[|] [rows cache]].
  - match goal with |- bind ?m ?k w = _ =>
      assert (B : m w =
                  (Return (Some (Redirect "cart" None)),
                   set_messages (messages w ++ [updated_message])
                     (cart_world rows cache w)))
    end.
    { apply try_return.
      rewrite (bind_return (iterate_first cart Hw Hc)).
      now rewrite (bind_return L). }
    now rewrite (bind_return B).
  - match goal with |- bind ?m ?k w = _ =>
      assert (B : m w =
                  (Return None,
                   set_messages (messages w ++ [invalid_message])
                     (cart_world rows cache w)))
    end.
    { match goal with |- try_except ?body _ _ w = _ =>
        assert (Body : body w = (Raise ValueError, cart_world rows cache w))
      end.
      { rewrite (bind_return (iterate_first cart Hw Hc)). exact (bind_raise L). }
      now rewrite (try_caught Body eq_refl). }
    rewrite (bind_return B).
    now rewrite (bind_return
                   (iterate_again cart
                      (w := set_messages _ (cart_world rows cache w))
                      (cache := cache) eq_refl)).
Qed.

(** The cart view on a plain request, for a user who has a cart. *)
Lemma cart_view_get user request w cart :
  healthy w -> result_cache w = None -> method request = GET ->
  filter (Models.Cart_of_user user) (carts (db w)) = [cart] ->
  Views.cart_view user request w =
  let items := Views.items_of (db w) cart in
  (Return (Render "catalog/cart.html" (CartContext items (Views.total_of items))),
   set_result_cache (Some items) w).
Proof.
  intros Hw Hc Hm Hcart. unfold Views.cart_view.
  pose proof (get_or_create_found (Models.Cart_of_user user)
                (Models.new_Cart user) Hw Hcart) as G.
  rewrite (bind_return G), Hm. unfold bind at 1, ret at 1.
  now rewrite (bind_return (iterate_first cart Hw Hc)).
Qed.

Lemma set_quantity_same item : set_quantity (ci_quantity item) item = item.
Proof. now destruct item. Qed.

Lemma in_items_of d cart item product :
  In (item, product) (Views.items_of d cart) <->
  In item (cart_items d) /\ ci_cart item = cart_id cart /\
  In product (products d) /\ pr_id product = ci_product item.
Proof.
  unfold Views.items_of. rewrite in_flat_map. split.
  - intros (i & Hi & Hin). apply filter_In in Hi as (Hi & Hc).
    apply in_map_iff in Hin as (p & E & Hp). injection E as -> ->.
    apply filter_In in Hp as (Hp & Hid).
    repeat split; [assumption | now apply Z.eqb_eq | assumption | now apply Z.eqb_eq].
  - intros (Hi & Hc & Hp & Hid). exists item. split.
    + apply filter_In. split; [assumption | now apply Z.eqb_eq].
    + apply in_map, filter_In. split; [assumption | now apply Z.eqb_eq].
Qed.

Section Sweep.

Variable post : QueryDict.

(** A row that no remaining item shares its key with stays in the table. *)
Lemma sweep_other r : forall items n rows cache,
  (forall i p, In (i, p) items -> ci_id i <> ci_id r) ->
  In r rows -> In r (fst (snd (sweep post n items rows cache))).
Proof.
  induction items as [|[item product] rest IH]; intros n rows cache Hid Hr.
  - exact Hr.
  - cbn [sweep]. assert (Hne : pk r <> pk item).
    { intros E. exact (Hid item product (or_introl eq_refl) (eq_sym E)). }
    assert (Hrest : forall i p, In (i, p) rest -> ci_id i <> ci_id r)
      by (intros i p Hin; apply (Hid i p); now right).
    destruct (requested post item) as [qty|]; [|exact Hr].
    destruct (0 <? qty); apply IH; try exact Hrest.
    + now apply in_saved_other.
    + now apply in_deleted_other.
Qed.

(** A row stays as it is when the only items that share its key are the
    row itself, asked to keep the positive quantity it has. *)
Lemma sweep_keeps r : forall items n rows cache,
  (forall i p, In (i, p) items -> ci_id i = ci_id r -> i = r) ->
  requested post r = Some (ci_quantity r) -> 0 < ci_quantity r ->
  In r rows -> In r (fst (snd (sweep post n items rows cache))).
Proof.
  induction items as [|[item product] rest IH]; intros n rows cache Hid Hreq Hpos Hr.
  - exact Hr.
  - cbn [sweep].
    assert (Hrest : forall i p, In (i, p) rest -> ci_id i = ci_id r -> i = r)
      by (intros i p Hin; apply (Hid i p); now right).
    destruct (Z.eq_dec (ci_id item) (ci_id r)) as [E | Hne].
    + rewrite (Hid item product (or_introl eq_refl) E), Hreq.
      rewrite (proj2 (Z.ltb_lt _ _) Hpos), set_quantity_same.
      apply IH; try assumption. now apply in_saved_same.
    + destruct (requested post item) as [qty|]; [|exact Hr].
      destruct (0 <? qty); apply IH; try assumption.
      * apply in_saved_other; [exact Hr | exact (fun E => Hne (eq_sym E))].
      * apply in_deleted_other; [exact Hr | exact (fun E => Hne (eq_sym E))].
Qed.

(** A key that is in no row and in no remaining item stays out. *)
Lemma sweep_absent k : forall items n rows cache,
  (forall i p, In (i, p) items -> ci_id i <> k) ->
  (forall r, In r rows -> ci_id r <> k) ->
  forall r, In r (fst (snd (sweep post n items rows cache))) -> ci_id r <> k.
Proof.
  induction items as [|[item product] rest IH]; intros n rows cache Hid Hrows.
  - exact Hrows.
  - cbn [sweep].
    assert (Hrest : forall i p, In (i, p) rest -> ci_id i <> k)
      by (intros i p Hin; apply (Hid i p); now right).
    pose proof (Hid item product (or_introl eq_refl)) as Hitem.
    destruct (requested post item) as [qty|]; [|exact Hrows].
    destruct (0 <? qty); apply IH; try exact Hrest.
    + intros r Hr. unfold ORM.saved in Hr. destruct (existsb _ rows).
      * apply in_map_iff in Hr as (x & E & Hx).
        destruct (pk x =? pk (set_quantity qty item)); subst r;
          [exact Hitem | now apply Hrows].
      * apply in_app_or in Hr as [Hr | [<- | []]]; [now apply Hrows | exact Hitem].
    + intros r Hr. apply in_deleted in Hr as [Hr _]. now apply Hrows.
Qed.

(** The loop over a list in two parts. *)
Lemma sweep_app : forall before after n rows cache,
  sweep post n (before ++ after) rows cache =
  let '(finished, (rows', cache')) := sweep post n before rows cache in
  if finished
  then sweep post (n + List.length before) after rows' cache'
  else (false, (rows', cache')).
Proof.
  induction before as [|[item product] rest IH]; intros after n rows cache.
  - cbn. now rewrite Nat.add_0_r.
  - cbn [app sweep List.length].
    destruct (requested post item) as [qty|]; [|reflexivity].
    replace (n + S (List.length rest))%nat with (S n + List.length rest)%nat by lia.
    destruct (0 <? qty); apply IH.
Qed.

(** The loop runs to its end exactly when every value is an integer. *)
Lemma sweep_finished : forall items n rows cache,
  (forall i p, In (i, p) items -> requested post i <> None) ->
  fst (sweep post n items rows cache) = true.
Proof.
  induction items as [|[item product] rest IH]; intros n rows cache Hall.
  - reflexivity.
  - cbn [sweep].
    assert (Hrest : forall i p, In (i, p) rest -> requested post i <> None)
      by (intros i p Hin; apply (Hall i p); now right).
    pose proof (Hall item product (or_introl eq_refl)) as Hitem.
    destruct (requested post item) as [qty|]; [|contradiction].
    destruct (0 <? qty); now apply IH.
Qed.

(** The loop keeps the keys of the table apart. *)
Lemma sweep_keyed : forall items n rows cache,
  keyed rows -> keyed (fst (snd (sweep post n items rows cache))).
Proof.
  induction items as [|[item product] rest IH]; intros n rows cache Hk.
  - exact Hk.
  - cbn [sweep]. destruct (requested post item) as [qty|]; [|exact Hk].
    destruct (0 <? qty); apply IH.
    + now apply keyed_saved.
    + now apply keyed_deleted.
Qed.

End Sweep.

Lemma in_saved {R} `{Model R} (rows : list R) (r : R) : In r (ORM.saved r rows).
Proof.
  unfold ORM.saved. destruct (existsb _ rows) eqn:Hex.
  - apply existsb_exists in Hex as (x & Hx & E).
    apply in_map_iff. exists x. now rewrite E.
  - apply in_or_app. right. now left.
Qed.

Lemma filter_pk_none {R} `{Model R} (rows : list R) k :
  ~ In k (map pk rows) -> filter (fun x => pk x =? k) rows = [].
Proof.
  induction rows as [|x rows IH]; simpl; [reflexivity|].
  intros Hk. destruct (Z.eqb_spec (pk x) k) as [E | _].
  - exfalso. apply Hk. now left.
  - apply IH. intros Hin. apply Hk. now right.
Qed.

(** A key selects at most one row of a keyed table. *)
Lemma filter_pk_cases {R} `{Model R} (rows : list R) k :
  keyed rows ->
  filter (fun x => pk x =? k) rows = [] \/
  exists r, filter (fun x => pk x =? k) rows = [r] /\ In r rows /\ pk r = k.
Proof.
  unfold keyed. induction rows as [|x rows IH]; simpl; [now left|].
  intros Hnd. inversion Hnd as [|? ? Hx Hrows]; subst.
  destruct (Z.eqb_spec (pk x) k) as [E | Hne].
  - right. exists x. rewrite filter_pk_none by now rewrite <- E.
    repeat split; [now left | exact E].
  - destruct (IH Hrows) as [E | (r & E & Hr & Hk)]; [now left|].
    right. exists r. repeat split; [exact E | now right | exact Hk].
Qed.

(** The cached objects of a cart have different keys. *)
Lemma items_of_keyed d cart :
  keyed (cart_items d) -> keyed (products d) ->
  NoDup (map loaded_id (Views.items_of d cart)).
Proof.
  intros Hrows Hproducts. unfold Views.items_of.
  assert (Hf : NoDup (map ci_id (filter (fun i => ci_cart i =? cart_id cart)
                                   (cart_items d))))
    by now apply NoDup_map_filter.
  induction (filter _ (cart_items d)) as [|x rows IH]; simpl; [constructor|].
  inversion Hf as [|? ? Hx Hnd]; subst.
  rewrite map_app. apply NoDup_app.
  - destruct (filter_pk_cases (products d) (ci_product x) Hproducts)
      as [E | (p & E & _)]; cbn [pk Product_Model] in E; rewrite E; cbn.
    + constructor.
    + repeat constructor. intros [].
  - now apply IH.
  - intros k Hk Hin. apply Hx.
    apply in_map_iff in Hk as ((i & p) & <- & Hip).
    apply in_map_iff in Hip as (p' & E & _). injection E as <- _.
    apply in_map_iff in Hin as ((j & q) & Ej & Hjq).
    apply in_flat_map in Hjq as (j' & Hj' & Hjq).
    apply in_map_iff in Hjq as (q' & E & _). injection E as -> _.
    apply in_map_iff. exists j. split; [exact Ej | exact Hj'].
Qed.

Lemma NoDup_app_disjoint {A} (l l' : list A) a :
  NoDup (l ++ l') -> In a l -> In a l' -> False.
Proof.
  induction l as [|x l IH]; simpl; [contradiction|].
  intros Hnd [-> | Ha] Ha'; inversion Hnd as [|? ? Hx Hl]; subst.
  - apply Hx. apply in_or_app. now right.
  - now apply IH.
Qed.

Section SweepApplied.

Variable post : QueryDict.

(** When every value is an integer, every item is updated or deleted as
    its own value says. *)
Lemma sweep_applied : forall items n rows cache,
  NoDup (map loaded_id items) ->
  (forall i p, In (i, p) items -> requested post i <> None) ->
  forall i p qty, In (i, p) items -> requested post i = Some qty ->
    let rows' := fst (snd (sweep post n items rows cache)) in
    if 0 <? qty
    then In (set_quantity qty i) rows'
    else forall r, In r rows' -> ci_id r <> ci_id i.
Proof.
  induction items as [|[item product] rest IH]; intros n rows cache Hnd Hall;
    [contradiction|].
  intros i p qty [E | Hin] Hreq; cbn [sweep]; cbn zeta.
  - injection E as -> ->. rewrite Hreq.
    inversion Hnd as [|? ? Hx Hrest]; subst.
    assert (Hother : forall j q, In (j, q) rest -> ci_id j <> ci_id i).
    { intros j q Hj E. apply Hx.
      apply in_map_iff. exists (j, q). split; [exact E | exact Hj]. }
    destruct (0 <? qty).
    + apply sweep_other; [exact Hother | apply in_saved].
    + apply sweep_absent; [exact Hother|].
      intros r Hr. apply in_deleted in Hr as [_ Hne]. exact Hne.
  - inversion Hnd as [|? ? Hx Hrest]; subst.
    assert (Hall' : forall j q, In (j, q) rest -> requested post j <> None)
      by (intros j q Hj; apply (Hall j q); now right).
    pose proof (Hall item product (or_introl eq_refl)) as Hitem.
    destruct (requested post item) as [qty0|]; [|contradiction].
    destruct (0 <? qty0); exact (IH _ _ _ Hrest Hall' i p qty Hin Hreq).
Qed.

End SweepApplied.

(* ===================================================================== *)
(** * The cart: bulk update *)
(* ===================================================================== *)

Lemma login_required_user view request user :
  req_user request = Some user ->
  Views.login_required view request = view user request.
Proof. unfold Views.login_required. now intros ->. Qed.

(** The first item whose value is not an integer. *)
Lemma first_invalid post : forall items : list LoadedItem,
  (exists i p, In (i, p) items /\ requested post i = None) ->
  exists before bad product after,
    items = before ++ (bad, product) :: after /\
    (forall i p, In (i, p) before -> requested post i <> None) /\
    requested post bad = None.
Proof.
  induction items as [|[item product] rest IH]; intros (i & p & Hin & Hreq);
    [contradiction|].
  destruct (requested post item) as [qty|] eqn:E.
  - destruct Hin as [Heq | Hin]; [injection Heq as -> ->; congruence|].
    destruct (IH (ex_intro _ i (ex_intro _ p (conj Hin Hreq))))
      as (before & bad & product' & after & -> & Hbefore & Hbad).
    exists ((item, product) :: before), bad, product', after.
    repeat split; [|exact Hbad].
    intros j q [Heq | Hj]; [injection Heq as <- <-; congruence | now apply (Hbefore j q)].
  - exists [], item, product, rest. repeat split; [intros ? ? [] | exact E].
Qed.


(** The table of cart items the cart view leaves, for a user who has a
    cart: the table the loop leaves on a submitted form, the same table on
    a plain request. *)
Lemma cart_rows_after user request w cart :
  healthy w -> result_cache w = None -> req_user request = Some user ->
  filter (Models.Cart_of_user user) (carts (db w)) = [cart] ->
  cart_items (db (snd (respond (Views.cart request) w))) =
  match method request with
  | GET => cart_items (db w)
  | POST =>
      fst (snd (sweep (req_POST request) 0 (Views.items_of (db w) cart)
                  (cart_items (db w)) (Views.items_of (db w) cart)))
  end.
Proof.
  intros Hw Hc Hu Hcart. unfold Views.cart, respond.
  rewrite (login_required_user _ _ _ Hu).
  destruct (method request) eqn:Hm.
  - now rewrite (cart_view_get user request w cart Hw Hc Hm Hcart).
  - rewrite (cart_view_post user request w cart Hw Hc Hm Hcart). cbv zeta.
    destruct (sweep _ _ _ _ _) as [[|] [rows cache]]; reflexivity.
Qed.

(** C10.  In a bulk update, an item of the caller's cart whose quantity
    key is not in the submitted form keeps the quantity it has (at least
    1, as every cart item has): after the request, whether the update went
    through or was refused, the table still holds the very same row, and
    no other row under its key. *)
Theorem absent_key_keeps_item (user : User) (request : Request) (w : World)
    (cart : Cart) (item : CartItem) :
  healthy w -> result_cache w = None -> req_user request = Some user ->
  filter (Models.Cart_of_user user) (carts (db w)) = [cart] ->
  keyed (cart_items (db w)) ->
  In item (cart_items (db w)) -> ci_cart item = cart_id cart ->
  Views.QueryDict_get (req_POST request)
    ("quantity_" ++ Py.str (ci_id item))%string = None ->
  0 < ci_quantity item ->
  let w' := snd (respond (Views.cart request) w) in
  In item (cart_items (db w')) /\
  (forall r, In r (cart_items (db w')) -> ci_id r = ci_id item -> r = item).
Proof.
  intros Hw Hc Hu Hcart Hrows Hitem Hmine Habsent Hpos w'.
  assert (Hreq : requested (req_POST request) item = Some (ci_quantity item))
    by (unfold requested; now rewrite Habsent).
  assert (Hin : In item (cart_items (db w')) /\ keyed (cart_items (db w'))).
  { unfold w'. rewrite (cart_rows_after user request w cart Hw Hc Hu Hcart).
    destruct (method request); [now split|]. split.
    - apply sweep_keeps; try assumption.
      intros i p Hip E. apply in_items_of in Hip as (Hi & _).
      exact (keyed_inj _ i item Hrows Hi Hitem E).
    - now apply sweep_keyed. }
  destruct Hin as [Hin Hk]. split; [exact Hin|].
  intros r Hr E. exact (keyed_inj _ r item Hk Hr Hin E).
Qed.



Lemma absent_key_keeps_item_witness :
  In Sample.coats
    (cart_items
       (db (snd (respond
                   (Views.cart
                      (Sample.request POST Sample.alice [("quantity_1", "0")]))
                   (start Sample.shop))))).
Proof.
  apply (absent_key_keeps_item Sample.alice
           (Sample.request POST Sample.alice [("quantity_1", "0")])
           (start Sample.shop) Sample.alice_cart Sample.coats).
  - reflexivity.
  - reflexivity.
  - reflexivity.
  - reflexivity.
  - unfold keyed; cbn; repeat constructor; cbn; lia.
  - cbn. right. left. reflexivity.
  - reflexivity.
  - reflexivity.
  - reflexivity.
Defined.

(* ===================================================================== *)
(** * The cart: the total *)
(* ===================================================================== *)

Lemma fold_left_sum {A} (f : A -> Z) (l : list A) (a : Z) :
  fold_left (fun acc x => acc + f x) l a = a + sumZ (map f l).
Proof.
  revert a. induction l as [|x l IH]; intros a;
    cbn [fold_left map sumZ fold_right]; [lia|].
  rewrite IH. unfold sumZ. lia.
Qed.

Lemma sum_app l l' : sumZ (l ++ l') = sumZ l + sumZ l'.
Proof.
  unfold sumZ. induction l as [|x l IH]; cbn [app fold_right]; [reflexivity|].
  rewrite IH. lia.
Qed.

Lemma find_filter_pk {R} `{Model R} (rows : list R) k :
  keyed rows ->
  filter (fun x => pk x =? k) rows =
  match find (fun x => pk x =? k) rows with
  | Some r => [r]
  | None => []
  end.
Proof.
  unfold keyed. induction rows as [|x rows IH]; cbn; [reflexivity|].
  intros Hnd. inversion Hnd as [|? ? Hx Hrows]; subst.
  destruct (Z.eqb_spec (pk x) k) as [E | Hne]; [|now apply IH].
  now rewrite filter_pk_none by now rewrite <- E.
Qed.

Lemma items_of_joined d cart :
  Views.items_of d cart = joined (products d) cart (cart_items d).
Proof. reflexivity. Qed.

(** The total of the loaded items is the total of the cart in the store
    they were loaded from. *)
Lemma total_of_items_of d cart :
  keyed (products d) ->
  Views.total_of (Views.items_of d cart) = cart_total d cart.
Proof.
  intros Hk. unfold Views.total_of, cart_total, Views.items_of.
  rewrite (fold_left_sum (fun i => pr_price (snd i) * ci_quantity (fst i))).
  rewrite Z.add_0_l.
  change (fun i => ci_cart i =? cart_id cart) with (in_cart cart).
  induction (filter (in_cart cart) (cart_items d)) as [|x rows IH];
    cbn [flat_map map sumZ fold_right]; [reflexivity|].
  rewrite map_app, sum_app, IH. f_equal.
  pose proof (find_filter_pk (products d) (ci_product x) Hk) as E.
  cbn [pk Product_Model] in E. rewrite E. unfold price_of.
  destruct (find _ (products d)); cbn [map sumZ fold_right fst snd]; lia.
Qed.

Lemma replace_nth_app {A} (done rest : list A) (x y : A) :
  Views.replace_nth (List.length done) x (done ++ y :: rest) = done ++ x :: rest.
Proof. induction done as [|z done IH]; cbn; [reflexivity | now rewrite IH]. Qed.

Lemma map_fixed {A} (f : A -> A) (l : list A) :
  (forall x, In x l -> f x = x) -> map f l = l.
Proof.
  induction l as [|x l IH]; cbn; intros Hf; [reflexivity|].
  rewrite Hf by now left. f_equal. apply IH. intros y Hy. apply Hf. now right.
Qed.

(** A change of rows that keeps their cart and product goes through the
    join. *)
Lemma joined_map ps cart (f : CartItem -> CartItem) rows :
  (forall x, In x rows ->
     ci_cart (f x) = ci_cart x /\ ci_product (f x) = ci_product x) ->
  joined ps cart (map f rows) =
  map (fun xp => (f (fst xp), snd xp)) (joined ps cart rows).
Proof.
  unfold joined, in_cart. induction rows as [|x rows IH]; intros Hf;
    [reflexivity|].
  destruct (Hf x (or_introl eq_refl)) as [Ec Ep].
  assert (IH' := IH (fun y Hy => Hf y (or_intror Hy))).
  cbn [map filter]. rewrite Ec.
  destruct (ci_cart x =? cart_id cart); [|exact IH'].
  cbn [flat_map]. rewrite map_app, IH', Ep. f_equal.
  rewrite map_map. reflexivity.
Qed.

Section SweepSync.

Variable post : QueryDict.
Variable ps : list Product.
Variable cart : Cart.

(** When no item is asked a quantity below 1, the cached objects stay what
    the table says: whatever the loop did, loading the items of the cart
    again would give the cached objects. *)
Lemma sweep_sync : forall items done rows,
  keyed rows ->
  NoDup (map loaded_id (done ++ items)) ->
  joined ps cart rows = done ++ items ->
  (forall i p qty, In (i, p) items -> requested post i = Some qty -> 0 < qty) ->
  let '(_, (rows', cache')) :=
    sweep post (List.length done) items rows (done ++ items) in
  joined ps cart rows' = cache'.
Proof.
  induction items as [|[item product] rest IH]; intros done rows Hk Hnd Hj Hpos.
  - exact Hj.
  - cbn [sweep].
    destruct (requested post item) as [qty|] eqn:Hreq; [|exact Hj].
    rewrite (proj2 (Z.ltb_lt _ _) (Hpos item product qty (or_introl eq_refl) Hreq)).
    set (item' := set_quantity qty item).
    assert (Hin : In item rows).
    { assert (H : In (item, product) (joined ps cart rows))
        by (rewrite Hj; apply in_or_app; right; now left).
      unfold joined in H. apply in_flat_map in H as (i & Hi & Hip).
      apply in_map_iff in Hip as (p & E & _). injection E as -> _.
      now apply filter_In in Hi. }
    rewrite replace_nth_app.
    specialize (IH (done ++ [(item', product)]) (ORM.saved item' rows)).
    rewrite length_app, <- app_assoc, Nat.add_1_r in IH. cbn [app] in IH.
    apply IH.
    + now apply keyed_saved.
    + rewrite map_app in *. exact Hnd.
    + rewrite saved_present by exact (existsb_pk rows item Hin).
      rewrite joined_map.
      * rewrite Hj, map_app. cbn [map fst snd pk CartItem_Model item' set_quantity ci_id].
        rewrite Z.eqb_refl, (map_fixed _ done), (map_fixed _ rest);
          [reflexivity | |].
        -- intros [i p] Hip. cbn [fst snd].
           destruct (Z.eqb_spec (ci_id i) (ci_id item)) as [E|]; [|reflexivity].
           exfalso. rewrite map_app in Hnd.
           apply NoDup_app_remove_l in Hnd.
           inversion Hnd as [|? ? Hx _]; subst. apply Hx.
           apply in_map_iff. exists (i, p). split; [exact E | exact Hip].
        -- intros [i p] Hip. cbn [fst snd].
           destruct (Z.eqb_spec (ci_id i) (ci_id item)) as [E|]; [|reflexivity].
           exfalso. rewrite map_app in Hnd.
           apply (NoDup_app_disjoint _ _ (ci_id i) Hnd).
           ++ apply in_map_iff. now exists (i, p).
           ++ left. exact (eq_sym E).
      * intros x Hx. cbn [pk CartItem_Model].
        destruct (Z.eqb_spec (ci_id x) (ci_id item')) as [E|]; [|now split].
        rewrite (keyed_inj rows x item Hk Hx Hin E). now split.
    + intros i p q Hip. apply (Hpos i p q). now right.
Qed.

End SweepSync.

Lemma find_replaced (p' : Product) (k : Z) : forall ps : list Product,
  find (fun x => pr_id x =? k)
    (map (fun x => if pr_id x =? pr_id p' then p' else x) ps) =
  if k =? pr_id p'
  then (if existsb (fun x => pr_id x =? pr_id p') ps then Some p' else None)
  else find (fun x => pr_id x =? k) ps.
Proof.
  induction ps as [|x ps IH]; cbn [map find existsb].
  - now destruct (k =? pr_id p').
  - destruct (Z.eqb_spec (pr_id x) (pr_id p')) as [E | Hne].
    + cbn [orb]. destruct (Z.eqb_spec k (pr_id p')) as [-> | Hk].
      * now rewrite Z.eqb_refl.
      * rewrite IH.
        destruct (Z.eqb_spec (pr_id p') k); [congruence|].
        destruct (Z.eqb_spec (pr_id x) k); [congruence|].
        destruct (Z.eqb_spec k (pr_id p')); [congruence | reflexivity].
    + cbn [orb]. rewrite IH.
      destruct (Z.eqb_spec k (pr_id p')) as [-> | Hk].
      * destruct (Z.eqb_spec (pr_id x) (pr_id p')); [contradiction | reflexivity].
      * reflexivity.
Qed.

Lemma price_of_present d p :
  keyed (products d) -> In p (products d) -> price_of d (pr_id p) = pr_price p.
Proof.
  intros Hk Hp. unfold price_of.
  pose proof (find_filter_pk (products d) (pr_id p) Hk) as E.
  destruct (filter_pk_cases (products d) (pr_id p) Hk) as [F | (r & F & Hr & Hid)];
    cbn [pk Product_Model] in *.
  - exfalso. assert (H : In p (filter (fun x => pr_id x =? pr_id p) (products d)))
      by (apply filter_In; split; [exact Hp | apply Z.eqb_refl]).
    now rewrite F in H.
  - rewrite F in E. destruct (find _ (products d)) as [r'|]; [|discriminate].
    injection E as <-. now rewrite (keyed_inj (products d) r p Hk Hr Hp Hid).
Qed.

Lemma price_of_repriced d p price k :
  In p (products d) ->
  price_of (repriced price p d) k =
  if k =? pr_id p then price else price_of d k.
Proof.
  intros Hp. unfold price_of, repriced. cbn [products with_table Product_Model].
  rewrite saved_present by exact (existsb_pk (products d) p Hp).
  cbn [pk Product_Model].
  rewrite (find_replaced (set_price price p) k (products d)).
  cbn [pr_id set_price].
  destruct (k =? pr_id p); [|reflexivity].
  pose proof (existsb_pk (products d) p Hp) as Hex. cbn [pk Product_Model] in Hex.
  now rewrite Hex.
Qed.

(** A new catalog price moves the total of a cart by the difference of
    the prices for every unit of the product in the cart. *)
Lemma cart_total_repriced d cart p price :
  keyed (products d) -> In p (products d) ->
  cart_total (repriced price p d) cart =
  cart_total d cart + (price - pr_price p) * units d cart (pr_id p).
Proof.
  intros Hk Hp. unfold cart_total, units.
  change (cart_items (repriced price p d)) with (cart_items d).
  pose proof (price_of_present d p Hk Hp) as Hold.
  induction (filter (in_cart cart) (cart_items d)) as [|i rows IH];
    cbn [map sumZ fold_right]; [ring|].
  unfold sumZ in IH. rewrite IH, (price_of_repriced d p price _ Hp).
  destruct (Z.eqb_spec (ci_product i) (pr_id p)) as [E | Hne].
  - rewrite E, Hold. ring.
  - ring.
Qed.

(** The total on a plain view of the cart. *)
Lemma cart_get_total user request w cart :
  healthy w -> result_cache w = None -> req_user request = Some user ->
  method request = GET ->
  filter (Models.Cart_of_user user) (carts (db w)) = [cart] ->
  keyed (products (db w)) ->
  respond (Views.cart request) w =
    (Render "catalog/cart.html"
       (CartContext (Views.items_of (db w) cart) (cart_total (db w) cart)),
     set_result_cache (Some (Views.items_of (db w) cart)) w).
Proof.
  intros Hw Hc Hu Hm Hcart Hk. unfold Views.cart, respond.
  rewrite (login_required_user _ _ _ Hu).
  rewrite (cart_view_get user request w cart Hw Hc Hm Hcart). cbv zeta.
  now rewrite total_of_items_of.
Qed.

(** X25.  Where C8 holds.  On a request that deletes no cart item (a plain
    view of the cart, or a bulk update in which no item is asked a
    quantity below 1), the total on the cart page is the sum, over the
    rows of the cart, of the current catalog price of the product times
    the quantity of the row.  So after the catalog price of a product is
    changed, the next view of the cart shows a total that has moved by the
    price difference for every unit of it in the cart; and the change of
    the catalog price leaves every [OrderedItem], hence the price it
    stores, as it was. *)
Theorem cart_total_is_live (user : User) (request : Request) (w : World)
    (cart : Cart) :
  healthy w -> result_cache w = None -> req_user request = Some user ->
  filter (Models.Cart_of_user user) (carts (db w)) = [cart] ->
  keyed (cart_items (db w)) -> keyed (products (db w)) ->
  method request = GET \/
  deletes_nothing (req_POST request) (Views.items_of (db w) cart) ->
  let response := fst (respond (Views.cart request) w) in
  let w' := snd (respond (Views.cart request) w) in
  match method request with
  | GET =>
      db w' = db w /\
      exists shown,
        response = Render "catalog/cart.html"
                     (CartContext shown (cart_total (db w) cart))
  | POST =>
      response = Redirect "cart" None \/
      exists shown,
        response = Render "catalog/cart.html"
                     (CartContext shown (cart_total (db w') cart))
  end /\
  forall p price, In p (products (db w)) ->
    let w1 := snd (ORM.save (set_price price p) w) in
    ordered_items (db w1) = ordered_items (db w) /\
    (method request = GET ->
     exists shown,
       fst (respond (Views.cart request) w1) =
       Render "catalog/cart.html"
         (CartContext shown
            (cart_total (db w) cart
             + (price - pr_price p) * units (db w) cart (pr_id p)))).
Proof.
  intros Hw Hc Hu Hcart Hrows Hproducts Hcase response w'. split.
  - destruct (method request) eqn:Hm.
    + unfold response, w'.
      rewrite (cart_get_total user request w cart Hw Hc Hu Hm Hcart Hproducts).
      split; [now destruct w | now eexists].
    + destruct Hcase as [Hcase | Hkeep]; [discriminate|].
      unfold response, w', Views.cart, respond.
      rewrite (login_required_user _ _ _ Hu).
      rewrite (cart_view_post user request w cart Hw Hc Hm Hcart). cbv zeta.
      pose proof (sweep_sync (req_POST request) (products (db w)) cart
                    (Views.items_of (db w) cart) [] (cart_items (db w))
                    Hrows (items_of_keyed (db w) cart Hrows Hproducts)
                    (eq_sym (items_of_joined (db w) cart)) Hkeep) as Hsync.
      cbn [List.length app] in Hsync.
      destruct (sweep _ _ _ _ _) as [finished [rows cache]].
      destruct finished; [now left | right]. exists cache.
      cbn [fst snd]. do 2 f_equal.
      rewrite <- Hsync.
      change (joined (products (db w)) cart rows)
        with (Views.items_of (with_table rows (db w)) cart).
      now apply total_of_items_of.
  - intros p price Hp w1.
    assert (E1 : w1 = set_db (repriced price p (db w)) w)
      by (unfold w1; now rewrite (save_healthy (set_price price p) Hw)).
    split; [now rewrite E1|].
    intros Hm. eexists.
    rewrite E1, (cart_get_total user request _ cart); try assumption.
    + cbn [fst db set_db]. now rewrite cart_total_repriced.
    + exact (keyed_saved (products (db w)) (set_price price p) Hproducts).
Qed.

(** C8 at the failing input, the page that follows a refused bulk update:
    Alice asks for no shirts and for a number of coats that is not a
    number; the shirts are deleted, the failure is reported, and the page
    still counts the two shirts in its total, 41000, where the rows of her
    cart in the store add up to 36000. *)
Lemma stale_total_after_refused_update :
  let form := [("quantity_1", "0"); ("quantity_2", "abc")] in
  let outcome := respond (Views.cart (Sample.request POST Sample.alice form))
                   (start Sample.shop) in
  cart_items (db (snd outcome)) = [Sample.coats; Sample.bob_shirt] /\
  messages (snd outcome) = [invalid_message] /\
  cart_total (db (snd outcome)) Sample.alice_cart = 36000 /\
  fst outcome =
    Render "catalog/cart.html"
      (CartContext [(Sample.shirts, Sample.shirt); (Sample.coats, Sample.coat)]
         41000).
Proof. cbv zeta. repeat split; reflexivity. Qed.

Lemma cart_total_is_live_witness :
  exists shown,
    fst (respond (Views.cart (Sample.request GET Sample.alice []))
           (start Sample.shop)) =
    Render "catalog/cart.html"
      (CartContext shown (cart_total Sample.shop Sample.alice_cart)).
Proof.
  destruct (cart_total_is_live Sample.alice (Sample.request GET Sample.alice [])
              (start Sample.shop) Sample.alice_cart) as [[_ Hshown] _].
  - reflexivity.
  - reflexivity.
  - reflexivity.
  - reflexivity.
  - unfold keyed; cbn; repeat constructor; cbn; lia.
  - unfold keyed; cbn; repeat constructor; cbn; lia.
  - left. reflexivity.
  - exact Hshown.
Defined.

(* ===================================================================== *)
(** * The cart: adding a product *)
(* ===================================================================== *)

Lemma quantity_stage post w :
  try_except
    (quantity <- Views.int (Views.QueryDict_get_default post "quantity" 1) ;;
     if quantity <=? 0 then ret 1 else ret quantity)
    (one_of [ValueError; TypeError])
    (fun _ => ret 1) w
  = (Return (requested_quantity post), w).
Proof.
  unfold requested_quantity, Views.QueryDict_get_default, try_except, bind.
  destruct (Views.QueryDict_get post "quantity") as [s|]; cbn [Views.int];
    [|reflexivity].
  destruct (Py.int_of_string s) as [n|]; [|reflexivity].
  unfold ret. now destruct (n <=? 0).
Qed.

(** The add-to-cart view as a function of the store. *)
Lemma add_to_cart_run user request w product_id product :
  healthy w -> req_user request = Some user ->
  filter (fun p => pr_id p =? product_id) (products (db w)) = [product] ->
  (count (Models.Cart_of_user user) (carts (db w)) <= 1)%nat ->
  (forall cart,
     (count (Views.CartItem_of cart product) (cart_items (db w)) <= 1)%nat) ->
  let quantity := requested_quantity (req_POST request) in
  let outcome := respond (Views.add_to_cart request product_id) w in
  fst outcome = Redirect "cart" None /\
  healthy (snd outcome) /\
  exists cart,
    filter (Models.Cart_of_user user) (carts (db (snd outcome))) = [cart] /\
    cart_items (db (snd outcome)) =
    match filter (Views.CartItem_of cart product) (cart_items (db w)) with
    | item :: _ => map (merged item quantity) (cart_items (db w))
    | [] => cart_items (db w) ++ [new_item cart product quantity (db w)]
    end.
Proof.
  intros Hw Hu Hproduct Hcart Hpair quantity outcome.
  unfold outcome, respond, Views.add_to_cart.
  rewrite (login_required_user _ _ _ Hu). unfold Views.add_to_cart_view.
  pose proof (get_object_or_404_found (fun p => pr_id p =? product_id)
                Hw Hproduct) as G0.
  rewrite (bind_return G0).
  destruct (ensure_cart user w Hw Hcart) as (cart & cc & wa & Ea & Hwa & Fa & _ & Wa).
  rewrite (bind_return Ea). cbv beta iota.
  rewrite (bind_return (quantity_stage (req_POST request) wa)).
  fold quantity.
  assert (Hitems : cart_items (db wa) = cart_items (db w)) by now rewrite Wa.
  destruct (count_cases _ _ (Hpair cart)) as [E | [item E]].
  - pose proof (get_or_create_missing (Views.CartItem_of cart product)
                  {| ci_id := 0; ci_cart := cart_id cart;
                     ci_product := pr_id product; ci_quantity := quantity |}
                  Hwa) as G.
    cbn [table CartItem_Model] in G. rewrite Hitems in G.
    rewrite (bind_return (G E)). cbn.
    split; [reflexivity|]. split; [exact Hwa|]. exists cart. split; [exact Fa|].
    rewrite E. unfold new_item, inserted. cbn. now rewrite Hitems.
  - pose proof (get_or_create_found (Views.CartItem_of cart product)
                  {| ci_id := 0; ci_cart := cart_id cart;
                     ci_product := pr_id product; ci_quantity := quantity |}
                  (r := item) Hwa) as G.
    cbn [table CartItem_Model] in G. rewrite Hitems in G.
    rewrite (bind_return (G E)). cbn [negb].
    rewrite (bind_return
               (save_healthy (set_quantity (ci_quantity item + quantity) item) Hwa)).
    cbn [table CartItem_Model]. rewrite Hitems.
    assert (Hin : In item (cart_items (db w))).
    { assert (H : In item (filter (Views.CartItem_of cart product) (cart_items (db w))))
        by (rewrite E; now left).
      now apply filter_In in H. }
    rewrite saved_present by exact (existsb_pk (cart_items (db w)) item Hin).
    cbn. split; [reflexivity|]. split; [exact Hwa|]. exists cart.
    split; [exact Fa|]. now rewrite E.
Qed.



(* ===================================================================== *)
(** * The cart: removing an item *)
(* ===================================================================== *)

Lemma filter_andb {A} (p q : A -> bool) (l : list A) :
  filter (fun x => p x && q x) l = filter q (filter p l).
Proof.
  induction l as [|x l IH]; cbn; [reflexivity|].
  destruct (p x); cbn; [|exact IH]. destruct (q x); now rewrite IH.
Qed.

Lemma belongs_owned d user item_id item :
  belongs d user item_id item <->
  In item (filter (Views.owned_item d user item_id) (cart_items d)).
Proof.
  unfold belongs, Views.owned_item. rewrite filter_In, andb_true_iff, existsb_exists.
  split.
  - intros (Hin & Hid & cart & Hc & E1 & E2). repeat split; [exact Hin | now apply Z.eqb_eq |].
    exists cart. split; [exact Hc|]. apply andb_true_iff. split; now apply Z.eqb_eq.
  - intros (Hin & Hid & cart & Hc & E). apply andb_true_iff in E as [E1 E2].
    repeat split; [exact Hin | now apply Z.eqb_eq |].
    exists cart. repeat split; [exact Hc | now apply Z.eqb_eq | now apply Z.eqb_eq].
Qed.

Lemma owned_cases d user item_id :
  keyed (cart_items d) ->
  filter (Views.owned_item d user item_id) (cart_items d) = [] \/
  exists item, filter (Views.owned_item d user item_id) (cart_items d) = [item].
Proof.
  intros Hk. unfold Views.owned_item. rewrite filter_andb.
  destruct (filter_pk_cases (cart_items d) item_id Hk) as [E | (r & E & _)];
    cbn [pk CartItem_Model] in E; rewrite E; cbn; [now left|].
  destruct (existsb _ (carts d)); [right; now exists r | now left].
Qed.

(** C7.  Removing a cart item by its key: an item with that key in a cart
    of the requesting user is deleted, and only that row; when there is
    no such item (the key is unknown, or the item is in a cart of another
    user), the lookup ends in [Http404], which the view reports as an
    error message before it redirects to the cart as usual, and the store
    is left as it was. *)
Theorem remove_from_cart_scoped (user : User) (request : Request) (w : World)
    (item_id : Z) :
  healthy w -> req_user request = Some user ->
  keyed (cart_items (db w)) ->
  (forall i, In i (cart_items (db w)) ->
     exists p, filter (fun p => pr_id p =? ci_product i) (products (db w)) = [p]) ->
  let outcome := respond (Views.remove_from_cart request item_id) w in
  fst outcome = Redirect "cart" None /\
  (forall item, belongs (db w) user item_id item ->
     cart_items (db (snd outcome)) = ORM.deleted item (cart_items (db w)) /\
     ~ In item (cart_items (db (snd outcome))) /\
     forall r, In r (cart_items (db w)) -> r <> item ->
               In r (cart_items (db (snd outcome)))) /\
  ((forall item, ~ belongs (db w) user item_id item) ->
     ORM.get_object_or_404 (Views.owned_item (db w) user item_id) w
       = (Raise Http404, w) /\
     db (snd outcome) = db w /\
     messages (snd outcome) = messages w ++ [removal_error]).
Proof.
  intros Hw Hu Hk Hfk outcome.
  unfold outcome, respond, Views.remove_from_cart.
  rewrite (login_required_user _ _ _ Hu). unfold Views.remove_from_cart_view.
  destruct (owned_cases (db w) user item_id Hk) as [E | [item E]].
  - pose proof (get_object_or_404_missing
                  (Views.owned_item (db w) user item_id) Hw E) as G.
    match goal with |- context [try_except ?body _ _] =>
      assert (Body : body w = (Raise Http404, w))
        by (unfold bind at 1, get_db; exact (bind_raise G))
    end.
    rewrite (bind_return (try_caught Body eq_refl)). cbn.
    split; [reflexivity|]. split.
    + intros item Hitem. apply belongs_owned in Hitem. now rewrite E in Hitem.
    + intros _. repeat split. exact G.
  - assert (Hitem : belongs (db w) user item_id item)
      by (apply belongs_owned; rewrite E; now left).
    pose proof (get_object_or_404_found
                  (Views.owned_item (db w) user item_id) Hw E) as G.
    destruct (Hfk item (proj1 Hitem)) as (p & Ep).
    pose proof (get_one (fun p => pr_id p =? ci_product item) Hw Ep) as Gp.
    match goal with |- context [try_except ?body _ _] =>
      assert (Body : body w =
                (Return tt,
                 set_messages
                   (messages w ++ [(Success, (pr_name p ++ " removed from cart.")%string)])
                   (set_db (with_table (ORM.deleted item (cart_items (db w))) (db w)) w)))
    end.
    { unfold bind at 1, get_db.
      rewrite (bind_return G), (bind_return Gp).
      now rewrite (bind_return (delete_healthy item Hw)). }
    rewrite (bind_return (try_return Body)). cbn [fst snd ret db set_db set_messages].
    split; [reflexivity|]. split.
    + intros item' Hitem'. apply belongs_owned in Hitem'. rewrite E in Hitem'.
      destruct Hitem' as [<- | []]. cbn [cart_items with_table CartItem_Model].
      split; [reflexivity|]. split.
      * intros Hin. apply in_deleted in Hin as [_ Hne]. now apply Hne.
      * intros r Hr Hne. apply in_deleted_other; [exact Hr|].
        intros Eid. apply Hne. exact (keyed_inj _ r item Hk Hr (proj1 Hitem) Eid).
    + intros Hnone. exfalso. exact (Hnone item Hitem).
Qed.

Lemma remove_from_cart_scoped_witness :
  cart_items
    (db (snd (respond (Views.remove_from_cart (Sample.request POST Sample.alice []) 3)
                (start Sample.shop)))) = cart_items Sample.shop /\
  cart_items
    (db (snd (respond (Views.remove_from_cart (Sample.request POST Sample.alice []) 2)
                (start Sample.shop)))) = [Sample.shirts; Sample.bob_shirt].
Proof.
  assert (Hk : keyed (cart_items (db (start Sample.shop))))
    by (unfold keyed; cbn; repeat constructor; cbn; lia).
  assert (Hfk : forall i, In i (cart_items (db (start Sample.shop))) ->
            exists p, filter (fun p => pr_id p =? ci_product i)
                        (products (db (start Sample.shop))) = [p]).
  { intros i [<- | [<- | [<- | []]]]; eexists; reflexivity. }
  split.
  - destruct (remove_from_cart_scoped Sample.alice
                (Sample.request POST Sample.alice []) (start Sample.shop) 3
                eq_refl eq_refl Hk Hfk) as (_ & _ & Hnone).
    destruct Hnone as (_ & Hdb & _); [|now rewrite Hdb].
    intros item (Hin & Hid & cart & Hc & E1 & E2).
    destruct Hin as [<- | [<- | [<- | []]]]; try discriminate Hid.
    destruct Hc as [<- | [<- | []]]; discriminate.
  - destruct (remove_from_cart_scoped Sample.alice
                (Sample.request POST Sample.alice []) (start Sample.shop) 2
                eq_refl eq_refl Hk Hfk) as (_ & Hsome & _).
    destruct (Hsome Sample.coats) as (Hrows & _); [|exact Hrows].
    split; [right; now left|]. split; [reflexivity|].
    exists Sample.alice_cart. split; [now left | now split].
Defined.

(* ===================================================================== *)
(** * The wishlist *)
(* ===================================================================== *)

Lemma not_wished d wishlist product_id :
  existsb (Views.in_wishlist wishlist product_id) (wishlist_products d) = false ->
  ~ In (wishlist_id wishlist, product_id) (wished d).
Proof.
  intros Hex Hin. apply in_map_iff in Hin as (r & E & Hr). injection E as E1 E2.
  assert (existsb (Views.in_wishlist wishlist product_id) (wishlist_products d) = true);
    [|congruence].
  apply existsb_exists. exists r. split; [exact Hr|].
  unfold Views.in_wishlist. now rewrite E1, E2, !Z.eqb_refl.
Qed.

Lemma products_add_healthy wishlist product w :
  healthy w ->
  Views.products_add wishlist product w =
  (Return tt,
   if existsb (Views.in_wishlist wishlist (pr_id product)) (wishlist_products (db w))
   then w
   else set_db (with_table (wishlist_products (db w) ++ [wish wishlist product (db w)])
                  (db w)) w).
Proof.
  intros Hw. unfold Views.products_add.
  rewrite (bind_return (exists_healthy
                          (Views.in_wishlist wishlist (pr_id product)) Hw)).
  cbn [table WishlistProduct_Model].
  destruct (existsb _ (wishlist_products (db w))); [reflexivity|].
  now rewrite (bind_return
                 (create_healthy {| wp_id := 0; wp_wishlist := wishlist_id wishlist;
                                    wp_product := pr_id product |} Hw)).
Qed.

(** The view once the product and the wishlist are fetched. *)
Lemma add_to_wishlist_tail wishlist product w :
  healthy w ->
  (present <- ORM.exists_ (Views.in_wishlist wishlist (pr_id product)) ;;
   (if present then
      add_message Info (pr_name product ++ " is already in your wishlist!")%string
    else
      Views.products_add wishlist product ;;
      add_message Success (pr_name product ++ " added to wishlist!")%string) ;;
   ret (Redirect "product_detail" (Some (pr_id product)))) w =
  (Return (Redirect "product_detail" (Some (pr_id product))),
   if existsb (Views.in_wishlist wishlist (pr_id product)) (wishlist_products (db w))
   then set_messages (messages w ++ [already_message product]) w
   else set_messages (messages w ++ [added_message product])
          (set_db (with_table
                     (wishlist_products (db w) ++ [wish wishlist product (db w)])
                     (db w)) w)).
Proof.
  intros Hw.
  rewrite (bind_return (exists_healthy
                          (Views.in_wishlist wishlist (pr_id product)) Hw)).
  cbn [table WishlistProduct_Model].
  destruct (existsb _ (wishlist_products (db w))) eqn:Hex; [reflexivity|].
  unfold bind at 1. rewrite (bind_return (products_add_healthy wishlist product w Hw)).
  now rewrite Hex.
Qed.

Lemma filter_pk_is {R} `{Model R} (rows : list R) k r :
  filter (fun x => pk x =? k) rows = [r] -> pk r = k.
Proof.
  intros E. assert (Hin : In r (filter (fun x => pk x =? k) rows))
    by (rewrite E; now left).
  apply filter_In in Hin as [_ Hk]. now apply Z.eqb_eq.
Qed.

(** Adding a product of the catalog to the wishlist of a user who has at
    most one wishlist. *)
Lemma add_to_wishlist_run user request product_id product w :
  healthy w -> req_user request = Some user ->
  filter (fun p => pr_id p =? product_id) (products (db w)) = [product] ->
  (count (Models.Wishlist_of_user user) (wishlists (db w)) <= 1)%nat ->
  exists wishlist created wa,
    ORM.get_or_create (Models.Wishlist_of_user user)
      (Models.new_Wishlist user) w = (Return (wishlist, created), wa) /\
    healthy wa /\ wishlist_products (db wa) = wishlist_products (db w) /\
    messages wa = messages w /\
    (created = false -> wa = w) /\
    respond (Views.add_to_wishlist request product_id) w =
    (Redirect "product_detail" (Some product_id),
     if existsb (Views.in_wishlist wishlist product_id) (wishlist_products (db w))
     then set_messages (messages w ++ [already_message product]) wa
     else set_messages (messages w ++ [added_message product])
            (set_db (with_table
                       (wishlist_products (db w) ++ [wish wishlist product (db wa)])
                       (db wa)) wa)).
Proof.
  intros Hw Hu Ep Hl.
  pose proof (filter_pk_is (products (db w)) product_id product Ep) as Hid.
  cbn [pk Product_Model] in Hid. subst product_id.
  destruct (ensure_wishlist user w Hw Hl) as (wl & created & wa & Ea & Hwa & _ & Sa & Wa).
  assert (Hrows : wishlist_products (db wa) = wishlist_products (db w))
    by now rewrite Wa.
  assert (Hmsg : messages wa = messages w) by now rewrite Wa.
  exists wl, created, wa. repeat split; try assumption.
  unfold respond, Views.add_to_wishlist.
  rewrite (login_required_user _ _ _ Hu). unfold Views.add_to_wishlist_view.
  pose proof (get_object_or_404_found
                (fun p => pr_id p =? pr_id product) Hw Ep) as G.
  rewrite (bind_return G), (bind_return Ea). cbv beta iota.
  rewrite (add_to_wishlist_tail wl product wa Hwa), Hrows, Hmsg.
  now destruct (existsb _ (wishlist_products (db w))).
Qed.

(** Adding to the wishlist leaves the relation without duplicates. *)
Lemma add_to_wishlist_nodup request product_id w :
  healthy w -> NoDup (wished (db w)) ->
  let w' := snd (respond (Views.add_to_wishlist request product_id) w) in
  healthy w' /\ NoDup (wished (db w')).
Proof.
  intros Hw Hnd. cbv zeta.
  destruct (req_user request) as [user|] eqn:Hu.
  2:{ unfold respond, Views.add_to_wishlist, Views.login_required.
      rewrite Hu. now split. }
  destruct (filter (fun p => pr_id p =? product_id) (products (db w)))
    as [|product [|? ?]] eqn:Ep.
  - pose proof (get_object_or_404_missing
                  (fun p => pr_id p =? product_id) Hw Ep) as G.
    unfold respond, Views.add_to_wishlist.
    rewrite (login_required_user _ _ _ Hu). unfold Views.add_to_wishlist_view.
    rewrite (bind_raise G). now split.
  - pose proof (filter_pk_is (products (db w)) product_id product Ep) as Hid.
    cbn [pk Product_Model] in Hid.
    destruct (filter (Models.Wishlist_of_user user) (wishlists (db w)))
      as [|wl [|wl' rest]] eqn:El.
    3:{ pose proof (get_object_or_404_found
                      (fun p => pr_id p =? product_id) Hw Ep) as G.
        pose proof (get_or_create_many (Models.Wishlist_of_user user)
                      (Models.new_Wishlist user) Hw El) as Gl.
        unfold respond, Views.add_to_wishlist.
        rewrite (login_required_user _ _ _ Hu). unfold Views.add_to_wishlist_view.
        rewrite (bind_return G), (bind_raise Gl). now split. }
    all: destruct (add_to_wishlist_run user request product_id product w Hw Hu Ep)
           as (wishlist & created & wa & _ & Hwa & Hrows & _ & _ & Hrun);
      [unfold count; rewrite El; cbn; lia|];
      rewrite Hrun; cbn [snd];
      destruct (existsb _ (wishlist_products (db w))) eqn:Hex;
      (split; [exact Hwa|]); unfold wished in *; cbn [db set_db set_messages];
      [now rewrite Hrows|];
      cbn [wishlist_products with_table WishlistProduct_Model];
      rewrite map_app; cbn [map wish inserted with_pk WishlistProduct_Model
                              wp_wishlist wp_product];
      (apply NoDup_app;
       [exact Hnd
       | constructor; [intros [] | constructor]
       | intros pair Hin [<- | []]; rewrite Hid in Hin;
         exact (not_wished (db w) wishlist product_id Hex Hin)]).
  - pose proof (get_object_or_404_many
                  (fun p => pr_id p =? product_id) Hw Ep) as G.
    unfold respond, Views.add_to_wishlist.
    rewrite (login_required_user _ _ _ Hu). unfold Views.add_to_wishlist_view.
    rewrite (bind_raise G). now split.
Qed.

Lemma add_all_nodup calls : forall w,
  healthy w -> NoDup (wished (db w)) -> NoDup (wished (db (add_all calls w))).
Proof.
  induction calls as [|[request product_id] rest IH]; intros w Hw Hnd; [exact Hnd|].
  destruct (add_to_wishlist_nodup request product_id w Hw Hnd) as [Hw' Hnd'].
  exact (IH _ Hw' Hnd').
Qed.

(** C6.  The wishlist of a user behaves as a set of products.  Adding a
    product that is in it reports "already in your wishlist" and changes
    no row; removing a product that is not in it reports "was not in your
    wishlist" and changes no row of the relation (the only write either
    request can make is the fetch-or-create of the wishlist itself); and
    no sequence of add requests, by any users for any products, puts a
    pair (wishlist, product) into the relation twice. *)
Theorem wishlist_idempotent (user : User) (request : Request) (w : World)
    (product_id : Z) (product : Product) :
  healthy w -> req_user request = Some user ->
  filter (fun p => pr_id p =? product_id) (products (db w)) = [product] ->
  (count (Models.Wishlist_of_user user) (wishlists (db w)) <= 1)%nat ->
  exists wishlist created wa,
    ORM.get_or_create (Models.Wishlist_of_user user)
      (Models.new_Wishlist user) w = (Return (wishlist, created), wa) /\
    wishlist_products (db wa) = wishlist_products (db w) /\
    (created = false -> wa = w) /\
    (existsb (Views.in_wishlist wishlist product_id) (wishlist_products (db w)) = true ->
     respond (Views.add_to_wishlist request product_id) w =
       (Redirect "product_detail" (Some product_id),
        set_messages (messages w ++ [already_message product]) wa)) /\
    (existsb (Views.in_wishlist wishlist product_id) (wishlist_products (db w)) = false ->
     respond (Views.remove_from_wishlist request product_id) w =
       (Redirect "wishlist" None,
        set_messages (messages w ++ [not_present_message]) wa)) /\
    (forall calls, NoDup (wished (db w)) -> NoDup (wished (db (add_all calls w)))).
Proof.
  intros Hw Hu Ep Hl.
  destruct (add_to_wishlist_run user request product_id product w Hw Hu Ep Hl)
    as (wl & created & wa & Ea & Hwa & Hrows & Hmsg & Sa & Hrun).
  exists wl, created, wa. split; [exact Ea|]. split; [exact Hrows|].
  split; [exact Sa|]. split; [|split].
  - intros Hex. now rewrite Hrun, Hex.
  - intros Hex. unfold respond, Views.remove_from_wishlist.
    rewrite (login_required_user _ _ _ Hu). unfold Views.remove_from_wishlist_view.
    pose proof (get_object_or_404_found
                  (fun p => pr_id p =? product_id) Hw Ep) as G.
    pose proof (exists_healthy (Views.in_wishlist wl product_id) Hwa) as Gx.
    cbn [table WishlistProduct_Model] in Gx. rewrite Hrows, Hex in Gx.
    match goal with |- context [try_except ?body _ _] =>
      assert (Body : body w =
                (Return tt, set_messages (messages w ++ [not_present_message]) wa))
    end.
    { rewrite (bind_return G), (bind_return Ea). cbv beta iota.
      rewrite (bind_return Gx). unfold add_message. now rewrite Hmsg. }
    now rewrite (bind_return (try_return Body)).
  - intros calls. now apply add_all_nodup.
Qed.

Lemma wishlist_idempotent_witness :
  respond (Views.add_to_wishlist (Sample.request POST Sample.alice []) 2)
    (start Sample.shop) =
  (Redirect "product_detail" (Some 2),
   set_messages [already_message Sample.coat] (start Sample.shop)) /\
  respond (Views.remove_from_wishlist (Sample.request POST Sample.alice []) 1)
    (start Sample.shop) =
  (Redirect "wishlist" None,
   set_messages [not_present_message] (start Sample.shop)).
Proof.
  split.
  - destruct (wishlist_idempotent Sample.alice (Sample.request POST Sample.alice [])
                (start Sample.shop) 2 Sample.coat)
      as (wishlist & created & wa & Ea & _ & _ & Hadd & _).
    + reflexivity.
    + reflexivity.
    + reflexivity.
    + cbn. lia.
    + injection Ea as <- <- <-. apply Hadd. reflexivity.
  - destruct (wishlist_idempotent Sample.alice (Sample.request POST Sample.alice [])
                (start Sample.shop) 1 Sample.shirt)
      as (wishlist & created & wa & Ea & _ & _ & _ & Hremove & _).
    + reflexivity.
    + reflexivity.
    + reflexivity.
    + cbn. lia.
    + injection Ea as <- <- <-. apply Hremove. reflexivity.
Defined.

(* ===================================================================== *)
(** * Provisioning when the storage fails *)
(* ===================================================================== *)

(** The combined receiver never lets an exception out: whatever the
    storage does, it returns normally, and when a fetch-or-create raised,
    the error has been printed. *)
Lemma combined_receiver_catches instance created w :
  exists w',
    Models.create_user_profile_and_related_objects instance created w
      = (Return tt, w').
Proof.
  unfold Models.create_user_profile_and_related_objects.
  destruct created; [|now exists w].
  unfold try_except.
  match goal with |- context [match ?body w with _ => _ end] =>
    destruct (body w) as [[[]|e] w1]
  end; eexists; reflexivity.
Qed.

(** The three receivers that stand alone have no handler: a storage error
    in their fetch-or-create leaves them as an exception. *)
Lemma separate_receiver_raises instance w rest :
  faults w = true :: rest ->
  Models.create_user_cart instance true w
    = (Raise OperationalError, set_faults rest w) /\
  Models.create_user_profile instance true w
    = (Raise OperationalError, set_faults rest w) /\
  Models.create_user_wishlist instance true w
    = (Raise OperationalError, set_faults rest w).
Proof.
  intros Hf.
  unfold Models.create_user_cart, Models.create_user_profile,
    Models.create_user_wishlist, ORM.get_or_create, ORM.get, ORM.select,
    try_except, bind, storage.
  rewrite Hf. repeat split.
Qed.

(** C9 at the failing input: the combined receiver has provisioned the
    user and printed its report; the storage error of the next receiver is
    caught by nobody in [catalog/models.py], so saving the user raises; the
    signup view reports that the account could not be created and logs
    nobody in, although the user row, the cart, the profile and the
    wishlist are in the store. *)
Theorem separate_receiver_error_escapes :
  let saved := Models.User_create Signup.carol Signup.failing in
  let outcome := respond (Views.signup Signup.form Signup.request) Signup.failing in
  let carol := {| user_id := 3; username := "carol" |} in
  fst saved = Raise OperationalError /\
  stdout (snd saved) =
    ["User carol created:"; "  - Cart: created"; "  - Profile: created";
     "  - Wishlist: created"] /\
  fst outcome = Render "catalog/signup.html" SignupContext /\
  messages (snd outcome) =
    [(Error, "Error creating account: OperationalError. Please try again.")] /\
  session (snd outcome) = None /\
  In carol (users (db (snd outcome))) /\
  provisioned carol (db (snd outcome)).
Proof.
  cbv zeta. repeat split; try reflexivity.
  vm_compute. right. right. left. reflexivity.
Qed.

(* ===================================================================== *)
(** * Instances of the theorems on the sample shop *)
(* ===================================================================== *)

Lemma provisioning_exactly_once_witness :
  exists w1 w2,
    Models.create_user_profile_and_related_objects Sample.bob true
      (start Sample.shop) = (Return tt, w1) /\
    provisioned Sample.bob (db w1) /\
    invoke [(CartOnly, true); (ProfileAndRelatedObjects, true);
            (WishlistOnly, false); (ProfileOnly, true)] Sample.bob w1
      = (Return tt, w2) /\
    db w2 = db w1.
Proof.
  apply provisioning_exactly_once.
  - reflexivity.
  - unfold one_to_one, count. cbn. lia.
Defined.



(* ===================================================================== *)
(** * The invariants of the table of cart items *)
(* ===================================================================== *)

Lemma requested_quantity_positive post : 0 < requested_quantity post.
Proof.
  unfold requested_quantity.
  destruct (Views.QueryDict_get post "quantity") as [s|]; [|lia].
  destruct (Py.int_of_string s) as [n|]; [|lia].
  destruct (Z.leb_spec n 0); lia.
Qed.

Lemma next_pk_fresh {R} `{Model R} (rows : list R) r :
  In r rows -> pk r < ORM.next_pk rows.
Proof.
  unfold ORM.next_pk. induction rows as [|x rows IH]; [contradiction|].
  cbn [map fold_right]. intros [-> | Hr]; [lia|]. specialize (IH Hr). lia.
Qed.

Lemma count_map {A} (p : A -> bool) (f : A -> A) (rows : list A) :
  (forall x, In x rows -> p (f x) = p x) ->
  count p (map f rows) = count p rows.
Proof.
  unfold count. induction rows as [|x rows IH]; intros Hf; [reflexivity|].
  cbn [map filter]. rewrite (Hf x (or_introl eq_refl)).
  assert (IH' := IH (fun y Hy => Hf y (or_intror Hy))).
  destruct (p x); cbn [List.length]; now rewrite IH'.
Qed.

Lemma count_filter {A} (p q : A -> bool) (rows : list A) :
  (count p (filter q rows) <= count p rows)%nat.
Proof.
  unfold count. induction rows as [|x rows IH]; [reflexivity|].
  cbn [filter]. destruct (q x), (p x) eqn:Hp; cbn [filter List.length];
    rewrite ?Hp; cbn [List.length]; lia.
Qed.

Lemma count_app {A} (p : A -> bool) (l l' : list A) :
  count p (l ++ l') = (count p l + count p l')%nat.
Proof. unfold count. now rewrite filter_app, length_app. Qed.

(** A row saved over itself with another quantity: the table keeps its
    keys and its (cart, product) pairs. *)
Lemma count_saved rows item qty cart product :
  keyed rows -> In item rows ->
  count (Views.CartItem_of cart product) (ORM.saved (set_quantity qty item) rows)
  = count (Views.CartItem_of cart product) rows.
Proof.
  intros Hk Hin.
  rewrite saved_present by exact (existsb_pk rows item Hin).
  apply count_map. intros x Hx. cbn [pk CartItem_Model set_quantity ci_id].
  destruct (Z.eqb_spec (ci_id x) (ci_id item)) as [E|]; [|reflexivity].
  now rewrite (keyed_inj rows x item Hk Hx Hin E).
Qed.

Section SweepInvariants.

Variable post : QueryDict.

Lemma sweep_stocked : forall items n rows cache,
  stocked rows -> stocked (fst (snd (sweep post n items rows cache))).
Proof.
  induction items as [|[item product] rest IH]; intros n rows cache Hs;
    [exact Hs|].
  cbn [sweep]. destruct (requested post item) as [qty|]; [|exact Hs].
  destruct (Z.ltb_spec 0 qty); apply IH.
  - intros i Hi. unfold ORM.saved in Hi. destruct (existsb _ rows).
    + apply in_map_iff in Hi as (x & E & Hx).
      destruct (pk x =? pk (set_quantity qty item)); subst i;
        [assumption | now apply Hs].
    + apply in_app_or in Hi as [Hi | [<- | []]]; [now apply Hs | assumption].
  - intros i Hi. apply in_deleted in Hi as [Hi _]. now apply Hs.
Qed.

Lemma sweep_paired cart product : forall items n rows cache,
  keyed rows -> NoDup (map loaded_id items) ->
  (forall i p, In (i, p) items -> In i rows) ->
  (count (Views.CartItem_of cart product)
     (fst (snd (sweep post n items rows cache)))
   <= count (Views.CartItem_of cart product) rows)%nat.
Proof.
  induction items as [|[item p0] rest IH]; intros n rows cache Hk Hnd Hin;
    [reflexivity|].
  cbn [sweep]. destruct (requested post item) as [qty|]; [|reflexivity].
  inversion Hnd as [|? ? Hx Hrest]; subst.
  assert (Hitem : In item rows) by (apply (Hin item p0); now left).
  assert (Hne : forall i p, In (i, p) rest -> pk i <> pk item).
  { intros i p Hip E. apply Hx. apply in_map_iff. now exists (i, p). }
  destruct (0 <? qty).
  - rewrite <- (count_saved rows item qty cart product Hk Hitem).
    apply IH; [now apply keyed_saved | exact Hrest |].
    intros i p Hip. apply in_saved_other; [apply (Hin i p); now right|].
    exact (Hne i p Hip).
  - etransitivity; [|apply (count_filter _ (fun x => negb (pk x =? pk item)))].
    apply IH; [now apply keyed_deleted | exact Hrest |].
    intros i p Hip. apply in_deleted_other; [apply (Hin i p); now right|].
    exact (Hne i p Hip).
Qed.

End SweepInvariants.

(** The bulk update keeps the invariants of the table. *)
Lemma cart_keeps_rows_ok user request w cart :
  healthy w -> result_cache w = None -> req_user request = Some user ->
  filter (Models.Cart_of_user user) (carts (db w)) = [cart] ->
  keyed (products (db w)) ->
  cart_rows_ok (cart_items (db w)) ->
  cart_rows_ok (cart_items (db (snd (respond (Views.cart request) w)))).
Proof.
  intros Hw Hc Hu Hcart Hproducts (Hk & Hs & Hp).
  rewrite (cart_rows_after user request w cart Hw Hc Hu Hcart).
  destruct (method request); [now repeat split|].
  repeat split.
  - now apply sweep_keyed.
  - now apply sweep_stocked.
  - intros c p. etransitivity; [|exact (Hp c p)].
    apply sweep_paired; [exact Hk | now apply items_of_keyed |].
    intros i q Hi. now apply in_items_of in Hi.
Qed.

(** Adding to the cart keeps the invariants of the table. *)
Lemma add_to_cart_keeps_rows_ok user request w product_id product :
  healthy w -> req_user request = Some user ->
  filter (fun p => pr_id p =? product_id) (products (db w)) = [product] ->
  (count (Models.Cart_of_user user) (carts (db w)) <= 1)%nat ->
  cart_rows_ok (cart_items (db w)) ->
  cart_rows_ok
    (cart_items (db (snd (respond (Views.add_to_cart request product_id) w)))).
Proof.
  intros Hw Hu Hproduct Hcart (Hk & Hs & Hp).
  destruct (add_to_cart_run user request w product_id product Hw Hu Hproduct
              Hcart (fun c => Hp c product)) as (_ & _ & cart & _ & Hrows).
  rewrite Hrows. clear Hrows.
  pose proof (requested_quantity_positive (req_POST request)) as Hq.
  destruct (filter (Views.CartItem_of cart product) (cart_items (db w)))
    as [|item rest] eqn:E.
  - repeat split.
    + unfold keyed. rewrite map_app. apply NoDup_app;
        [exact Hk | constructor; [intros [] | constructor] |].
      intros k Hin [<- | []]. apply in_map_iff in Hin as (x & Ex & Hx).
      pose proof (next_pk_fresh (cart_items (db w)) x Hx) as Hlt.
      unfold new_item, inserted in Ex. cbn in Ex. cbn in Hlt. lia.
    + intros i Hi. apply in_app_or in Hi as [Hi | [<- | []]];
        [now apply Hs | exact Hq].
    + intros c p. rewrite count_app.
      unfold count at 2. cbn [filter new_item inserted with_pk CartItem_Model].
      unfold Views.CartItem_of at 2. cbn [ci_cart ci_product].
      destruct (Z.eqb_spec (cart_id cart) (cart_id c)) as [Ec|];
        [|cbn; pose proof (Hp c p); lia].
      destruct (Z.eqb_spec (pr_id product) (pr_id p)) as [Epr|];
        [|cbn; pose proof (Hp c p); lia].
      cbn [andb List.length].
      assert (H0 : count (Views.CartItem_of c p) (cart_items (db w)) = 0%nat).
      { unfold count. erewrite filter_ext; [rewrite E; reflexivity|].
        intros x. unfold Views.CartItem_of. now rewrite Ec, Epr. }
      lia.
  - assert (Hin : In item (cart_items (db w))).
    { assert (H : In item (filter (Views.CartItem_of cart product) (cart_items (db w))))
        by (rewrite E; now left).
      now apply filter_In in H. }
    change (map (merged item (requested_quantity (req_POST request)))
              (cart_items (db w)))
      with (map (fun x => if pk x =? pk (set_quantity
                                           (ci_quantity item
                                            + requested_quantity (req_POST request))
                                           item)
                          then set_quantity
                                 (ci_quantity item
                                  + requested_quantity (req_POST request)) item
                          else x) (cart_items (db w))).
    rewrite <- saved_present by exact (existsb_pk (cart_items (db w)) item Hin).
    repeat split.
    + now apply keyed_saved.
    + intros i Hi. unfold ORM.saved in Hi. destruct (existsb _ (cart_items (db w))).
      * apply in_map_iff in Hi as (x & Ex & Hx).
        destruct (pk x =? _); subst i; [|now apply Hs].
        cbn. pose proof (Hs item Hin). lia.
      * apply in_app_or in Hi as [Hi | [<- | []]]; [now apply Hs|].
        cbn. pose proof (Hs item Hin). lia.
    + intros c p. rewrite count_saved by assumption. apply Hp.
Qed.

(** Removing an item leaves the table as it is or deletes one row. *)
Lemma remove_from_cart_rows user request w item_id :
  healthy w -> req_user request = Some user ->
  let rows' :=
    cart_items (db (snd (respond (Views.remove_from_cart request item_id) w))) in
  rows' = cart_items (db w) \/
  exists item, rows' = ORM.deleted item (cart_items (db w)).
Proof.
  intros Hw Hu. cbv zeta. unfold respond, Views.remove_from_cart.
  rewrite (login_required_user _ _ _ Hu). unfold Views.remove_from_cart_view.
  match goal with |- context [try_except ?body _ _] => set (lookup := body) end.
  assert (Hcases :
            (exists e, lookup w = (Raise e, w)) \/
            exists item p,
              lookup w =
                (Return tt,
                 set_messages
                   (messages w ++ [(Success, (pr_name p ++ " removed from cart.")%string)])
                   (set_db (with_table (ORM.deleted item (cart_items (db w))) (db w)) w))).
  { unfold lookup.
    rewrite (bind_return (m := get_db) (w := w) (a := db w) (w' := w) eq_refl).
    destruct (filter (Views.owned_item (db w) user item_id) (cart_items (db w)))
      as [|item [|? ?]] eqn:E.
    - pose proof (get_object_or_404_missing
                    (Views.owned_item (db w) user item_id) Hw E) as G.
      left. eexists. exact (bind_raise G).
    - pose proof (get_object_or_404_found
                    (Views.owned_item (db w) user item_id) Hw E) as G.
      destruct (filter (fun p => pr_id p =? ci_product item) (products (db w)))
        as [|p [|? ?]] eqn:Ep.
      + pose proof (get_none (fun p => pr_id p =? ci_product item) Hw Ep) as Gp.
        left. eexists. rewrite (bind_return G). exact (bind_raise Gp).
      + pose proof (get_one (fun p => pr_id p =? ci_product item) Hw Ep) as Gp.
        right. exists item, p. rewrite (bind_return G), (bind_return Gp).
        now rewrite (bind_return (delete_healthy item Hw)).
      + pose proof (get_many (fun p => pr_id p =? ci_product item) Hw Ep) as Gp.
        left. eexists. rewrite (bind_return G). exact (bind_raise Gp).
    - pose proof (get_object_or_404_many
                    (Views.owned_item (db w) user item_id) Hw E) as G.
      left. eexists. exact (bind_raise G). }
  destruct Hcases as [(e & Body) | (item & p & Body)].
  - left. now rewrite (bind_return (try_caught Body eq_refl)).
  - right. exists item. now rewrite (bind_return (try_return Body)).
Qed.

Lemma remove_from_cart_keeps_rows_ok user request w item_id :
  healthy w -> req_user request = Some user ->
  cart_rows_ok (cart_items (db w)) ->
  cart_rows_ok
    (cart_items (db (snd (respond (Views.remove_from_cart request item_id) w)))).
Proof.
  intros Hw Hu (Hk & Hs & Hp).
  destruct (remove_from_cart_rows user request w item_id Hw Hu)
    as [-> | (item & ->)]; [now repeat split|].
  repeat split.
  - now apply keyed_deleted.
  - intros i Hi. apply in_deleted in Hi as [Hi _]. now apply Hs.
  - intros c p. etransitivity; [apply count_filter | apply Hp].
Qed.

(** An empty table satisfies the invariants. *)
Lemma empty_rows_ok : cart_rows_ok (cart_items empty_db).
Proof.
  repeat split; [constructor | intros i [] | intros c p; apply Nat.le_0_l].
Qed.

(* ===================================================================== *)
(** * Repair on first access *)
(* ===================================================================== *)

(** X26.  The views of the cart and of the wishlist, and the profile
    page, start with a fetch-or-create: when the storage works, a row
    that the provisioning left out is there after the first of these
    requests. *)
Lemma first_access_repairs user request w :
  healthy w -> result_cache w = None -> req_user request = Some user ->
  method request = GET -> one_to_one user (db w) ->
  count (Models.Cart_of_user user)
    (carts (db (snd (respond (Views.cart request) w)))) = 1%nat /\
  count (Models.Wishlist_of_user user)
    (wishlists (db (snd (respond (Views.wishlist request) w)))) = 1%nat /\
  forall form,
    count (Models.UserProfile_of_user user)
      (profiles (db (snd (respond (Views.profile form request) w)))) = 1%nat.
Proof.
  intros Hw Hc Hu Hm (H1 & H2 & H3). repeat split.
  - destruct (ensure_cart user w Hw H1) as (cart & cc & wa & Ea & Hwa & Fa & _ & Wa).
    unfold respond, Views.cart. rewrite (login_required_user _ _ _ Hu).
    unfold Views.cart_view. rewrite (bind_return Ea), Hm.
    unfold bind at 1, ret at 1.
    assert (Hca : result_cache wa = None) by now rewrite Wa.
    rewrite (bind_return (iterate_first cart Hwa Hca)).
    cbn. now apply one_count with (r := cart).
  - destruct (ensure_wishlist user w Hw H3) as (l & lc & wa & Ea & Hwa & Fa & _).
    unfold respond, Views.wishlist. rewrite (login_required_user _ _ _ Hu).
    unfold Views.wishlist_view. rewrite (bind_return Ea).
    cbn. now apply one_count with (r := l).
  - intros form.
    destruct (ensure_profile user w Hw H2) as (p & pc & wa & Ea & Hwa & Fa & _).
    unfold respond, Views.profile. rewrite (login_required_user _ _ _ Hu).
    unfold Views.profile_view. rewrite (bind_return Ea), Hm.
    cbn. now apply one_count with (r := p).
Qed.
(* ===================================================================== *)
(** * What a request leaves alone *)
(* ===================================================================== *)

#[export] Instance same_PreOrder {X} (f : World -> X) : PreOrder (same f).
Proof.
  split; [intros w; reflexivity|].
  intros w1 w2 w3 H1 H2. unfold same in *. congruence.
Qed.

#[export] Instance unharmed_PreOrder : PreOrder unharmed.
Proof. split; [intros w H; exact H | intros w1 w2 w3 H1 H2 H; exact (H2 (H1 H))]. Qed.

Section Frame.

Context (R : World -> World -> Prop) `{PreOrder World R}.

Lemma respects_ret {A} (a : A) : respects R (ret a).
Proof. intros w. reflexivity. Qed.

Lemma respects_raise {A} e : respects R (raise (A := A) e).
Proof. intros w. reflexivity. Qed.

Lemma respects_bind {A B} (m : M A) (k : A -> M B) :
  respects R m -> (forall a, respects R (k a)) -> respects R (bind m k).
Proof.
  intros Hm Hk w. unfold bind. specialize (Hm w).
  destruct (m w) as [[a|e] w1]; cbn [snd] in *; [|exact Hm].
  etransitivity; [exact Hm | apply Hk].
Qed.

Lemma respects_try {A} (body : M A) c h :
  respects R body -> (forall e, respects R (h e)) ->
  respects R (try_except body c h).
Proof.
  intros Hm Hh w. unfold try_except. specialize (Hm w).
  destruct (body w) as [[a|e] w1]; cbn [snd] in *; [exact Hm|].
  destruct (c e); [|exact Hm].
  etransitivity; [exact Hm | apply Hh].
Qed.

Lemma respects_get_db : respects R get_db.
Proof. intros w. reflexivity. Qed.

(** A round trip to the storage uses up one pending fault. *)
Hypothesis R_storage : forall w b fs, faults w = b :: fs -> R w (set_faults fs w).

Lemma respects_storage : respects R storage.
Proof.
  intros w. unfold storage. destruct (faults w) as [|[|] fs] eqn:Hf; cbn [snd];
    [reflexivity | now apply (R_storage w true) | now apply (R_storage w false)].
Qed.

Section Table.

Context {T : Type} `{Model T}.

Lemma respects_select (p : T -> bool) : respects R (ORM.select p).
Proof.
  unfold ORM.select. apply respects_bind; [apply respects_storage|]. intros _.
  apply respects_bind; [apply respects_get_db|]. intros d. apply respects_ret.
Qed.

Lemma respects_exists (p : T -> bool) : respects R (ORM.exists_ p).
Proof.
  unfold ORM.exists_. apply respects_bind; [apply respects_select|].
  intros rows. apply respects_ret.
Qed.

Lemma respects_get (p : T -> bool) : respects R (ORM.get p).
Proof.
  unfold ORM.get. apply respects_bind; [apply respects_select|].
  intros [|r [|r' rows]];
    [apply respects_raise | apply respects_ret | apply respects_raise].
Qed.

Lemma respects_get_object_or_404 (p : T -> bool) :
  respects R (ORM.get_object_or_404 p).
Proof.
  unfold ORM.get_object_or_404. apply respects_try; [apply respects_get|].
  intros e. apply respects_raise.
Qed.

Hypothesis R_blind : blind_to T R.

(** A write to the table, after the round trip to the storage. *)
Lemma respects_write {A} (rows : DB -> list T) (a : DB -> A) :
  respects R
    (storage ;; d <- get_db ;; put_db (with_table (rows d) d) ;; ret (a d)).
Proof.
  intros w. unfold bind, get_db, put_db, ret.
  pose proof (respects_storage w) as Hs.
  destruct (storage w) as [[[]|e] w1]; cbn [snd] in *; [|exact Hs].
  etransitivity; [exact Hs | apply R_blind].
Qed.

Lemma respects_create (fields : T) : respects R (ORM.create fields).
Proof.
  exact (respects_write
           (fun d => table d ++ [with_pk (ORM.next_pk (table d)) fields])
           (fun d => with_pk (ORM.next_pk (table d)) fields)).
Qed.

Lemma respects_save (r : T) : respects R (ORM.save r).
Proof.
  intros w.
  pose proof (respects_write (fun d => ORM.saved r (table d)) (fun _ => tt) w) as K.
  unfold ORM.save. unfold bind, ret in *.
  destruct (storage w) as [[[]|e] w1]; cbn [snd] in *; exact K.
Qed.

Lemma respects_delete (r : T) : respects R (ORM.delete r).
Proof.
  intros w.
  pose proof (respects_write (fun d => ORM.deleted r (table d)) (fun _ => tt) w) as K.
  unfold ORM.delete. unfold bind, ret in *.
  destruct (storage w) as [[[]|e] w1]; cbn [snd] in *; exact K.
Qed.

Lemma respects_get_or_create (p : T -> bool) (fields : T) :
  respects R (ORM.get_or_create p fields).
Proof.
  unfold ORM.get_or_create. apply respects_try.
  - apply respects_bind; [apply respects_get|]. intros r. apply respects_ret.
  - intros _. apply respects_bind; [apply respects_create|]. intros r.
    apply respects_ret.
Qed.

End Table.

Lemma respects_products_remove wishlist product :
  blind_to WishlistProduct R ->
  respects R (Views.products_remove wishlist product).
Proof.
  intros Hb w. unfold Views.products_remove, bind, get_db, put_db.
  pose proof (respects_storage w) as Hs.
  destruct (storage w) as [[[]|e] w1]; cbn [snd] in *; [|exact Hs].
  etransitivity; [exact Hs | apply (Hb _ w1)].
Qed.

Lemma respects_iterate cart :
  (forall c w, R w (set_result_cache c w)) -> respects R (Views.iterate cart).
Proof.
  intros Hc w. unfold Views.iterate.
  destruct (result_cache w); [reflexivity|].
  unfold bind, get_db. pose proof (respects_storage w) as Hs.
  destruct (storage w) as [[[]|e] w1]; cbn [snd] in *; [|exact Hs].
  etransitivity; [exact Hs | apply Hc].
Qed.

Lemma respects_respond (view : M Response) :
  respects R view -> forall w, R w (snd (respond view w)).
Proof.
  intros K w. unfold respond. specialize (K w).
  destruct (view w) as [[r|[]] w1]; exact K.
Qed.

Lemma respects_login_required view request :
  (forall user, respects R (view user request)) ->
  respects R (Views.login_required view request).
Proof.
  intros K. unfold Views.login_required.
  destruct (req_user request); [apply K | apply respects_ret].
Qed.

End Frame.

(** The side conditions: what a primitive step does to the relation. *)
Ltac frame_side :=
  first
    [ exact _
    | unfold blind_to, same, unharmed, healthy in *; intros;
      first [reflexivity | assumption | congruence | solve [eauto]] ].

(** One step of a proof that a view respects a relation: through the
    monad, the ORM calls and the case distinctions of the view. *)
Ltac frame_step :=
  cbv beta; unfold keeps;
  match goal with
  | |- respects _ (ret _) => apply respects_ret; frame_side
  | |- respects _ (raise _) => apply respects_raise; frame_side
  | |- respects _ get_db => apply respects_get_db; frame_side
  | |- respects _ storage => apply respects_storage; frame_side
  | |- respects _ (ORM.select _) => apply respects_select; frame_side
  | |- respects _ (ORM.exists_ _) => apply respects_exists; frame_side
  | |- respects _ (ORM.get _) => apply respects_get; frame_side
  | |- respects _ (ORM.get_object_or_404 _) =>
      apply respects_get_object_or_404; frame_side
  | |- respects _ (ORM.create _) => apply respects_create; frame_side
  | |- respects _ (ORM.save _) => apply respects_save; frame_side
  | |- respects _ (ORM.delete _) => apply respects_delete; frame_side
  | |- respects _ (ORM.get_or_create _ _) =>
      apply respects_get_or_create; frame_side
  | |- respects _ (Views.products_remove _ _) =>
      apply respects_products_remove; frame_side
  | |- respects _ (Views.iterate _) => apply respects_iterate; frame_side
  | |- respects _ (add_message _ _) => intros ?; cbn [snd add_message]; frame_side
  | |- respects _ (print _) => intros ?; cbn [snd print]; frame_side
  | |- respects _ (login _) => intros ?; cbn [snd login]; frame_side
  | |- respects _ logout => intros ?; cbn [snd logout]; frame_side
  | |- respects _ (Views.assign _ _) => intros ?; cbn [snd Views.assign]; frame_side
  | |- respects _ (Views.login_required _ _) =>
      apply respects_login_required; try exact _; intros ?
  | |- respects _ (bind _ _) => apply respects_bind; try exact _; [|intros ?]
  | |- respects _ (try_except _ _ _) =>
      apply respects_try; try exact _; [|intros ?]
  | |- respects _ (match ?x with _ => _ end) => destruct x
  end.

Ltac frame := repeat frame_step.

Section Loops.

Context (R : World -> World -> Prop) `{PreOrder World R}.

Hypothesis R_storage : forall w b fs, faults w = b :: fs -> R w (set_faults fs w).
Hypothesis R_cart_items : blind_to CartItem R.
Hypothesis R_cache : forall c w, R w (set_result_cache c w).
Hypothesis R_messages : forall m w, R w (set_messages m w).
Hypothesis R_stdout : forall o w, R w (set_stdout o w).

Lemma respects_update_quantities post : forall items n,
  respects R (Views.update_quantities post n items).
Proof.
  induction items as [|[item product] rest IH]; intros n;
    cbn [Views.update_quantities].
  - now apply respects_ret.
  - unfold Views.int, Views.QueryDict_get_default.
    apply respects_bind; [exact _ | frame |]. intros qty.
    apply respects_bind; [exact _ | | intros _; apply IH].
    destruct (0 <? qty).
    + apply respects_bind; [exact _ | intros w; apply R_cache |]. intros _.
      now apply respects_save.
    + now apply respects_delete.
Qed.

Lemma respects_report_errors field : forall errors,
  respects R (Views.report_errors field errors).
Proof.
  induction errors as [|e rest IH]; cbn [Views.report_errors].
  - now apply respects_ret.
  - apply respects_bind; [exact _ | | intros _; exact IH]. intros w.
    apply R_messages.
Qed.

Lemma respects_report_form_errors : forall items,
  respects R (Views.report_form_errors items).
Proof.
  induction items as [|[field errors] rest IH]; cbn [Views.report_form_errors].
  - now apply respects_ret.
  - apply respects_bind;
      [exact _ | apply respects_report_errors | intros _; exact IH].
Qed.

Lemma respects_post_save instance created :
  blind_to Cart R -> blind_to UserProfile R -> blind_to Wishlist R ->
  respects R (Models.post_save instance created).
Proof.
  intros Hc Hp Hl.
  assert (Kc : respects R (ORM.get_or_create (Models.Cart_of_user instance)
                             (Models.new_Cart instance)))
    by now apply respects_get_or_create.
  assert (Kp : respects R (ORM.get_or_create (Models.UserProfile_of_user instance)
                             (Models.new_UserProfile instance)))
    by now apply respects_get_or_create.
  assert (Kl : respects R (ORM.get_or_create (Models.Wishlist_of_user instance)
                             (Models.new_Wishlist instance)))
    by now apply respects_get_or_create.
  assert (Kprint : forall line, respects R (print line))
    by (intros line w; apply R_stdout).
  unfold Models.post_save, Models.create_user_profile_and_related_objects,
    Models.create_user_cart, Models.create_user_profile,
    Models.create_user_wishlist.
  destruct created; repeat first
    [ exact Kc | exact Kp | exact Kl | apply Kprint | now apply respects_ret
    | apply respects_bind; [exact _ | | intros ?]
    | apply respects_try; [exact _ | | intros ?]
    | match goal with |- respects _ (match ?x with _ => _ end) => destruct x end ].
Qed.

End Loops.

(** Every step of a view of the shop respects the relation: the views
    write to no table but those of carts, profiles, wishlists, wishlist
    products and cart items. *)
Ltac frame_view :=
  repeat first
    [ match goal with
      | K : forall user, respects _ (ORM.get_or_create (Models.Cart_of_user user) _)
        |- respects _ (ORM.get_or_create (Models.Cart_of_user _) _) => apply K
      end
    | apply respects_update_quantities; frame_side
    | apply respects_report_form_errors; frame_side
    | apply respects_post_save; frame_side
    | frame_step ].

Lemma shopper_views_respect (R : World -> World -> Prop) `{PreOrder World R}
    (UserProfileForm : QueryDict -> UserProfile -> option UserProfile)
    (request : Request) (id : Z) :
  (forall w b fs, faults w = b :: fs -> R w (set_faults fs w)) ->
  (forall c w, R w (set_result_cache c w)) ->
  (forall m w, R w (set_messages m w)) ->
  (forall s w, R w (set_session s w)) ->
  (forall user, respects R (ORM.get_or_create (Models.Cart_of_user user)
                              (Models.new_Cart user))) ->
  blind_to UserProfile R -> blind_to Wishlist R ->
  blind_to WishlistProduct R -> blind_to CartItem R ->
  respects R (Views.home request) /\
  respects R (Views.product_list request) /\
  respects R (Views.user_logout request) /\
  respects R (Views.profile UserProfileForm request) /\
  respects R (Views.add_to_cart request id) /\
  respects R (Views.cart request) /\
  respects R (Views.remove_from_cart request id) /\
  respects R (Views.wishlist request) /\
  respects R (Views.add_to_wishlist request id) /\
  respects R (Views.remove_from_wishlist request id).
Proof.
  intros Hf Hc Hm Hs Bc Bp Bl Bw Bi.
  unfold Views.home, Views.product_list, Views.if_given, Views.float,
    Views.DecimalField_lookup, Views.user_logout, Views.user_logout_view,
    Views.profile, Views.profile_view, Views.add_to_cart, Views.add_to_cart_view,
    Views.int, Views.QueryDict_get_default, Views.cart, Views.cart_view,
    Views.remove_from_cart, Views.remove_from_cart_view, Views.wishlist,
    Views.wishlist_view, Views.add_to_wishlist, Views.add_to_wishlist_view,
    Views.products_add, Views.remove_from_wishlist,
    Views.remove_from_wishlist_view.
  repeat match goal with |- _ /\ _ => split end; frame_view.
Qed.



(** X2.  Browsing writes nothing.  The landing page and the catalog query
    leave the store, the message queue, the session and the standard
    output as they are, in every world: whether the storage works or
    fails, and whether the view returns or raises. *)
Theorem browsing_writes_nothing (request : Request) (w : World) :
  visible (snd (Views.home request w)) = visible w /\
  visible (snd (Views.product_list request w)) = visible w /\
  visible (snd (respond (Views.home request) w)) = visible w /\
  visible (snd (respond (Views.product_list request) w)) = visible w.
Proof.
  assert (Khome : keeps visible (Views.home request))
    by (unfold Views.home; frame).
  assert (Klist : keeps visible (Views.product_list request)).
  { unfold Views.product_list, Views.if_given, Views.float,
      Views.DecimalField_lookup.
    frame. }
  repeat split; [apply Khome | apply Klist | |];
    now apply (respects_respond (same visible)).
Qed.

(** X3.  No view writes to the catalog or to the ordered items, and only
    the registration writes to the accounts.  In every world (storage
    faults included), and whether the view returns or raises: the views
    of a shopper leave the tables of users, products and ordered items as
    they are, and the registration leaves the products, the ordered
    items, the cart items and the wishlist relation as they are. *)
Theorem views_leave_catalog_and_orders
    (UserCreationForm : DB -> QueryDict -> User + list (string * list string))
    (UserProfileForm : QueryDict -> UserProfile -> option UserProfile)
    (request : Request) (id : Z) (w : World) :
  let after (view : M Response) := snd (respond view w) in
  protected_tables (after (Views.home request)) = protected_tables w /\
  protected_tables (after (Views.product_list request)) = protected_tables w /\
  protected_tables (after (Views.user_logout request)) = protected_tables w /\
  protected_tables (after (Views.profile UserProfileForm request)) = protected_tables w /\
  protected_tables (after (Views.add_to_cart request id)) = protected_tables w /\
  protected_tables (after (Views.cart request)) = protected_tables w /\
  protected_tables (after (Views.remove_from_cart request id)) = protected_tables w /\
  protected_tables (after (Views.wishlist request)) = protected_tables w /\
  protected_tables (after (Views.add_to_wishlist request id)) = protected_tables w /\
  protected_tables (after (Views.remove_from_wishlist request id)) = protected_tables w /\
  shop_tables (after (Views.signup UserCreationForm request)) = shop_tables w.
Proof.
  cbv zeta.
  destruct (shopper_views_respect (same protected_tables) UserProfileForm request id)
    as (K1 & K2 & K3 & K4 & K5 & K6 & K7 & K8 & K9 & K10); try frame_side;
    [intros user; apply respects_get_or_create; frame_side|].
  repeat match goal with |- _ /\ _ => split end;
    try (now apply (respects_respond (same protected_tables))).
  apply (respects_respond (same shop_tables)).
  unfold Views.signup, Models.User_create. frame_view.
Qed.

(* ===================================================================== *)
(** * The landing page *)
(* ===================================================================== *)

(** X4.  The landing page shows the first eight products of the catalog,
    in the order the catalog holds them: never more than eight, none that
    is not in the catalog, and the whole catalog when it has at most
    eight products. *)
Theorem home_shows_first_eight (request : Request) (w : World) :
  healthy w ->
  exists rows,
    respond (Views.home request) w =
      (Render "catalog/home.html" (ProductListContext rows), w) /\
    rows = firstn 8 (products (db w)) /\
    (List.length rows <= 8)%nat /\
    (forall p, In p rows -> In p (products (db w))) /\
    ((List.length (products (db w)) <= 8)%nat -> rows = products (db w)).
Proof.
  intros Hw. exists (firstn 8 (products (db w))). split; [|split; [reflexivity|]].
  - unfold respond, Views.home.
    rewrite (bind_return (select_healthy Views.all Hw)).
    cbn [table Product_Model]. now rewrite filter_true.
  - split; [apply firstn_le_length|]. split.
    + intros p Hp. rewrite <- (firstn_skipn 8 (products (db w))).
      apply in_or_app. now left.
    + apply firstn_all2.
Qed.

Lemma home_shows_first_eight_witness :
  respond (Views.home (Sample.request GET Sample.alice [])) (start Sample.shop) =
    (Render "catalog/home.html" (ProductListContext [Sample.shirt; Sample.coat]),
     start Sample.shop).
Proof.
  destruct (home_shows_first_eight (Sample.request GET Sample.alice [])
              (start Sample.shop) eq_refl) as (rows & Hrun & -> & _).
  exact Hrun.
Defined.

(* ===================================================================== *)
(** * Registration *)
(* ===================================================================== *)

Lemma set_messages_nil w : set_messages (messages w ++ []) w = w.
Proof. destruct w. unfold set_messages. cbn. now rewrite app_nil_r. Qed.

Lemma set_messages_app w l l' :
  set_messages (messages (set_messages (messages w ++ l) w) ++ l')
    (set_messages (messages w ++ l) w)
  = set_messages (messages w ++ l ++ l') w.
Proof. unfold set_messages. cbn. now rewrite app_assoc. Qed.

Lemma report_errors_run field : forall errors w,
  Views.report_errors field errors w =
    (Return tt,
     set_messages
       (messages w ++
        map (fun error => (Error, (Py.title field ++ ": " ++ error)%string)) errors)
       w).
Proof.
  induction errors as [|e rest IH]; intros w; cbn [Views.report_errors map].
  - unfold ret. now rewrite set_messages_nil.
  - unfold bind, add_message. rewrite IH.
    now rewrite (set_messages_app w [_]).
Qed.

Lemma report_form_errors_run : forall items w,
  Views.report_form_errors items w =
    (Return tt, set_messages (messages w ++ form_messages items) w).
Proof.
  induction items as [|[field errors] rest IH]; intros w;
    cbn [Views.report_form_errors form_messages flat_map fst snd].
  - unfold ret. now rewrite set_messages_nil.
  - rewrite (bind_return (report_errors_run field errors w)), IH.
    now rewrite set_messages_app.
Qed.

(** X5.  A registration form with errors creates no account: the page is
    rendered again, one error message is queued for every error of every
    field, in the order of the form, each under the name of its field in
    title case, and nothing else in the world changes.  A plain visit of
    the page changes nothing at all. *)
Theorem signup_reports_form_errors
    (UserCreationForm : DB -> QueryDict -> User + list (string * list string))
    (request : Request) (w : World) (errors : list (string * list string)) :
  UserCreationForm (db w) (req_POST request) = inr errors ->
  Views.signup UserCreationForm request w =
    (Return (Render "catalog/signup.html" SignupContext),
     match method request with
     | POST => set_messages (messages w ++ form_messages errors) w
     | GET => w
     end).
Proof.
  intros Hform. unfold Views.signup. destruct (method request); [reflexivity|].
  unfold bind at 1, get_db at 1. rewrite Hform.
  now rewrite (bind_return (report_form_errors_run errors w)).
Qed.

Lemma signup_reports_form_errors_witness :
  Views.signup
    (fun _ _ => inr [("username", ["taken"]); ("password2", ["too short"; "too common"])])
    Signup.request (start Sample.shop) =
  (Return (Render "catalog/signup.html" SignupContext),
   set_messages
     [(Error, "Username: taken"); (Error, "Password2: too short");
      (Error, "Password2: too common")] (start Sample.shop)).
Proof.
  exact (signup_reports_form_errors
           (fun _ _ => inr [("username", ["taken"]);
                            ("password2", ["too short"; "too common"])])
           Signup.request (start Sample.shop)
           [("username", ["taken"]); ("password2", ["too short"; "too common"])]
           eq_refl).
Defined.

Lemma filter_none {A} (p : A -> bool) (l : list A) :
  (forall x, In x l -> p x = false) -> filter p l = [].
Proof.
  induction l as [|x l IH]; intros Hp; [reflexivity|]. cbn [filter].
  rewrite (Hp x (or_introl eq_refl)). apply IH. intros y Hy. apply Hp. now right.
Qed.

(** The key of a new user is in use nowhere: no cart, profile or wishlist
    of the store belongs to it. *)
Lemma fresh_user_owns_nothing d fields :
  owned_by_users d ->
  let user := inserted fields d in
  ~ In (user_id user) (map user_id (users d)) /\
  filter (Models.Cart_of_user user) (carts d) = [] /\
  filter (Models.UserProfile_of_user user) (profiles d) = [] /\
  filter (Models.Wishlist_of_user user) (wishlists d) = [].
Proof.
  intros (Hc & Hp & Hl) user.
  assert (Hfresh : forall k, In k (map user_id (users d)) -> k <> user_id user).
  { intros k Hk E. apply in_map_iff in Hk as (u & <- & Hu).
    pose proof (next_pk_fresh (users d) u Hu) as Hlt.
    unfold user, inserted in E. cbn [with_pk User_Model user_id table pk] in E, Hlt.
    lia. }
  split; [intros Hin; now apply (Hfresh _ Hin)|].
  repeat split; apply filter_none; intros x Hx.
  - apply Z.eqb_neq, Hfresh, Hc, Hx.
  - apply Z.eqb_neq, Hfresh, Hp, Hx.
  - apply Z.eqb_neq, Hfresh, Hl, Hx.
Qed.

(** The combined receiver for a user who has none of the three rows. *)
Lemma combined_receiver_fresh user w :
  healthy w ->
  filter (Models.Cart_of_user user) (carts (db w)) = [] ->
  filter (Models.UserProfile_of_user user) (profiles (db w)) = [] ->
  filter (Models.Wishlist_of_user user) (wishlists (db w)) = [] ->
  exists w',
    Models.create_user_profile_and_related_objects user true w = (Return tt, w') /\
    healthy w' /\
    carts (db w') = carts (db w) ++ [inserted (Models.new_Cart user) (db w)] /\
    profiles (db w') =
      profiles (db w) ++ [inserted (Models.new_UserProfile user) (db w)] /\
    wishlists (db w') =
      wishlists (db w) ++ [inserted (Models.new_Wishlist user) (db w)] /\
    users (db w') = users (db w) /\
    shop_tables w' = shop_tables w /\
    conversation w' = conversation w /\
    stdout w' = stdout w ++ provisioning_report user.
Proof.
  intros Hw Ec Ep El.
  pose proof (get_or_create_missing (Models.Cart_of_user user)
                (Models.new_Cart user) Hw Ec) as G1.
  match type of G1 with _ = (_, ?w1) =>
    pose proof (get_or_create_missing (Models.UserProfile_of_user user)
                  (Models.new_UserProfile user) (w := w1) Hw Ep) as G2
  end.
  match type of G2 with _ = (_, ?w2) =>
    pose proof (get_or_create_missing (Models.Wishlist_of_user user)
                  (Models.new_Wishlist user) (w := w2) Hw El) as G3
  end.
  eexists. split.
  - unfold Models.create_user_profile_and_related_objects.
    apply try_return.
    rewrite (bind_return G1), (bind_return G2), (bind_return G3).
    reflexivity.
  - cbn. repeat split; try assumption.
    unfold provisioning_report. now rewrite <- !app_assoc.
Qed.

(** For a user who has the three rows, the receivers that stand alone
    find them and leave the world as it is. *)
Lemma separate_receivers_idle user w :
  healthy w -> provisioned user (db w) ->
  Models.create_user_cart user true w = (Return tt, w) /\
  Models.create_user_profile user true w = (Return tt, w) /\
  Models.create_user_wishlist user true w = (Return tt, w).
Proof.
  intros Hw (C1 & C2 & C3).
  destruct (count_one _ _ C1) as (c0 & E1).
  destruct (count_one _ _ C2) as (p0 & E2).
  destruct (count_one _ _ C3) as (l0 & E3).
  pose proof (get_or_create_found (Models.Cart_of_user user)
                (Models.new_Cart user) Hw E1) as G1.
  pose proof (get_or_create_found (Models.UserProfile_of_user user)
                (Models.new_UserProfile user) Hw E2) as G2.
  pose proof (get_or_create_found (Models.Wishlist_of_user user)
                (Models.new_Wishlist user) Hw E3) as G3.
  unfold Models.create_user_cart, Models.create_user_profile,
    Models.create_user_wishlist.
  now rewrite (bind_return G1), (bind_return G2), (bind_return G3).
Qed.

(** Saving a new user on a store whose storage works. *)
Lemma User_create_healthy fields w :
  healthy w -> owned_by_users (db w) ->
  let user := inserted fields (db w) in
  exists w',
    Models.User_create fields w = (Return user, w') /\
    healthy w' /\
    users (db w') = users (db w) ++ [user] /\
    carts (db w') = carts (db w) ++ [inserted (Models.new_Cart user) (db w)] /\
    profiles (db w') =
      profiles (db w) ++ [inserted (Models.new_UserProfile user) (db w)] /\
    wishlists (db w') =
      wishlists (db w) ++ [inserted (Models.new_Wishlist user) (db w)] /\
    provisioned user (db w') /\
    shop_tables w' = shop_tables w /\
    conversation w' = conversation w /\
    stdout w' = stdout w ++ provisioning_report user.
Proof.
  intros Hw Hown user.
  destruct (fresh_user_owns_nothing (db w) fields Hown) as (_ & Ec & Ep & El).
  fold user in Ec, Ep, El.
  pose proof (create_healthy fields Hw) as G0. fold user in G0.
  match type of G0 with _ = (_, ?w0) =>
    destruct (combined_receiver_fresh user w0 Hw Ec Ep El)
      as (w1 & G1 & Hw1 & Kc0 & Kp0 & Kl0 & Ku0 & Ks0 & Kv0 & Ko0)
  end.
  assert (Kc : carts (db w1) =
               carts (db w) ++ [inserted (Models.new_Cart user) (db w)])
    by exact Kc0.
  assert (Kp : profiles (db w1) =
               profiles (db w) ++ [inserted (Models.new_UserProfile user) (db w)])
    by exact Kp0.
  assert (Kl : wishlists (db w1) =
               wishlists (db w) ++ [inserted (Models.new_Wishlist user) (db w)])
    by exact Kl0.
  assert (Ku : users (db w1) = users (db w) ++ [user]) by exact Ku0.
  assert (Ks : shop_tables w1 = shop_tables w) by exact Ks0.
  assert (Kv : conversation w1 = conversation w) by exact Kv0.
  assert (Ko : stdout w1 = stdout w ++ provisioning_report user) by exact Ko0.
  clear Kc0 Kp0 Kl0 Ku0 Ks0 Kv0 Ko0.
  assert (Hprov : provisioned user (db w1)).
  { unfold provisioned. rewrite Kc, Kp, Kl.
    repeat split; eapply one_count, filter_app_one;
      first [exact Ec | exact Ep | exact El | apply Z.eqb_refl]. }
  destruct (separate_receivers_idle user w1 Hw1 Hprov) as (I1 & I2 & I3).
  assert (P : Models.post_save user true
                (set_db (with_table (table (db w) ++ [user]) (db w)) w)
              = (Return tt, w1)).
  { unfold Models.post_save.
    now rewrite (bind_return G1), (bind_return I1), (bind_return I2). }
  exists w1. split.
  - unfold Models.User_create. now rewrite (bind_return G0), (bind_return P).
  - repeat split; try assumption; apply Hprov.
Qed.

(** A valid registration on a storage that works: the view saves the
    user, logs them in and queues the welcome. *)
Lemma signup_run
    (UserCreationForm : DB -> QueryDict -> User + list (string * list string))
    (request : Request) (w : World) (fields : User) :
  healthy w -> method request = POST ->
  UserCreationForm (db w) (req_POST request) = inl fields ->
  owned_by_users (db w) ->
  let user := inserted fields (db w) in
  exists w1,
    Models.User_create fields w = (Return user, w1) /\
    respond (Views.signup UserCreationForm request) w =
      (Redirect "home" None,
       set_messages (messages w1 ++ [welcome_message user])
         (set_session (Some (user_id user)) w1)).
Proof.
  intros Hw Hm Hform Hown user.
  destruct (User_create_healthy fields w Hw Hown) as (w1 & G & _).
  fold user in G. exists w1. split; [exact G|].
  unfold respond, Views.signup. rewrite Hm.
  unfold bind at 1, get_db at 1. rewrite Hform.
  match goal with |- context [try_except ?body _ _ w] =>
    assert (Body : body w =
              (Return (Redirect "home" None),
               set_messages (messages w1 ++ [welcome_message user])
                 (set_session (Some (user_id user)) w1)))
      by now rewrite (bind_return G)
  end.
  now rewrite (try_return Body).
Qed.

(** X6.  A valid registration on a working storage creates the account
    under a key that no user had, gives it exactly one cart, one profile
    (blank, with an empty wallet) and one wishlist, added after the rows
    that were there, logs the new user in, welcomes them by name and
    redirects to the landing page; the catalog, the cart items, the
    wishlist relation and the ordered items are as before. *)
Theorem signup_provisions_and_logs_in
    (UserCreationForm : DB -> QueryDict -> User + list (string * list string))
    (request : Request) (w : World) (fields : User) :
  healthy w -> method request = POST ->
  UserCreationForm (db w) (req_POST request) = inl fields ->
  owned_by_users (db w) ->
  let user := inserted fields (db w) in
  exists w' cart profile wishlist,
    respond (Views.signup UserCreationForm request) w = (Redirect "home" None, w') /\
    username user = username fields /\
    ~ In (user_id user) (map user_id (users (db w))) /\
    users (db w') = users (db w) ++ [user] /\
    carts (db w') = carts (db w) ++ [cart] /\
    profiles (db w') = profiles (db w) ++ [profile] /\
    wishlists (db w') = wishlists (db w) ++ [wishlist] /\
    provisioned user (db w') /\
    (phone profile, address profile, wallet_balance profile) = ("", "", 0) /\
    session w' = Some (user_id user) /\
    messages w' = messages w ++ [welcome_message user] /\
    shop_tables w' = shop_tables w.
Proof.
  intros Hw Hm Hform Hown user.
  destruct (signup_run UserCreationForm request w fields Hw Hm Hform Hown)
    as (w1 & G & Hrun).
  destruct (User_create_healthy fields w Hw Hown)
    as (w1' & G' & Hw1 & Ku & Kc & Kp & Kl & Hprov & Ks & Kv & Ko).
  fold user in G, G', Hrun, Ku, Kc, Kp, Kl, Hprov.
  rewrite G in G'. injection G' as <-.
  destruct (fresh_user_owns_nothing (db w) fields Hown) as (Hfresh & _).
  fold user in Hfresh.
  eexists _, _, _, _. split; [exact Hrun|].
  injection Kv as Km _. cbn [db session messages set_messages set_session].
  repeat split; try eassumption; try reflexivity; try apply Hprov.
  now rewrite Km.
Qed.

Lemma signup_provisions_and_logs_in_witness :
  exists w',
    respond (Views.signup Signup.form Signup.request) (start Sample.shop)
      = (Redirect "home" None, w') /\
    users (db w') = [Sample.alice; Sample.bob; {| user_id := 3; username := "carol" |}] /\
    session w' = Some 3.
Proof.
  destruct (signup_provisions_and_logs_in Signup.form Signup.request
              (start Sample.shop) Signup.carol)
    as (w' & cart & profile & wishlist & Hrun & _ & _ & Hu & _ & _ & _ & _ & _ & Hs & _).
  - reflexivity.
  - reflexivity.
  - reflexivity.
  - unfold owned_by_users. cbn.
    repeat split; intros x Hx;
      repeat (destruct Hx as [<- | Hx]; [cbn; tauto|]); destruct Hx.
  - exists w'. repeat split; assumption.
Defined.

(** The registration once the form is known to be valid. *)
Lemma signup_valid_form
    (UserCreationForm : DB -> QueryDict -> User + list (string * list string))
    (request : Request) (w : World) (fields : User) :
  method request = POST ->
  UserCreationForm (db w) (req_POST request) = inl fields ->
  Views.signup UserCreationForm request w =
  try_except
    (user <- Models.User_create fields ;;
     login user ;;
     add_message (fst (welcome_message user)) (snd (welcome_message user)) ;;
     ret (Redirect "home" None))
    any_exception
    (fun e =>
       add_message (fst (account_error e)) (snd (account_error e)) ;;
       ret (Render "catalog/signup.html" SignupContext)) w.
Proof.
  intros Hm Hform. unfold Views.signup. rewrite Hm.
  unfold bind at 1, get_db at 1. now rewrite Hform.
Qed.



(* ===================================================================== *)
(** * The profile page *)
(* ===================================================================== *)



(* ===================================================================== *)
(** * A product that is not in the catalog *)
(* ===================================================================== *)

(** X9.  A request for a product key that the catalog does not hold:
    adding to the cart and adding to the wishlist answer with the
    not-found page and write nothing (no cart or wishlist is created for
    the user either); removing from the wishlist, whose body is wrapped
    in a handler for every exception, shows an error message instead and
    redirects to the wishlist, also without writing. *)
Theorem unknown_product_is_not_found (user : User) (request : Request)
    (w : World) (product_id : Z) :
  healthy w -> req_user request = Some user ->
  (forall p, In p (products (db w)) -> pr_id p <> product_id) ->
  respond (Views.add_to_cart request product_id) w = (PageNotFound, w) /\
  respond (Views.add_to_wishlist request product_id) w = (PageNotFound, w) /\
  respond (Views.remove_from_wishlist request product_id) w =
    (Redirect "wishlist" None, set_messages (messages w ++ [wishlist_error]) w).
Proof.
  intros Hw Hu Hnone.
  assert (E : filter (fun p => pr_id p =? product_id) (products (db w)) = []).
  { apply filter_none. intros p Hp. apply Z.eqb_neq. now apply Hnone. }
  pose proof (get_object_or_404_missing (fun p => pr_id p =? product_id) Hw E) as G.
  unfold respond, Views.add_to_cart, Views.add_to_wishlist,
    Views.remove_from_wishlist.
  rewrite !(login_required_user _ _ _ Hu).
  unfold Views.add_to_cart_view, Views.add_to_wishlist_view,
    Views.remove_from_wishlist_view.
  rewrite !(bind_raise G). repeat split.
  match goal with |- context [try_except ?body _ _] =>
    assert (Body : body w = (Raise Http404, w)) by exact (bind_raise G)
  end.
  now rewrite (bind_return (try_caught Body eq_refl)).
Qed.

Lemma unknown_product_is_not_found_witness :
  respond (Views.add_to_cart (Sample.request POST Sample.alice []) 9)
    (start Sample.shop) = (PageNotFound, start Sample.shop).
Proof.
  apply (unknown_product_is_not_found Sample.alice
           (Sample.request POST Sample.alice []) (start Sample.shop) 9).
  - reflexivity.
  - reflexivity.
  - intros p [<- | [<- | []]]; discriminate.
Defined.

(* ===================================================================== *)
(** * Handlers for every exception *)
(* ===================================================================== *)

Lemma try_any_returns {A} (body : M A) (h : Exception -> M A) (w : World) :
  (forall e w1, exists a w', h e w1 = (Return a, w')) ->
  exists a w', try_except body any_exception h w = (Return a, w').
Proof.
  intros Hh. unfold try_except.
  destruct (body w) as [[a|e] w1]; [now exists a, w1 | apply Hh].
Qed.

(** X10.  The two removal views of a logged-in user never end in an error
    page, whatever the storage does: each returns its redirect (to the
    cart, to the wishlist).  When the storage fails at the first call,
    nothing is written and the failure is shown as the error message of
    the view. *)
Theorem removal_views_never_fail (user : User) (request : Request) (w : World)
    (id : Z) :
  req_user request = Some user ->
  exists w1 w2,
    Views.remove_from_cart request id w = (Return (Redirect "cart" None), w1) /\
    Views.remove_from_wishlist request id w
      = (Return (Redirect "wishlist" None), w2) /\
    forall rest, faults w = true :: rest ->
      w1 = set_messages (messages w ++ [removal_error]) (set_faults rest w) /\
      w2 = set_messages (messages w ++ [wishlist_error]) (set_faults rest w).
Proof.
  intros Hu. unfold Views.remove_from_cart, Views.remove_from_wishlist.
  rewrite !(login_required_user _ _ _ Hu).
  unfold Views.remove_from_cart_view, Views.remove_from_wishlist_view.
  match goal with
  | |- context [bind (try_except ?b1 _ ?h1) _ w] =>
      match goal with
      | |- context [bind (try_except ?b2 _ ?h2) (fun _ => ret (Redirect "wishlist" None)) w] =>
          destruct (try_any_returns b1 h1 w) as ([] & w1 & E1);
            [intros e w0; now eexists _, _|];
          destruct (try_any_returns b2 h2 w) as ([] & w2 & E2);
            [intros e w0; now eexists _, _|];
          assert (F1 : forall rest, faults w = true :: rest ->
                       b1 w = (Raise OperationalError, set_faults rest w));
          [|assert (F2 : forall rest, faults w = true :: rest ->
                         b2 w = (Raise OperationalError, set_faults rest w))]
      end
  end.
  - intros rest Hf.
    unfold bind at 1, get_db at 1.
    unfold ORM.get_object_or_404, ORM.get, ORM.select, try_except, bind, storage.
    now rewrite Hf.
  - intros rest Hf.
    unfold ORM.get_object_or_404, ORM.get, ORM.select, try_except, bind, storage.
    now rewrite Hf.
  - exists w1, w2. rewrite (bind_return E1), (bind_return E2).
    split; [reflexivity|]. split; [reflexivity|]. intros rest Hf. split.
    + rewrite (try_caught (F1 rest Hf) eq_refl) in E1. now injection E1 as <-.
    + rewrite (try_caught (F2 rest Hf) eq_refl) in E2. now injection E2 as <-.
Qed.

Lemma removal_views_never_fail_witness :
  exists w1 w2,
    Views.remove_from_cart (Sample.request POST Sample.alice []) 1
      (set_faults [true] (start Sample.shop)) = (Return (Redirect "cart" None), w1) /\
    Views.remove_from_wishlist (Sample.request POST Sample.alice []) 1
      (set_faults [true] (start Sample.shop))
      = (Return (Redirect "wishlist" None), w2) /\
    db w1 = Sample.shop /\ db w2 = Sample.shop.
Proof.
  destruct (removal_views_never_fail Sample.alice
              (Sample.request POST Sample.alice [])
              (set_faults [true] (start Sample.shop)) 1 eq_refl)
    as (w1 & w2 & E1 & E2 & F).
  destruct (F [] eq_refl) as [-> ->].
  eexists _, _. split; [exact E1|]. split; [exact E2|]. split; reflexivity.
Defined.

(* ===================================================================== *)
(** * The receivers and the storage *)
(* ===================================================================== *)

(** X11.  The combined receiver never raises: in every world it returns,
    and an exception of the storage ends in one printed line.  When the
    very first call to the storage fails, nothing else has happened.
    When the storage fails only after the cart has been inserted, the
    cart stays in the store, without profile and wishlist: nothing is
    rolled back.  With [created] false no receiver does anything. *)
Theorem combined_receiver_never_raises (instance : User) (created : bool)
    (w : World) :
  exists w',
    Models.create_user_profile_and_related_objects instance created w
      = (Return tt, w') /\
    protected_tables w' = protected_tables w /\
    (forall r, receiver r instance false w = (Return tt, w)) /\
    (forall rest, created = true -> faults w = true :: rest ->
       w' = set_stdout (stdout w ++ [provisioning_error instance OperationalError])
              (set_faults rest w)) /\
    (forall rest, created = true -> faults w = false :: false :: true :: rest ->
       filter (Models.Cart_of_user instance) (carts (db w)) = [] ->
       carts (db w') = carts (db w) ++ [inserted (Models.new_Cart instance) (db w)] /\
       profiles (db w') = profiles (db w) /\
       wishlists (db w') = wishlists (db w) /\
       stdout w' = stdout w ++ [provisioning_error instance OperationalError]).
Proof.
  assert (K : keeps protected_tables
                (Models.create_user_profile_and_related_objects instance created)).
  { unfold Models.create_user_profile_and_related_objects. frame. }
  specialize (K w).
  assert (R : exists w',
             Models.create_user_profile_and_related_objects instance created w
               = (Return tt, w')).
  { unfold Models.create_user_profile_and_related_objects.
    destruct created; [|now exists w].
    match goal with |- context [try_except ?b _ ?h w] =>
      destruct (try_any_returns b h w) as ([] & w' & E);
        [intros e w0; now eexists _, _ | now exists w']
    end. }
  destruct R as (w' & E). rewrite E in K. exists w'.
  split; [exact E|]. split; [exact K|]. split; [now intros []|]. split.
  - intros rest -> Hf. revert E.
    unfold Models.create_user_profile_and_related_objects, ORM.get_or_create,
      ORM.get, ORM.select, try_except, bind, storage.
    rewrite Hf. cbn. now intros [= <-].
  - intros rest -> Hf Ec. revert E.
    unfold Models.create_user_profile_and_related_objects, ORM.get_or_create,
      ORM.get, ORM.create, ORM.select, try_except, bind, storage, get_db, put_db, ret.
    rewrite Hf. cbn [faults set_faults db table Cart_Model]. rewrite Ec.
    cbn. intros [= <-]. cbn. repeat split.
Qed.

Lemma combined_receiver_never_raises_witness :
  exists w',
    Models.create_user_profile_and_related_objects Signup.carol true
      (set_faults [false; false; true] (start Sample.shop)) = (Return tt, w') /\
    carts (db w') =
      [Sample.alice_cart; Sample.bob_cart; {| cart_id := 3; cart_user := 0 |}] /\
    profiles (db w') = [] /\
    stdout w' = [provisioning_error Signup.carol OperationalError].
Proof.
  destruct (combined_receiver_never_raises Signup.carol true
              (set_faults [false; false; true] (start Sample.shop)))
    as (w' & E & _ & _ & _ & Partial).
  destruct (Partial [] eq_refl eq_refl eq_refl) as (Hc & Hp & _ & Ho).
  exists w'. repeat split; assumption.
Defined.

(* ===================================================================== *)
(** * The wishlist: adding and removing *)
(* ===================================================================== *)

Lemma wished_iff d wishlist product_id :
  existsb (Views.in_wishlist wishlist product_id) (wishlist_products d) = true <->
  In (wishlist_id wishlist, product_id) (wished d).
Proof.
  split.
  - intros Hex. apply existsb_exists in Hex as (r & Hr & Hin).
    unfold Views.in_wishlist in Hin. apply andb_true_iff in Hin as [E1 E2].
    apply Z.eqb_eq in E1, E2. apply in_map_iff. exists r. split; [|exact Hr].
    now rewrite E1, E2.
  - intros Hin. destruct (existsb _ _) eqn:Hex; [reflexivity|].
    now apply not_wished in Hex.
Qed.

(** Adding to the wishlist, for a user who has a wishlist. *)
Lemma add_to_wishlist_own user request product_id product wishlist w :
  healthy w -> req_user request = Some user ->
  filter (fun p => pr_id p =? product_id) (products (db w)) = [product] ->
  filter (Models.Wishlist_of_user user) (wishlists (db w)) = [wishlist] ->
  respond (Views.add_to_wishlist request product_id) w =
  (Redirect "product_detail" (Some product_id),
   if existsb (Views.in_wishlist wishlist product_id) (wishlist_products (db w))
   then set_messages (messages w ++ [already_message product]) w
   else set_messages (messages w ++ [added_message product])
          (set_db (with_table
                     (wishlist_products (db w) ++ [wish wishlist product (db w)])
                     (db w)) w)).
Proof.
  intros Hw Hu Ep El.
  destruct (add_to_wishlist_run user request product_id product w Hw Hu Ep)
    as (wl & created & wa & Ea & _ & _ & _ & _ & Hrun);
    [now rewrite (one_count _ _ _ El)|].
  pose proof (get_or_create_found (Models.Wishlist_of_user user)
                (Models.new_Wishlist user) Hw El) as G.
  rewrite G in Ea. injection Ea as <- <- <-. exact Hrun.
Qed.

Lemma products_remove_healthy wishlist product w :
  healthy w ->
  Views.products_remove wishlist product w =
  (Return tt,
   set_db (with_table
             (filter (fun r => negb (Views.in_wishlist wishlist (pr_id product) r))
                (wishlist_products (db w)))
             (db w)) w).
Proof.
  intros Hw. unfold Views.products_remove.
  now rewrite (bind_return (storage_healthy Hw)).
Qed.

(** Removing from the wishlist, for a user who has a wishlist. *)
Lemma remove_from_wishlist_own user request product_id product wishlist w :
  healthy w -> req_user request = Some user ->
  filter (fun p => pr_id p =? product_id) (products (db w)) = [product] ->
  filter (Models.Wishlist_of_user user) (wishlists (db w)) = [wishlist] ->
  respond (Views.remove_from_wishlist request product_id) w =
  (Redirect "wishlist" None,
   if existsb (Views.in_wishlist wishlist product_id) (wishlist_products (db w))
   then set_messages (messages w ++ [removed_message product])
          (set_db (with_table
                     (filter (fun r => negb (Views.in_wishlist wishlist product_id r))
                        (wishlist_products (db w)))
                     (db w)) w)
   else set_messages (messages w ++ [not_present_message]) w).
Proof.
  intros Hw Hu Ep El.
  pose proof (filter_pk_is (products (db w)) product_id product Ep) as Hid.
  cbn [pk Product_Model] in Hid.
  pose proof (get_object_or_404_found (fun p => pr_id p =? product_id) Hw Ep) as G.
  pose proof (get_or_create_found (Models.Wishlist_of_user user)
                (Models.new_Wishlist user) Hw El) as Gl.
  pose proof (exists_healthy (Views.in_wishlist wishlist product_id) Hw) as Gx.
  cbn [table WishlistProduct_Model] in Gx.
  unfold respond, Views.remove_from_wishlist.
  rewrite (login_required_user _ _ _ Hu). unfold Views.remove_from_wishlist_view.
  match goal with |- context [try_except ?body _ _] =>
    assert (Body : body w =
              (Return tt,
               if existsb (Views.in_wishlist wishlist product_id)
                    (wishlist_products (db w))
               then set_messages (messages w ++ [removed_message product])
                      (set_db (with_table
                                 (filter (fun r => negb (Views.in_wishlist wishlist
                                                           product_id r))
                                    (wishlist_products (db w)))
                                 (db w)) w)
               else set_messages (messages w ++ [not_present_message]) w))
  end.
  { rewrite (bind_return G), (bind_return Gl). cbv beta iota.
    rewrite (bind_return Gx).
    destruct (existsb _ (wishlist_products (db w))); [|reflexivity].
    rewrite (bind_return (products_remove_healthy wishlist product w Hw)).
    now rewrite Hid. }
  now rewrite (bind_return (try_return Body)).
Qed.

Lemma wished_filter wishlist product_id rows :
  map (fun r => (wp_wishlist r, wp_product r))
    (filter (fun r => negb (Views.in_wishlist wishlist product_id r)) rows) =
  filter (other_wish wishlist product_id)
    (map (fun r => (wp_wishlist r, wp_product r)) rows).
Proof.
  induction rows as [|r rows IH]; [reflexivity|]. cbn [filter map].
  change (other_wish wishlist product_id (wp_wishlist r, wp_product r))
    with (negb (Views.in_wishlist wishlist product_id r)).
  destruct (negb _); cbn [map]; now rewrite IH.
Qed.

(** X12.  Adding a product of the catalog that is not in the wishlist of
    the user puts exactly the pair of this wishlist and this product at
    the end of the relation, reports it and redirects to the page of the
    product; the pairs that were there, of this and of every other
    wishlist, stay. *)
Theorem add_to_wishlist_adds (user : User) (request : Request) (w : World)
    (product_id : Z) (product : Product) (wishlist : Wishlist) :
  healthy w -> req_user request = Some user ->
  filter (fun p => pr_id p =? product_id) (products (db w)) = [product] ->
  filter (Models.Wishlist_of_user user) (wishlists (db w)) = [wishlist] ->
  ~ In (wishlist_id wishlist, product_id) (wished (db w)) ->
  exists w',
    respond (Views.add_to_wishlist request product_id) w =
      (Redirect "product_detail" (Some product_id), w') /\
    wished (db w') = wished (db w) ++ [(wishlist_id wishlist, product_id)] /\
    messages w' = messages w ++ [added_message product] /\
    wishlists (db w') = wishlists (db w).
Proof.
  intros Hw Hu Ep El Hnot.
  pose proof (filter_pk_is (products (db w)) product_id product Ep) as Hid.
  cbn [pk Product_Model] in Hid.
  rewrite (add_to_wishlist_own user request product_id product wishlist w Hw Hu Ep El).
  destruct (existsb _ (wishlist_products (db w))) eqn:Hex;
    [now apply wished_iff in Hex|].
  eexists. split; [reflexivity|]. cbn. unfold wished. rewrite map_app. cbn.
  now rewrite Hid.
Qed.

Lemma add_to_wishlist_adds_witness :
  exists w',
    respond (Views.add_to_wishlist (Sample.request POST Sample.alice []) 1)
      (start Sample.shop) = (Redirect "product_detail" (Some 1), w') /\
    wished (db w') = [(1, 2); (1, 1)].
Proof.
  destruct (add_to_wishlist_adds Sample.alice (Sample.request POST Sample.alice [])
              (start Sample.shop) 1 Sample.shirt Sample.alice_wishlist)
    as (w' & Hrun & Hw & _).
  - reflexivity.
  - reflexivity.
  - reflexivity.
  - reflexivity.
  - intros [E | []]. discriminate E.
  - exists w'. split; [exact Hrun | exact Hw].
Defined.

(** X13.  Removing a product that is in the wishlist of the user deletes
    the pair of this wishlist and this product from the relation, and
    nothing else: every other pair, of this and of every other wishlist,
    stays, in the order it had. *)
Theorem remove_from_wishlist_removes (user : User) (request : Request)
    (w : World) (product_id : Z) (product : Product) (wishlist : Wishlist) :
  healthy w -> req_user request = Some user ->
  filter (fun p => pr_id p =? product_id) (products (db w)) = [product] ->
  filter (Models.Wishlist_of_user user) (wishlists (db w)) = [wishlist] ->
  In (wishlist_id wishlist, product_id) (wished (db w)) ->
  exists w',
    respond (Views.remove_from_wishlist request product_id) w =
      (Redirect "wishlist" None, w') /\
    wished (db w') = filter (other_wish wishlist product_id) (wished (db w)) /\
    ~ In (wishlist_id wishlist, product_id) (wished (db w')) /\
    (forall pair, In pair (wished (db w)) ->
       pair <> (wishlist_id wishlist, product_id) -> In pair (wished (db w'))) /\
    messages w' = messages w ++ [removed_message product].
Proof.
  intros Hw Hu Ep El Hin.
  rewrite (remove_from_wishlist_own user request product_id product wishlist w
             Hw Hu Ep El).
  apply wished_iff in Hin. rewrite Hin.
  eexists. split; [reflexivity|].
  assert (Hrows : wished (db (set_messages (messages w ++ [removed_message product])
                           (set_db (with_table
                              (filter (fun r => negb (Views.in_wishlist wishlist
                                                        product_id r))
                                 (wishlist_products (db w))) (db w)) w)))
                  = filter (other_wish wishlist product_id) (wished (db w)))
    by apply wished_filter.
  rewrite Hrows. split; [reflexivity|]. split; [|split; [|reflexivity]].
  - intros Hp. apply filter_In in Hp as [_ Hp].
    unfold other_wish in Hp. cbn [fst snd] in Hp. now rewrite !Z.eqb_refl in Hp.
  - intros [a b] Hp Hne. apply filter_In. split; [exact Hp|].
    unfold other_wish. cbn [fst snd].
    destruct (Z.eqb_spec a (wishlist_id wishlist)) as [->|]; [|reflexivity].
    destruct (Z.eqb_spec b product_id) as [->|]; [|reflexivity].
    now contradiction Hne.
Qed.

Lemma remove_from_wishlist_removes_witness :
  exists w',
    respond (Views.remove_from_wishlist (Sample.request POST Sample.alice []) 2)
      (start Sample.shop) = (Redirect "wishlist" None, w') /\
    wished (db w') = [].
Proof.
  destruct (remove_from_wishlist_removes Sample.alice
              (Sample.request POST Sample.alice [])
              (start Sample.shop) 2 Sample.coat Sample.alice_wishlist)
    as (w' & Hrun & Hw & _).
  - reflexivity.
  - reflexivity.
  - reflexivity.
  - reflexivity.
  - now left.
  - exists w'. split; [exact Hrun | exact Hw].
Defined.

Lemma filter_true_on {A} (p : A -> bool) (l : list A) :
  (forall x, In x l -> p x = true) -> filter p l = l.
Proof.
  induction l as [|x l IH]; intros Hp; [reflexivity|]. cbn [filter].
  rewrite (Hp x (or_introl eq_refl)). f_equal. apply IH.
  intros y Hy. apply Hp. now right.
Qed.

(** X14.  Adding a product that was not in the wishlist and removing it
    again is a round trip: the store is the one the two requests started
    from. *)
Theorem wishlist_add_then_remove (user : User) (add remove : Request)
    (w : World) (product_id : Z) (product : Product) (wishlist : Wishlist) :
  healthy w -> req_user add = Some user -> req_user remove = Some user ->
  filter (fun p => pr_id p =? product_id) (products (db w)) = [product] ->
  filter (Models.Wishlist_of_user user) (wishlists (db w)) = [wishlist] ->
  ~ In (wishlist_id wishlist, product_id) (wished (db w)) ->
  let w1 := snd (respond (Views.add_to_wishlist add product_id) w) in
  let w2 := snd (respond (Views.remove_from_wishlist remove product_id) w1) in
  In (wishlist_id wishlist, product_id) (wished (db w1)) /\
  db w2 = db w /\
  messages w2 = messages w ++ [added_message product; removed_message product].
Proof.
  intros Hw Hadd Hremove Ep El Hnot w1 w2.
  assert (Hex : existsb (Views.in_wishlist wishlist product_id)
                  (wishlist_products (db w)) = false).
  { destruct (existsb _ _) eqn:Hex; [now apply wished_iff in Hex | reflexivity]. }
  pose proof (filter_pk_is (products (db w)) product_id product Ep) as Hid.
  cbn [pk Product_Model] in Hid.
  assert (E1 : w1 = set_messages (messages w ++ [added_message product])
                      (set_db (with_table
                                 (wishlist_products (db w) ++ [wish wishlist product (db w)])
                                 (db w)) w)).
  { unfold w1.
    rewrite (add_to_wishlist_own user add product_id product wishlist w
               Hw Hadd Ep El).
    now rewrite Hex. }
  assert (Hin1 : In (wishlist_id wishlist, product_id) (wished (db w1))).
  { rewrite E1. cbn. unfold wished. rewrite map_app. apply in_or_app. right.
    cbn. rewrite Hid. now left. }
  split; [exact Hin1|].
  assert (Hw1 : healthy w1) by (rewrite E1; exact Hw).
  assert (Ep1 : filter (fun p => pr_id p =? product_id) (products (db w1)) = [product])
    by (rewrite E1; exact Ep).
  assert (El1 : filter (Models.Wishlist_of_user user) (wishlists (db w1)) = [wishlist])
    by (rewrite E1; exact El).
  unfold w2.
  rewrite (remove_from_wishlist_own user remove product_id product wishlist w1
             Hw1 Hremove Ep1 El1).
  apply wished_iff in Hin1. rewrite Hin1. cbn [snd].
  assert (Hrows : filter (fun r => negb (Views.in_wishlist wishlist product_id r))
                    (wishlist_products (db w1)) = wishlist_products (db w)).
  { rewrite E1. cbn [db set_messages set_db with_table WishlistProduct_Model
                       wishlist_products].
    rewrite filter_app. cbn [filter]. unfold Views.in_wishlist at 2, wish, inserted.
    cbn [with_pk WishlistProduct_Model wp_wishlist wp_product].
    rewrite Hid, !Z.eqb_refl. cbn [andb negb]. rewrite app_nil_r.
    apply filter_true_on. intros r Hr.
    destruct (Views.in_wishlist wishlist product_id r) eqn:Hr'; [|reflexivity].
    assert (existsb (Views.in_wishlist wishlist product_id)
              (wishlist_products (db w)) = true); [|congruence].
    apply existsb_exists. now exists r. }
  rewrite Hrows. split.
  - rewrite E1. destruct w as [[] ? ? ? ? ?]. reflexivity.
  - rewrite E1. cbn. now rewrite <- app_assoc.
Qed.

(* ===================================================================== *)
(** * Sequences of requests to the cart *)
(* ===================================================================== *)

#[export] Instance keeps_one_cart_each_PreOrder : PreOrder keeps_one_cart_each.
Proof.
  split; [intros w K; exact K | intros w1 w2 w3 H1 H2 K; exact (H2 (H1 K))].
Qed.

Lemma count_app_one {A} (p : A -> bool) (rows : list A) (r : A) :
  count p (rows ++ [r]) = (count p rows + if p r then 1 else 0)%nat.
Proof. rewrite count_app. unfold count at 2. cbn. now destruct (p r). Qed.

Lemma bind_ret_world {A B} (m : M A) (f : A -> B) w :
  snd ((x <- m ;; ret (f x)) w) = snd (m w).
Proof. unfold bind, ret. now destruct (m w) as [[a|e] w']. Qed.

Section FetchOrCreate.

Context {T : Type} `{Model T}.

(** A lookup writes nothing, and raises [DoesNotExist] only when no row
    matches. *)
Lemma get_outcome (p : T -> bool) w :
  db (snd (ORM.get p w)) = db w /\
  (fst (ORM.get p w) = Raise DoesNotExist -> filter p (table (db w)) = []).
Proof.
  unfold ORM.get, ORM.select, bind, get_db, ret, raise, storage.
  destruct (faults w) as [|[|] fs]; cbn [fst snd db set_faults];
    try (split; [reflexivity | discriminate]);
    destruct (filter p (table (db w))) as [|r [|r' rows]]; cbn;
    split; try reflexivity; try discriminate.
Qed.

Lemma create_outcome (fields : T) w :
  db (snd (ORM.create fields w)) = db w \/
  db (snd (ORM.create fields w)) =
    with_table (table (db w) ++ [inserted fields (db w)]) (db w).
Proof.
  unfold ORM.create, bind, get_db, put_db, ret, storage.
  destruct (faults w) as [|[|] fs]; cbn; auto.
Qed.

(** In every world, a fetch-or-create either leaves the store as it is,
    or no row matched and it has added the new row to the table. *)
Lemma get_or_create_outcome (p : T -> bool) (fields : T) w :
  db (snd (ORM.get_or_create p fields w)) = db w \/
  filter p (table (db w)) = [] /\
  db (snd (ORM.get_or_create p fields w)) =
    with_table (table (db w) ++ [inserted fields (db w)]) (db w).
Proof.
  destruct (get_outcome p w) as [Hdb Hnone].
  assert (Hrun : ORM.get_or_create p fields w =
                 match ORM.get p w with
                 | (Return r, w1) => (Return (r, false), w1)
                 | (Raise e, w1) =>
                     if one_of [DoesNotExist] e
                     then (r <- ORM.create fields ;; ret (r, true)) w1
                     else (Raise e, w1)
                 end).
  { unfold ORM.get_or_create, try_except, bind at 1.
    now destruct (ORM.get p w) as [[r|e] w1]. }
  rewrite Hrun. clear Hrun.
  destruct (ORM.get p w) as [[r|e] w1]; cbn [fst snd] in *; [now left|].
  destruct e; cbn [one_of existsb Exception_beq orb]; try now left.
  rewrite bind_ret_world.
  destruct (create_outcome fields w1) as [E | E]; rewrite E, ?Hdb; [now left|].
  right. split; [now apply Hnone | reflexivity].
Qed.

End FetchOrCreate.

(** The fetch-or-create of the cart of a user never gives a user a second
    cart, in any world. *)
Lemma ensure_cart_one_each user :
  respects keeps_one_cart_each
    (ORM.get_or_create (Models.Cart_of_user user) (Models.new_Cart user)).
Proof.
  intros w K.
  destruct (get_or_create_outcome (Models.Cart_of_user user)
              (Models.new_Cart user) w) as [-> | [E ->]]; [exact K|].
  intros u. cbn [table with_table Cart_Model carts] in *. rewrite count_app_one.
  destruct (Models.Cart_of_user u (inserted (Models.new_Cart user) (db w))) eqn:Eu;
    [|rewrite Nat.add_0_r; apply K].
  replace (count (Models.Cart_of_user u) (carts (db w))) with 0%nat; [lia|].
  unfold count.
  replace (filter (Models.Cart_of_user u) (carts (db w)))
    with (filter (Models.Cart_of_user user) (carts (db w))); [now rewrite E|].
  apply filter_ext. intros c. unfold Models.Cart_of_user in *.
  cbn in Eu. apply Z.eqb_eq in Eu. now rewrite Eu.
Qed.

#[export] Instance keeps_found_carts_PreOrder : PreOrder keeps_found_carts.
Proof.
  split; [intros w u c K; exact K|].
  intros w1 w2 w3 H1 H2 u c K. exact (H2 u c (H1 u c K)).
Qed.

(** The fetch-or-create of a cart leaves the cart of whoever has one. *)
Lemma ensure_cart_found user :
  respects keeps_found_carts
    (ORM.get_or_create (Models.Cart_of_user user) (Models.new_Cart user)).
Proof.
  intros w u c K.
  destruct (get_or_create_outcome (Models.Cart_of_user user)
              (Models.new_Cart user) w) as [-> | [E ->]]; [exact K|].
  cbn [table with_table Cart_Model carts] in *. rewrite filter_app, K.
  cbn [filter].
  destruct (Models.Cart_of_user u (inserted (Models.new_Cart user) (db w))) eqn:Eu;
    [|reflexivity].
  exfalso.
  assert (F : filter (Models.Cart_of_user u) (carts (db w)) =
              filter (Models.Cart_of_user user) (carts (db w))).
  { apply filter_ext. intros x. unfold Models.Cart_of_user in *.
    cbn in Eu. apply Z.eqb_eq in Eu. now rewrite Eu. }
  rewrite K, E in F. discriminate F.
Qed.

(** What it takes for the three views of the cart to respect a relation
    between the worlds. *)
Lemma cart_request_respects (R : World -> World -> Prop) `{PreOrder World R}
    (r : CartRequest) :
  (forall w b fs, faults w = b :: fs -> R w (set_faults fs w)) ->
  (forall c w, R w (set_result_cache c w)) ->
  (forall m w, R w (set_messages m w)) ->
  (forall s w, R w (set_session s w)) ->
  (forall user, respects R (ORM.get_or_create (Models.Cart_of_user user)
                              (Models.new_Cart user))) ->
  blind_to UserProfile R -> blind_to Wishlist R ->
  blind_to WishlistProduct R -> blind_to CartItem R ->
  respects R (view_of r).
Proof.
  intros Hf Hc Hm Hs Bc Bp Bl Bw Bi.
  destruct r as [request id | request | request id]; cbn [view_of];
    apply (shopper_views_respect R (fun _ p => Some p) request id
             Hf Hc Hm Hs Bc Bp Bl Bw Bi)
    || apply (shopper_views_respect R (fun _ p => Some p) request 0
                Hf Hc Hm Hs Bc Bp Bl Bw Bi).
Qed.

(** A request to the cart never gives a user a second cart, leaves the
    cart of whoever has one, leaves a storage that works working, and
    leaves the catalog as it is. *)
Lemma cart_request_keeps_carts (r : CartRequest) (w : World) :
  let w' := snd (respond (view_of r) w) in
  (one_cart_each (db w) -> one_cart_each (db w')) /\
  (healthy w -> healthy w') /\
  products (db w') = products (db w) /\
  keeps_found_carts w w'.
Proof.
  intros w'. unfold w'. split; [|split; [|split]].
  - apply (respects_respond keeps_one_cart_each).
    apply cart_request_respects; try exact _; try exact ensure_cart_one_each;
      unfold blind_to, keeps_one_cart_each; intros; assumption.
  - apply (respects_respond unharmed).
    apply cart_request_respects; try frame_side.
    intros user. apply respects_get_or_create; frame_side.
  - assert (E : same protected_tables w (snd (respond (view_of r) w))).
    { apply (respects_respond (same protected_tables)).
      apply cart_request_respects; try frame_side.
      intros user. apply respects_get_or_create; frame_side. }
    unfold same, protected_tables in E. now injection E.
  - apply (respects_respond keeps_found_carts).
    apply cart_request_respects; try exact _; try exact ensure_cart_found;
      unfold blind_to, keeps_found_carts; intros; assumption.
Qed.

(** The cart view creates the cart of a user who has none, and then does
    what it does for a user who has one. *)
Lemma cart_view_ensured user request w :
  healthy w -> (count (Models.Cart_of_user user) (carts (db w)) <= 1)%nat ->
  exists cart w1,
    healthy w1 /\ result_cache w1 = result_cache w /\
    filter (Models.Cart_of_user user) (carts (db w1)) = [cart] /\
    cart_items (db w1) = cart_items (db w) /\
    products (db w1) = products (db w) /\
    Views.cart_view user request w = Views.cart_view user request w1.
Proof.
  intros Hw Hc.
  destruct (ensure_cart user w Hw Hc) as (cart & created & w1 & Ea & Hw1 & Fa & _ & Wa).
  exists cart, w1. split; [exact Hw1|].
  split; [now rewrite Wa|]. split; [exact Fa|].
  split; [now rewrite Wa|]. split; [now rewrite Wa|].
  pose proof (get_or_create_found (Models.Cart_of_user user)
                (Models.new_Cart user) Hw1 Fa) as G.
  unfold Views.cart_view. now rewrite (bind_return Ea), (bind_return G).
Qed.

(** One request to the cart keeps the invariants of the table of cart
    items. *)
Lemma cart_request_keeps_rows r w :
  healthy w -> result_cache w = None -> shop_ok (db w) ->
  cart_rows_ok (cart_items (db (snd (respond (view_of r) w)))).
Proof.
  intros Hw Hc (Hrows & Hproducts & Hone).
  destruct r as [request product_id | request | request item_id]; cbn [view_of];
    destruct (req_user request) as [user|] eqn:Hu;
    try (unfold respond, Views.add_to_cart, Views.cart, Views.remove_from_cart,
           Views.login_required; rewrite Hu; exact Hrows).
  - destruct (filter_pk_cases (products (db w)) product_id Hproducts)
      as [E | (product & E & _)]; cbn [pk Product_Model] in E.
    + pose proof (get_object_or_404_missing (fun p => pr_id p =? product_id) Hw E) as G.
      unfold respond, Views.add_to_cart. rewrite (login_required_user _ _ _ Hu).
      unfold Views.add_to_cart_view. rewrite (bind_raise G). exact Hrows.
    + exact (add_to_cart_keeps_rows_ok user request w product_id product
               Hw Hu E (Hone user) Hrows).
  - destruct (cart_view_ensured user request w Hw (Hone user))
      as (cart & w1 & Hw1 & Hc1 & Fa & Hitems & Hprods & Hview).
    assert (E : respond (Views.cart request) w = respond (Views.cart request) w1).
    { unfold respond, Views.cart. rewrite (login_required_user _ _ _ Hu).
      now rewrite Hview. }
    rewrite E.
    apply (cart_keeps_rows_ok user request w1 cart Hw1); try assumption.
    + now rewrite Hc1.
    + now rewrite Hprods.
    + now rewrite Hitems.
  - exact (remove_from_cart_keeps_rows_ok user request w item_id Hw Hu Hrows).
Qed.

(** X15.  No sequence of requests to the cart breaks the table of the
    cart items.  Starting from a store in which the cart items have
    different keys, quantities of at least 1 and at most one row for a
    cart and a product, the products have different keys and no user has
    two carts, and with a storage that works: after any number of
    requests to add to the cart, to update the cart and to remove from
    it, by any users or by visitors who are not logged in, for products
    and items that exist or not, and with any submitted values, all of
    this still holds. *)
Theorem cart_requests_keep_shop_ok (requests : list CartRequest) (w : World) :
  healthy w -> result_cache w = None -> shop_ok (db w) ->
  healthy (serve requests w) /\ shop_ok (db (serve requests w)).
Proof.
  revert w. induction requests as [|r rest IH]; intros w Hw Hc Hok; [now split|].
  cbn [serve]. pose proof Hok as (Hrows & Hproducts & Hone).
  destruct (cart_request_keeps_carts r w) as (Hone' & Hw' & Hprods' & _).
  specialize (Hone' Hone). specialize (Hw' Hw).
  apply IH.
  - exact Hw'.
  - reflexivity.
  - split; [|split].
    + exact (cart_request_keeps_rows r w Hw Hc Hok).
    + cbn. rewrite Hprods'. exact Hproducts.
    + exact Hone'.
Qed.

Lemma sample_shop_ok : shop_ok Sample.shop.
Proof.
  split; [|split].
  - split; [|split].
    + unfold keyed. cbn. repeat constructor; cbn; intuition discriminate.
    + intros i [<- | [<- | [<- | []]]]; reflexivity.
    + intros cart product. unfold count, Views.CartItem_of.
      cbn [filter cart_items Sample.shop ci_cart ci_product Sample.shirts
             Sample.coats Sample.bob_shirt].
      destruct (Z.eqb_spec 1 (cart_id cart)), (Z.eqb_spec 2 (cart_id cart)),
        (Z.eqb_spec 1 (pr_id product)), (Z.eqb_spec 2 (pr_id product));
        cbn [andb List.length]; lia.
  - unfold keyed. cbn. repeat constructor; cbn; intuition discriminate.
  - intros user. unfold count, Models.Cart_of_user.
    cbn [filter carts Sample.shop cart_user Sample.alice_cart Sample.bob_cart].
    destruct (Z.eqb_spec 1 (user_id user)), (Z.eqb_spec 2 (user_id user));
      cbn [List.length]; lia.
Qed.

Lemma cart_requests_keep_shop_ok_witness :
  shop_ok
    (db (serve
           [AddToCart (Sample.request POST Sample.bob [("quantity", "-4")]) 2;
            UpdateCart (Sample.request POST Sample.alice
                          [("quantity_1", "0"); ("quantity_2", "abc")]);
            RemoveFromCart (Sample.request POST Sample.bob []) 2;
            AddToCart (Sample.request POST Sample.alice []) 7]
           (start Sample.shop))).
Proof.
  apply (cart_requests_keep_shop_ok _ (start Sample.shop)).
  - reflexivity.
  - reflexivity.
  - exact sample_shop_ok.
Defined.

(* ===================================================================== *)
(** * Integers and their numerals *)
(* ===================================================================== *)

Lemma digitpart_cons c k r :
  Py.digit_of c = Some k ->
  match r with [] => True | u :: _ => Ascii.eqb u "_" = false end ->
  Py.digitpart (c :: r) = (k :: fst (Py.digitpart r), snd (Py.digitpart r)).
Proof.
  intros Hc Hr. cbn [Py.digitpart]. rewrite Hc.
  destruct r as [|u r']; [reflexivity|]. now rewrite Hr.
Qed.

Lemma numeral_head d :
  match list_ascii_of_string (NilEmpty.string_of_uint d) with
  | [] => True
  | u :: _ => Ascii.eqb u "_" = false
  end.
Proof. destruct d; cbn; trivial. Qed.

Lemma digitpart_numeral d :
  Py.digitpart (list_ascii_of_string (NilEmpty.string_of_uint d)) = (digits_of d, []).
Proof.
  induction d as [|d IH|d IH|d IH|d IH|d IH|d IH|d IH|d IH|d IH|d IH];
    [reflexivity|..];
    cbn [NilEmpty.string_of_uint list_ascii_of_string digits_of];
    (erewrite digitpart_cons; [|reflexivity | apply numeral_head]);
    now rewrite IH.
Qed.

Lemma of_digits_acc d : forall acc : positive,
  fold_left (fun acc d => 10 * acc + d) (digits_of d) (Z.pos acc) =
  Z.pos (Pos.of_uint_acc d acc).
Proof.
  induction d as [|d IH|d IH|d IH|d IH|d IH|d IH|d IH|d IH|d IH|d IH];
    intros acc; cbn [digits_of fold_left Pos.of_uint_acc]; [reflexivity|..];
    rewrite <- IH; f_equal; lia.
Qed.

Lemma of_digits_numeral d : Py.of_digits (digits_of d) = Z.of_N (Pos.of_uint d).
Proof.
  unfold Py.of_digits.
  induction d as [|d IH|d IH|d IH|d IH|d IH|d IH|d IH|d IH|d IH|d IH];
    cbn [digits_of fold_left Pos.of_uint]; [reflexivity | exact IH |..];
    cbn [Z.of_N]; rewrite <- of_digits_acc; f_equal.
Qed.

Lemma lstrip_nospace l :
  Forall (fun c => Py.isspace c = false) l -> Py.lstrip l = l.
Proof. intros [|c r Hc Hr]; [reflexivity|]. cbn [Py.lstrip]. now rewrite Hc. Qed.

Lemma strip_nospace l :
  Forall (fun c => Py.isspace c = false) l -> Py.strip l = l.
Proof.
  intros Hl. unfold Py.strip. rewrite (lstrip_nospace l Hl).
  rewrite lstrip_nospace by now apply Forall_rev.
  apply rev_involutive.
Qed.

Lemma numeral_nospace d :
  Forall (fun c => Py.isspace c = false)
    (list_ascii_of_string (NilEmpty.string_of_uint d)).
Proof. induction d; constructor; trivial. Qed.

Lemma numeral_digits d : d <> Decimal.Nil -> digits_of d <> [].
Proof. destruct d; [contradiction | discriminate ..]. Qed.

(** [int] reads a numeral, with or without a minus sign, as the number
    it denotes. *)
Lemma int_of_numeral (neg : bool) d :
  d <> Decimal.Nil ->
  Py.int_of_string
    (NilZero.string_of_int (if neg then Decimal.Neg d else Decimal.Pos d)) =
  Some (Py.signed neg (Z.of_N (Pos.of_uint d))).
Proof.
  intros Hd.
  assert (Hs : NilZero.string_of_uint d = NilEmpty.string_of_uint d)
    by (destruct d; [contradiction | reflexivity ..]).
  assert (Hsign : Py.sign (list_ascii_of_string (NilEmpty.string_of_uint d)) =
                  (false, list_ascii_of_string (NilEmpty.string_of_uint d)))
    by (destruct d; [contradiction | reflexivity ..]).
  pose proof (numeral_digits d Hd) as Hne.
  unfold Py.int_of_string. destruct neg; cbn [NilZero.string_of_int]; rewrite Hs.
  - cbn [list_ascii_of_string]. rewrite strip_nospace
      by (constructor; [reflexivity | apply numeral_nospace]).
    cbn [Py.sign Ascii.eqb Bool.eqb]. rewrite digitpart_numeral, <- of_digits_numeral.
    destruct (digits_of d); [contradiction | reflexivity].
  - rewrite strip_nospace by apply numeral_nospace.
    rewrite Hsign, digitpart_numeral, <- of_digits_numeral.
    destruct (digits_of d); [contradiction | reflexivity].
Qed.

(** The round trip of an integer through its numeral: [int(str(n))] is
    [n]. *)
Lemma int_of_string_str n : Py.int_of_string (Py.str n) = Some n.
Proof.
  unfold Py.str. destruct n as [|p|p]; [reflexivity|..]; cbn [Z.to_int].
  - rewrite (int_of_numeral false) by apply Unsigned.to_uint_nonnil.
    now rewrite Unsigned.of_to.
  - rewrite (int_of_numeral true) by apply Unsigned.to_uint_nonnil.
    now rewrite Unsigned.of_to.
Qed.

Lemma str_injective a b : Py.str a = Py.str b -> a = b.
Proof.
  intros E. pose proof (int_of_string_str a) as Ha. rewrite E in Ha.
  rewrite int_of_string_str in Ha. now injection Ha.
Qed.

Lemma quantity_key_injective i j :
  quantity_key i = quantity_key j -> ci_id i = ci_id j.
Proof.
  unfold quantity_key. intros E. apply str_injective.
  cbn in E. now injection E.
Qed.

(* ===================================================================== *)
(** * The bulk update of the cart, when every value is an integer *)
(* ===================================================================== *)

(** The bulk update of a valid form, for a user who has a cart. *)
Lemma cart_post_valid user request w cart :
  healthy w -> result_cache w = None ->
  method request = POST -> req_user request = Some user ->
  filter (Models.Cart_of_user user) (carts (db w)) = [cart] ->
  (forall i p, In (i, p) (Views.items_of (db w) cart) ->
     requested (req_POST request) i <> None) ->
  let items := Views.items_of (db w) cart in
  let swept := sweep (req_POST request) 0 items (cart_items (db w)) items in
  respond (Views.cart request) w =
    (Redirect "cart" None,
     set_messages (messages w ++ [updated_message])
       (cart_world (fst (snd swept)) (snd (snd swept)) w)).
Proof.
  intros Hw Hc Hm Hu Hcart Hall items swept.
  unfold respond, Views.cart. rewrite (login_required_user _ _ _ Hu).
  rewrite (cart_view_post user request w cart Hw Hc Hm Hcart). cbv zeta.
  pose proof (sweep_finished (req_POST request) (Views.items_of (db w) cart) 0
                (cart_items (db w)) (Views.items_of (db w) cart) Hall) as Hfin.
  fold items in Hfin |- *. fold swept in Hfin |- *.
  destruct swept as [finished [rows cache]]. cbn [fst snd] in *.
  now rewrite Hfin.
Qed.



Lemma QueryDict_get_absent q key :
  (forall k v, In (k, v) q -> k <> key) -> Views.QueryDict_get q key = None.
Proof.
  induction q as [|[k v] q IH]; intros Hq; [reflexivity|].
  cbn [Views.QueryDict_get]. rewrite IH by (intros k' v' Hin; apply (Hq k' v'); now right).
  destruct (String.eqb_spec k key) as [E|]; [|reflexivity].
  now contradiction (Hq k v (or_introl eq_refl)).
Qed.



(* ===================================================================== *)
(** * Adding to the cart and the total *)
(* ===================================================================== *)

Lemma merged_other item quantity x :
  ci_id x <> ci_id item -> merged item quantity x = x.
Proof. unfold merged. intros Hne. now destruct (Z.eqb_spec (ci_id x) (ci_id item)). Qed.

Lemma merged_same item quantity :
  merged item quantity item = set_quantity (ci_quantity item + quantity) item.
Proof. unfold merged. now rewrite Z.eqb_refl. Qed.

Lemma sum_cons a l : sumZ (a :: l) = a + sumZ l.
Proof. reflexivity. Qed.

(** A sum over the rows of a cart, after the quantity of one row of the
    table has been raised. *)
Lemma sum_merged (f : CartItem -> Z) (cart : Cart) (item : CartItem) (quantity : Z) :
  forall rows, keyed rows -> In item rows ->
  sumZ (map f (filter (in_cart cart) (map (merged item quantity) rows))) =
  sumZ (map f (filter (in_cart cart) rows)) +
  if in_cart cart item
  then f (set_quantity (ci_quantity item + quantity) item) - f item
  else 0.
Proof.
  induction rows as [|x rows IH]; intros Hk Hin; [contradiction|].
  unfold keyed in Hk. cbn [map] in Hk. inversion Hk as [|? ? Hx Hrows]; subst.
  cbn [map filter]. destruct Hin as [-> | Hin].
  - rewrite merged_same.
    rewrite map_fixed.
    2:{ intros y Hy. apply merged_other. intros E. apply Hx. rewrite <- E.
        now apply in_map. }
    change (in_cart cart (set_quantity (ci_quantity item + quantity) item))
      with (in_cart cart item).
    destruct (in_cart cart item); cbn [map]; rewrite ?sum_cons; lia.
  - assert (Hne : ci_id x <> ci_id item).
    { intros E. apply Hx. cbn [pk CartItem_Model]. rewrite E. now apply in_map. }
    rewrite (merged_other item quantity x Hne).
    specialize (IH Hrows Hin).
    destruct (in_cart cart x); cbn [map]; rewrite ?sum_cons, IH; lia.
Qed.

Lemma find_filter_head {A} (p : A -> bool) (l : list A) :
  find p l = match filter p l with x :: _ => Some x | [] => None end.
Proof.
  induction l as [|x l IH]; [reflexivity|]. cbn [find filter].
  now destruct (p x).
Qed.

Lemma price_of_found d product_id product :
  filter (fun p => pr_id p =? product_id) (products d) = [product] ->
  price_of d product_id = pr_price product.
Proof. intros E. unfold price_of. now rewrite find_filter_head, E. Qed.



(* ===================================================================== *)
(** * The catalog query: its parameters *)
(* ===================================================================== *)

Lemma narrowed_text o o' qs (field : Product -> string) :
  option_map Py.lower_string o = option_map Py.lower_string o' ->
  narrowed o qs (fun s p => Views.icontains s (field p)) =
  narrowed o' qs (fun s p => Views.icontains s (field p)).
Proof.
  destruct o as [s|], o' as [s'|]; cbn [option_map narrowed]; try discriminate;
    [|reflexivity].
  intros [= E]. unfold Views.icontains. now rewrite E.
Qed.

(** The catalog query depends on its parameters through the criteria they
    supply only. *)
Lemma catalog_query_same q q' w :
  same_criteria q q' -> catalog_query q w = catalog_query q' w.
Proof.
  intros (Hc & Hs & Hf & Hmin & Hmax & Hb). unfold catalog_query.
  rewrite Hc, Hs, Hmin, Hmax.
  rewrite (narrowed_text (given q "fabric") (given q' "fabric") _ pr_fabric Hf).
  destruct (bound_of q' "price_min") as [[xmin| |]|]; try reflexivity;
    destruct (bound_of q' "price_max") as [[xmax| |]|]; try reflexivity;
    now rewrite (narrowed_text (given q "brand") (given q' "brand") _ pr_brand Hb).
Qed.

(** X19.  A parameter of the catalog query that is submitted empty, or
    that the view does not know, changes nothing: the view does exactly
    what it does for the same request without it. *)
Theorem empty_or_unknown_parameter (request : Request) (w : World) (key : string) :
  Views.QueryDict_get (req_GET request) key = Some "" \/
  ~ In key catalog_parameters ->
  Views.product_list request w =
  Views.product_list (with_GET (without key (req_GET request)) request) w.
Proof.
  intros Hkey. rewrite !product_list_staged. cbn [req_GET with_GET].
  apply catalog_query_same.
  assert (Hgiven : forall k, In k catalog_parameters ->
            given (req_GET request) k = given (without key (req_GET request)) k).
  { intros k Hk. rewrite given_without.
    destruct (String.eqb_spec key k) as [<- | _]; [|reflexivity].
    destruct Hkey as [E | Hnot]; [|contradiction].
    unfold given. now rewrite E. }
  assert (Hbound : forall k, In k catalog_parameters ->
            bound_of (req_GET request) k = bound_of (without key (req_GET request)) k).
  { intros k Hk. unfold bound_of. now rewrite (Hgiven k Hk). }
  unfold same_criteria, catalog_parameters in *.
  repeat split;
    first [apply Hgiven | apply Hbound | (f_equal; apply Hgiven)]; cbn; auto 10.
Qed.

Lemma empty_or_unknown_parameter_witness :
  Views.product_list
    (Sample.request GET Sample.alice [("category", "Men"); ("brand", ""); ("page", "2")])
    (start Sample.shop) =
  Views.product_list
    (Sample.request GET Sample.alice [("category", "Men"); ("page", "2")])
    (start Sample.shop).
Proof.
  apply (empty_or_unknown_parameter
           (Sample.request GET Sample.alice
              [("category", "Men"); ("brand", ""); ("page", "2")])
           (start Sample.shop) "brand").
  left. reflexivity.
Defined.





(* ===================================================================== *)
(** * Removing from the cart, twice *)
(* ===================================================================== *)

(** Removing an item of a cart of the user. *)
Lemma remove_from_cart_found user request w item_id item product :
  healthy w -> req_user request = Some user ->
  filter (Views.owned_item (db w) user item_id) (cart_items (db w)) = [item] ->
  filter (fun p => pr_id p =? ci_product item) (products (db w)) = [product] ->
  respond (Views.remove_from_cart request item_id) w =
  (Redirect "cart" None,
   set_messages
     (messages w ++ [(Success, (pr_name product ++ " removed from cart.")%string)])
     (set_db (with_table (ORM.deleted item (cart_items (db w))) (db w)) w)).
Proof.
  intros Hw Hu E Ep.
  unfold respond, Views.remove_from_cart.
  rewrite (login_required_user _ _ _ Hu). unfold Views.remove_from_cart_view.
  pose proof (get_object_or_404_found
                (Views.owned_item (db w) user item_id) Hw E) as G.
  pose proof (get_one (fun p => pr_id p =? ci_product item) Hw Ep) as Gp.
  match goal with |- context [try_except ?body _ _] =>
    assert (Body : body w =
              (Return tt,
               set_messages
                 (messages w ++ [(Success, (pr_name product ++ " removed from cart.")%string)])
                 (set_db (with_table (ORM.deleted item (cart_items (db w))) (db w)) w)))
  end.
  { unfold bind at 1, get_db.
    rewrite (bind_return G), (bind_return Gp).
    now rewrite (bind_return (delete_healthy item Hw)). }
  now rewrite (bind_return (try_return Body)).
Qed.

(** Removing an item that is not in a cart of the user. *)
Lemma remove_from_cart_missing user request w item_id :
  healthy w -> req_user request = Some user ->
  filter (Views.owned_item (db w) user item_id) (cart_items (db w)) = [] ->
  respond (Views.remove_from_cart request item_id) w =
  (Redirect "cart" None, set_messages (messages w ++ [removal_error]) w).
Proof.
  intros Hw Hu E.
  unfold respond, Views.remove_from_cart.
  rewrite (login_required_user _ _ _ Hu). unfold Views.remove_from_cart_view.
  pose proof (get_object_or_404_missing
                (Views.owned_item (db w) user item_id) Hw E) as G.
  match goal with |- context [try_except ?body _ _] =>
    assert (Body : body w = (Raise Http404, w))
      by (unfold bind at 1, get_db; exact (bind_raise G))
  end.
  now rewrite (bind_return (try_caught Body eq_refl)).
Qed.

(** X22.  Removing an item of the cart a second time: the first request
    deletes the row; the second finds no such item, reports the error
    and leaves the store as the first request left it. *)
Theorem remove_from_cart_twice (user : User) (first second : Request)
    (w : World) (item_id : Z) (item : CartItem) (product : Product) :
  healthy w -> req_user first = Some user -> req_user second = Some user ->
  keyed (cart_items (db w)) ->
  belongs (db w) user item_id item ->
  filter (fun p => pr_id p =? ci_product item) (products (db w)) = [product] ->
  let w1 := snd (respond (Views.remove_from_cart first item_id) w) in
  let w2 := snd (respond (Views.remove_from_cart second item_id) w1) in
  cart_items (db w1) = ORM.deleted item (cart_items (db w)) /\
  ~ In item (cart_items (db w1)) /\
  db w2 = db w1 /\
  messages w2 = messages w1 ++ [removal_error].
Proof.
  intros Hw Hu1 Hu2 Hk Hitem Ep w1 w2.
  pose proof Hitem as (Hin & Hid & _).
  assert (E : filter (Views.owned_item (db w) user item_id) (cart_items (db w)) = [item]).
  { destruct (owned_cases (db w) user item_id Hk) as [E | [item' E]];
      apply belongs_owned in Hitem; rewrite E in Hitem;
      [contradiction | now destruct Hitem as [-> | []]]. }
  assert (E1 : w1 = set_messages
                      (messages w ++ [(Success, (pr_name product ++ " removed from cart.")%string)])
                      (set_db (with_table (ORM.deleted item (cart_items (db w))) (db w)) w))
    by (unfold w1; now rewrite (remove_from_cart_found user first w item_id item
                                  product Hw Hu1 E Ep)).
  assert (Hrows : cart_items (db w1) = ORM.deleted item (cart_items (db w)))
    by now rewrite E1.
  assert (Hw1 : healthy w1) by (rewrite E1; exact Hw).
  assert (Hgone : filter (Views.owned_item (db w1) user item_id) (cart_items (db w1)) = []).
  { apply filter_none. intros r Hr. rewrite Hrows in Hr.
    apply in_deleted in Hr as [_ Hne]. unfold Views.owned_item.
    cbn [pk CartItem_Model] in Hne.
    destruct (Z.eqb_spec (ci_id r) item_id) as [Er|]; [|reflexivity].
    exfalso. apply Hne. now rewrite Er, Hid. }
  split; [exact Hrows|]. split.
  - rewrite Hrows. intros H. apply in_deleted in H as [_ Hne]. now apply Hne.
  - unfold w2.
    rewrite (remove_from_cart_missing user second w1 item_id Hw1 Hu2 Hgone).
    split; reflexivity.
Qed.

Lemma remove_from_cart_twice_witness :
  let w1 := snd (respond (Views.remove_from_cart
                            (Sample.request POST Sample.alice []) 2)
                   (start Sample.shop)) in
  let w2 := snd (respond (Views.remove_from_cart
                            (Sample.request POST Sample.alice []) 2) w1) in
  cart_items (db w1) = [Sample.shirts; Sample.bob_shirt] /\ db w2 = db w1.
Proof.
  destruct (remove_from_cart_twice Sample.alice
              (Sample.request POST Sample.alice [])
              (Sample.request POST Sample.alice [])
              (start Sample.shop) 2 Sample.coats Sample.coat)
    as (Hrows & _ & Hdb & _).
  - reflexivity.
  - reflexivity.
  - reflexivity.
  - apply sample_shop_ok.
  - split; [right; now left|]. split; [reflexivity|].
    exists Sample.alice_cart. split; [now left|]. split; reflexivity.
  - reflexivity.
  - split; [exact Hrows | exact Hdb].
Defined.

(* ===================================================================== *)
(** * Adding to the cart and removing again *)
(* ===================================================================== *)

(** Adding a product that the cart of the user does not hold. *)
Lemma add_to_cart_new user request w product_id product cart :
  healthy w -> req_user request = Some user ->
  filter (fun p => pr_id p =? product_id) (products (db w)) = [product] ->
  filter (Models.Cart_of_user user) (carts (db w)) = [cart] ->
  filter (Views.CartItem_of cart product) (cart_items (db w)) = [] ->
  let item := new_item cart product (requested_quantity (req_POST request)) (db w) in
  respond (Views.add_to_cart request product_id) w =
  (Redirect "cart" None,
   set_messages (messages w ++ [(Success, (pr_name product ++ " added to cart!")%string)])
     (set_db (with_table (cart_items (db w) ++ [item]) (db w)) w)).
Proof.
  intros Hw Hu Ep Ec Ei item.
  unfold respond, Views.add_to_cart.
  rewrite (login_required_user _ _ _ Hu). unfold Views.add_to_cart_view.
  pose proof (get_object_or_404_found (fun p => pr_id p =? product_id) Hw Ep) as G0.
  pose proof (get_or_create_found (Models.Cart_of_user user)
                (Models.new_Cart user) Hw Ec) as G1.
  pose proof (get_or_create_missing (Views.CartItem_of cart product)
                {| ci_id := 0; ci_cart := cart_id cart; ci_product := pr_id product;
                   ci_quantity := requested_quantity (req_POST request) |}
                Hw Ei) as G2.
  rewrite (bind_return G0), (bind_return G1). cbv beta iota.
  rewrite (bind_return (quantity_stage (req_POST request) w)).
  now rewrite (bind_return G2).
Qed.



(* ===================================================================== *)
(** * Two rows for a product in a cart *)
(* ===================================================================== *)

(** X23.  The models declare no uniqueness of the cart and the product of
    a cart item.  When a cart does hold two rows for a product, adding
    that product to the cart fails: the lookup raises
    [MultipleObjectsReturned], which the view does not catch, and no
    row is changed. *)
Theorem add_to_cart_fails_on_duplicate_rows (user : User) (request : Request)
    (w : World) (product_id : Z) (product : Product) (cart : Cart)
    (item item' : CartItem) (rest : list CartItem) :
  healthy w -> req_user request = Some user ->
  filter (fun p => pr_id p =? product_id) (products (db w)) = [product] ->
  filter (Models.Cart_of_user user) (carts (db w)) = [cart] ->
  filter (Views.CartItem_of cart product) (cart_items (db w)) = item :: item' :: rest ->
  respond (Views.add_to_cart request product_id) w =
    (ServerError MultipleObjectsReturned, w).
Proof.
  intros Hw Hu Ep Ec Ei.
  unfold respond, Views.add_to_cart.
  rewrite (login_required_user _ _ _ Hu). unfold Views.add_to_cart_view.
  pose proof (get_object_or_404_found (fun p => pr_id p =? product_id) Hw Ep) as G0.
  pose proof (get_or_create_found (Models.Cart_of_user user)
                (Models.new_Cart user) Hw Ec) as G1.
  pose proof (get_or_create_many (Views.CartItem_of cart product)
                {| ci_id := 0; ci_cart := cart_id cart; ci_product := pr_id product;
                   ci_quantity := requested_quantity (req_POST request) |}
                Hw Ei) as G2.
  rewrite (bind_return G0), (bind_return G1). cbv beta iota.
  rewrite (bind_return (quantity_stage (req_POST request) w)).
  now rewrite (bind_raise G2).
Qed.

Lemma add_to_cart_fails_on_duplicate_rows_witness :
  let d := with_table (cart_items Sample.shop ++
                       [{| ci_id := 4; ci_cart := 1; ci_product := 1;
                           ci_quantity := 1 |}]) Sample.shop in
  respond (Views.add_to_cart (Sample.request POST Sample.alice []) 1) (start d) =
    (ServerError MultipleObjectsReturned, start d).
Proof.
  intros d.
  apply (add_to_cart_fails_on_duplicate_rows Sample.alice
           (Sample.request POST Sample.alice []) (start d) 1 Sample.shirt
           Sample.alice_cart Sample.shirts
           {| ci_id := 4; ci_cart := 1; ci_product := 1; ci_quantity := 1 |} []);
    reflexivity.
Defined.

Lemma wishlist_add_then_remove_witness :
  let w1 := snd (respond (Views.add_to_wishlist
                            (Sample.request POST Sample.alice []) 1)
                   (start Sample.shop)) in
  let w2 := snd (respond (Views.remove_from_wishlist
                            (Sample.request POST Sample.alice []) 1) w1) in
  wished (db w1) = [(1, 2); (1, 1)] /\ db w2 = Sample.shop.
Proof.
  destruct (wishlist_add_then_remove Sample.alice
              (Sample.request POST Sample.alice [])
              (Sample.request POST Sample.alice [])
              (start Sample.shop) 1 Sample.shirt Sample.alice_wishlist)
    as (_ & Hdb & _).
  - reflexivity.
  - reflexivity.
  - reflexivity.
  - reflexivity.
  - reflexivity.
  - intros [E | []]. discriminate E.
  - split; [reflexivity | exact Hdb].
Defined.

(* ===================================================================== *)
(** * The cart of a new user *)
(* ===================================================================== *)

(** X24.  After a registration that went through, the first view of the
    cart by the new user shows an empty cart with total 0, and writes
    nothing: the cart that the registration created is found. *)
Theorem new_user_has_empty_cart
    (UserCreationForm : DB -> QueryDict -> User + list (string * list string))
    (request view : Request) (w : World) (fields : User) :
  healthy w -> method request = POST ->
  UserCreationForm (db w) (req_POST request) = inl fields ->
  owned_by_users (db w) -> items_in_carts (db w) ->
  method view = GET -> req_user view = Some (inserted fields (db w)) ->
  let w' := next_request (snd (respond (Views.signup UserCreationForm request) w)) in
  respond (Views.cart view) w' =
    (Render "catalog/cart.html" (CartContext [] 0), set_result_cache (Some []) w').
Proof.
  intros Hw Hm Hform Hown Hitems Hview Hu w'.
  set (user := inserted fields (db w)) in *.
  destruct (signup_run UserCreationForm request w fields Hw Hm Hform Hown)
    as (w1 & G & Hrun).
  destruct (User_create_healthy fields w Hw Hown)
    as (w1' & G' & Hw1 & _ & Kc & _ & _ & _ & Ks & _).
  fold user in G, G', Hrun, Kc. rewrite G in G'. injection G' as <-.
  destruct (fresh_user_owns_nothing (db w) fields Hown) as (_ & Ec & _).
  fold user in Ec.
  set (cart := inserted (Models.new_Cart user) (db w)) in *.
  assert (Hw' : healthy w') by (unfold w'; rewrite Hrun; exact Hw1).
  assert (Hcarts : carts (db w') = carts (db w) ++ [cart])
    by (unfold w'; rewrite Hrun; exact Kc).
  assert (Hrows : cart_items (db w') = cart_items (db w)).
  { unfold w'. rewrite Hrun. unfold shop_tables in Ks. now injection Ks. }
  assert (Fc : filter (Models.Cart_of_user user) (carts (db w')) = [cart])
    by (rewrite Hcarts; apply filter_app_one; [exact Ec | apply Z.eqb_refl]).
  assert (Hnone : Views.items_of (db w') cart = []).
  { unfold Views.items_of. rewrite Hrows.
    rewrite (filter_none (fun i => ci_cart i =? cart_id cart)); [reflexivity|].
    intros i Hi. apply Z.eqb_neq. intros E.
    apply Hitems in Hi. apply in_map_iff in Hi as (c & Ecart & Hc).
    pose proof (next_pk_fresh (carts (db w)) c Hc) as Hlt.
    unfold cart, inserted in E.
    cbn [with_pk Cart_Model cart_id table pk] in E, Hlt. lia. }
  unfold respond, Views.cart. rewrite (login_required_user _ _ _ Hu).
  rewrite (cart_view_get user view w' cart Hw' eq_refl Hview Fc). cbv zeta.
  now rewrite Hnone.
Qed.

Lemma new_user_has_empty_cart_witness :
  let w' := next_request
              (snd (respond (Views.signup Signup.form Signup.request)
                      (start Sample.shop))) in
  respond (Views.cart (Sample.request GET {| user_id := 3; username := "carol" |} []))
    w' =
  (Render "catalog/cart.html" (CartContext [] 0), set_result_cache (Some []) w').
Proof.
  apply (new_user_has_empty_cart Signup.form Signup.request
           (Sample.request GET {| user_id := 3; username := "carol" |} [])
           (start Sample.shop) Signup.carol); try reflexivity.
  - unfold owned_by_users. cbn.
    repeat split; intros x Hx;
      repeat (destruct Hx as [<- | Hx]; [cbn; tauto|]); destruct Hx.
  - intros i Hi. cbn in Hi.
    repeat (destruct Hi as [<- | Hi]; [cbn; tauto|]). destruct Hi.
Defined.

(* ===================================================================== *)
(** * Repair on first access: an instance *)
(* ===================================================================== *)

Lemma first_access_repairs_witness :
  count (Models.Cart_of_user Signup.carol)
    (carts (db (snd (respond (Views.cart (Sample.request GET Signup.carol []))
                       (start Sample.shop))))) = 1%nat.
Proof.
  apply (first_access_repairs Signup.carol (Sample.request GET Signup.carol [])
           (start Sample.shop)); try reflexivity.
  unfold one_to_one, count. cbn. lia.
Defined.
